(** * Whisker Auth TXA: credential hashing, license keys and the seeded schema

    A shallow embedding of [generate_license.py] and [setup_database.py].

    Conventions.
    - A Python [bytes] value is a [list byte].
    - A Python [str] is a [string], standing for the bytes of its UTF-8
      encoding; [data.encode()] is therefore [list_byte_of_string] and
      [.decode('utf-8')] is [string_of_list_byte].  Strings holding lone
      surrogates have no UTF-8 encoding and are outside this type.
    - The operating system's entropy source behind the [secrets] module is an
      explicit state ([csprng]) threaded through every call that draws from it.
    - 32-bit words of SHA-256 are [Z] values reduced modulo [2^32]. *)

From Stdlib Require Import ZArith NArith Lia List Bool String Ascii.
From Stdlib Require Import Init.Byte.
From Stdlib Require Strings.Byte.
Import ListNotations.

Local Open Scope Z_scope.

(* ------------------------------------------------------------------------- *)
(** ** Bytes *)

Module Bytes.

(** The byte with value [z mod 256]. *)
Definition of_Z (z : Z) : byte :=
  match Strings.Byte.of_N (Z.to_N (z mod 256)) with
  | Some b => b
  | None => x00
  end.

Definition to_Z (b : byte) : Z := Z.of_N (Strings.Byte.to_N b).

(** [bytes(a ^ b for a, b in zip(xs, ys))] *)
Fixpoint xor (xs ys : list byte) : list byte :=
  match xs, ys with
  | x :: xs', y :: ys' => of_Z (Z.lxor (to_Z x) (to_Z y)) :: xor xs' ys'
  | _, _ => []
  end.

(** [n.to_bytes(4, 'big')] for [0 <= n < 2^32]. *)
Definition be32 (n : Z) : list byte :=
  [of_Z (Z.shiftr n 24); of_Z (Z.shiftr n 16); of_Z (Z.shiftr n 8); of_Z n].

(** [int.from_bytes(bs, 'big')] *)
Definition from_be (bs : list byte) : Z :=
  fold_left (fun acc b => Z.lor (Z.shiftl acc 8) (to_Z b)) bs 0.

(** [bs.hex()]: two lowercase hexadecimal digits per byte. *)
Definition hex_digit (n : Z) : byte :=
  nth (Z.to_nat n) (list_byte_of_string "0123456789abcdef") "0"%byte.

Definition hex (bs : list byte) : list byte :=
  flat_map (fun b => [hex_digit (to_Z b / 16); hex_digit (to_Z b mod 16)]) bs.

(** [str.upper()] on one UTF-8 byte: ASCII [a-z] go to [A-Z]; every other
    byte of the strings handled here (digits and letters) stays. *)
Definition upper_byte (b : byte) : byte :=
  if (97 <=? to_Z b) && (to_Z b <=? 122) then of_Z (to_Z b - 32) else b.

Definition is_upper_hex (b : byte) : bool :=
  ((48 <=? to_Z b) && (to_Z b <=? 57)) || ((65 <=? to_Z b) && (to_Z b <=? 70)).

(** The value of a hexadecimal digit of either case. *)
Definition hex_value (c : byte) : Z :=
  let z := to_Z c in
  if (48 <=? z) && (z <=? 57) then z - 48
  else if (65 <=? z) && (z <=? 70) then z - 55
  else if (97 <=? z) && (z <=? 102) then z - 87
  else 0.

(** [bytes.fromhex(s)] on a string of hexadecimal digits: the inverse of
    [hex]. *)
Fixpoint fromhex (cs : list byte) : list byte :=
  match cs with
  | hi :: lo :: rest => of_Z (16 * hex_value hi + hex_value lo) :: fromhex rest
  | _ => []
  end.

End Bytes.

(** [s.upper()] *)
Definition upper (s : string) : string :=
  string_of_list_byte (map Bytes.upper_byte (list_byte_of_string s)).

(* ------------------------------------------------------------------------- *)
(** ** The [secrets] module *)

Module Secrets.

(** The entropy source: an unbounded supply of bytes and how many of them
    have been handed out. *)
Record csprng : Type := mk_csprng { supply : nat -> byte; consumed : nat }.

(** A computation that draws from the entropy source. *)
Definition Rand (A : Type) : Type := csprng -> A * csprng.

Definition ret {A} (a : A) : Rand A := fun g => (a, g).

Definition bind {A B} (m : Rand A) (k : A -> Rand B) : Rand B :=
  fun g => let (a, g') := m g in k a g'.

(** [secrets.token_bytes(n)] *)
Definition token_bytes (n : nat) : Rand (list byte) :=
  fun g =>
    (map (supply g) (seq (consumed g) n),
     mk_csprng (supply g) (consumed g + n)).

(** [secrets.token_hex(n)]: [token_bytes(n).hex()] *)
Definition token_hex (n : nat) : Rand string :=
  bind (token_bytes n) (fun bs => ret (string_of_list_byte (Bytes.hex bs))).

End Secrets.

Notation "x <- m ;; k" := (Secrets.bind m (fun x => k))
  (at level 61, m at next level, right associativity).

(* ------------------------------------------------------------------------- *)
(** ** generate_license.py *)

Module GenerateLicense.

(** [def generate_license_key(): return secrets.token_hex(32).upper()] *)
Definition generate_license_key : Secrets.Rand string :=
  k <- Secrets.token_hex 32 ;; Secrets.ret (upper k).

End GenerateLicense.

(* ------------------------------------------------------------------------- *)
(** ** The [hashlib] and [hmac] modules *)

Module Hashlib.

Definition wrap32 (x : Z) : Z := Z.land x 0xffffffff.

Definition add32 (x y : Z) : Z := wrap32 (x + y).

(** Rotation of a 32-bit word to the right by [n] places. *)
Definition rotr (n x : Z) : Z :=
  Z.lor (Z.shiftr x n) (wrap32 (Z.shiftl x (32 - n))).

Definition choose (e f g : Z) : Z :=
  Z.lxor (Z.land e f) (Z.land (Z.lxor e 0xffffffff) g).

Definition majority (a b c : Z) : Z :=
  Z.lxor (Z.lxor (Z.land a b) (Z.land a c)) (Z.land b c).

Definition big_sigma0 (a : Z) : Z :=
  Z.lxor (Z.lxor (rotr 2 a) (rotr 13 a)) (rotr 22 a).

Definition big_sigma1 (e : Z) : Z :=
  Z.lxor (Z.lxor (rotr 6 e) (rotr 11 e)) (rotr 25 e).

Definition small_sigma0 (x : Z) : Z :=
  Z.lxor (Z.lxor (rotr 7 x) (rotr 18 x)) (Z.shiftr x 3).

Definition small_sigma1 (x : Z) : Z :=
  Z.lxor (Z.lxor (rotr 17 x) (rotr 19 x)) (Z.shiftr x 10).

(** Big-endian 32-bit words of a byte string (a trailing partial word is
    dropped; padded messages have none). *)
Fixpoint words (bs : list byte) : list Z :=
  match bs with
  | b0 :: b1 :: b2 :: b3 :: rest => Bytes.from_be [b0; b1; b2; b3] :: words rest
  | _ => []
  end.

(** The 64 round constants of SHA-256 (the first 32 bits of the fractional
    parts of the cube roots of the first 64 primes), in hexadecimal. *)
Definition round_constants : list Z :=
  Eval vm_compute in
    words (Bytes.fromhex (list_byte_of_string
      ("428a2f9871374491b5c0fbcfe9b5dba53956c25b59f111f1923f82a4ab1c5ed5"
       ++ "d807aa9812835b01243185be550c7dc372be5d7480deb1fe9bdc06a7c19bf174"
       ++ "e49b69c1efbe47860fc19dc6240ca1cc2de92c6f4a7484aa5cb0a9dc76f988da"
       ++ "983e5152a831c66db00327c8bf597fc7c6e00bf3d5a7914706ca635114292967"
       ++ "27b70a852e1b21384d2c6dfc53380d13650a7354766a0abb81c2c92e92722c85"
       ++ "a2bfe8a1a81a664bc24b8b70c76c51a3d192e819d6990624f40e3585106aa070"
       ++ "19a4c1161e376c082748774c34b0bcb5391c0cb34ed8aa4a5b9cca4f682e6ff3"
       ++ "748f82ee78a5636f84c878148cc7020890befffaa4506cebbef9a3f7c67178f2")%string)).

(** The eight working words [a .. h]. *)
Record chain : Type :=
  mk_chain { ha : Z; hb : Z; hc : Z; hd : Z; he : Z; hf : Z; hg : Z; hh : Z }.

Definition chain_of_words (ws : list Z) : chain :=
  mk_chain (nth 0 ws 0) (nth 1 ws 0) (nth 2 ws 0) (nth 3 ws 0)
           (nth 4 ws 0) (nth 5 ws 0) (nth 6 ws 0) (nth 7 ws 0).

(** The initial hash value (from the square roots of the first 8 primes). *)
Definition initial_chain : chain :=
  Eval vm_compute in
    chain_of_words
      (words (Bytes.fromhex (list_byte_of_string
         "6a09e667bb67ae853c6ef372a54ff53a510e527f9b05688c1f83d9ab5be0cd19"))).

(** Message padding: a [0x80] byte, zeros up to 56 modulo 64, then the
    length of the message in bits as a 64-bit big-endian integer. *)
Definition padding (len : nat) : list byte :=
  let bits := 8 * Z.of_nat len in
  x80 :: repeat x00 (Z.to_nat ((55 - Z.of_nat len) mod 64))
      ++ Bytes.be32 (Z.shiftr bits 32) ++ Bytes.be32 bits.

(** Cut a list into pieces of [S n] elements, [fuel] pieces at most. *)
Fixpoint chunks {A} (fuel n : nat) (xs : list A) : list (list A) :=
  match fuel, xs with
  | O, _ | _, [] => []
  | S fuel', _ => firstn (S n) xs :: chunks fuel' n (skipn (S n) xs)
  end.

(** Message schedule, newest word first: [rw] holds [W(t-1), W(t-2), ...]. *)
Fixpoint extend_schedule (n : nat) (rw : list Z) : list Z :=
  match n with
  | O => rw
  | S n' =>
      let w := add32 (add32 (small_sigma1 (nth 1 rw 0)) (nth 6 rw 0))
                     (add32 (small_sigma0 (nth 14 rw 0)) (nth 15 rw 0)) in
      extend_schedule n' (w :: rw)
  end.

Definition schedule (block : list Z) : list Z :=
  rev (extend_schedule 48 (rev block)).

Definition round (s : chain) (kw : Z * Z) : chain :=
  let t1 := add32 (add32 (add32 (hh s) (big_sigma1 (he s)))
                         (add32 (choose (he s) (hf s) (hg s)) (fst kw)))
                  (snd kw) in
  let t2 := add32 (big_sigma0 (ha s)) (majority (ha s) (hb s) (hc s)) in
  mk_chain (add32 t1 t2) (ha s) (hb s) (hc s)
           (add32 (hd s) t1) (he s) (hf s) (hg s).

(** One application of the compression function to a 16-word block. *)
Definition compress (s : chain) (block : list Z) : chain :=
  let r := fold_left round (combine round_constants (schedule block)) s in
  mk_chain (add32 (ha s) (ha r)) (add32 (hb s) (hb r))
           (add32 (hc s) (hc r)) (add32 (hd s) (hd r))
           (add32 (he s) (he r)) (add32 (hf s) (hf r))
           (add32 (hg s) (hg r)) (add32 (hh s) (hh r)).

Definition chain_bytes (s : chain) : list byte :=
  Bytes.be32 (ha s) ++ Bytes.be32 (hb s) ++ Bytes.be32 (hc s)
    ++ Bytes.be32 (hd s) ++ Bytes.be32 (he s) ++ Bytes.be32 (hf s)
    ++ Bytes.be32 (hg s) ++ Bytes.be32 (hh s).

(** [hashlib.sha256(msg).digest()] *)
Definition sha256 (msg : list byte) : list byte :=
  let padded := msg ++ padding (List.length msg) in
  chain_bytes
    (fold_left compress (chunks (List.length padded) 15 (words padded))
               initial_chain).

Definition block_size : nat := 64.
Definition digest_size : nat := 32.

(** The key of an HMAC as the hash sees it: a key longer than one block is
    replaced by its digest, then the key is filled with zero bytes up to
    the block size. *)
Definition key_block (key : list byte) : list byte :=
  let k := if (block_size <? List.length key)%nat then sha256 key else key in
  k ++ repeat x00 (block_size - List.length k).

Definition translate (pad : Z) (kb : list byte) : list byte :=
  map (fun b => Bytes.of_Z (Z.lxor (Bytes.to_Z b) pad)) kb.

(** The pseudo-random function of PBKDF2 for a prepared key block:
    [outer(kb ^ 0x5c || inner(kb ^ 0x36 || msg))]. *)
Definition prf (kb msg : list byte) : list byte :=
  sha256 (translate 0x5c kb ++ sha256 (translate 0x36 kb ++ msg)).

(** [hmac.new(key, msg, 'sha256').digest()] *)
Definition hmac_sha256 (key msg : list byte) : list byte :=
  prf (key_block key) msg.

(** One output block of PBKDF2: the first PRF value is computed from the
    salt and the block index, then [iterations - 1] further PRF values are
    chained and folded in by exclusive or. The loop state is
    [(prev, rkey)]. *)
Definition pbkdf2_step (kb : list byte) (st : list byte * list byte)
  : list byte * list byte :=
  let prev := prf kb (fst st) in (prev, Bytes.xor (snd st) prev).

Definition pbkdf2_block (kb salt : list byte) (iterations : N) (loop : nat)
  : list byte :=
  let prev := prf kb (salt ++ Bytes.be32 (Z.of_nat loop)) in
  snd (N.iter (iterations - 1) (pbkdf2_step kb) (prev, prev)).

(** [hashlib.pbkdf2_hmac('sha256', password, salt, iterations, dklen)];
    [None] stands for the [ValueError] raised when [iterations < 1] or
    [dklen < 1]. With [dklen=None] the key has the size of one digest. *)
Definition pbkdf2_hmac_sha256
    (password salt : list byte) (iterations : N) (dklen : option nat)
  : option (list byte) :=
  let n := match dklen with Some n => n | None => digest_size end in
  if (iterations <? 1)%N || (n <? 1)%nat then None
  else
    let kb := key_block password in
    let blocks := ((n + digest_size - 1) / digest_size)%nat in
    Some (firstn n
            (flat_map (pbkdf2_block kb salt iterations) (seq 1 blocks))).

(** [hmac.compare_digest(a, b)]: the differences of all positions are
    accumulated, so the running time does not depend on where the inputs
    differ. *)
Definition compare_digest (a b : list byte) : bool :=
  (List.length a =? List.length b)%nat
  && (fold_left Z.lor
        (map (fun p => Z.lxor (Bytes.to_Z (fst p)) (Bytes.to_Z (snd p)))
             (combine a b)) 0 =? 0).

End Hashlib.

(* ------------------------------------------------------------------------- *)
(** ** The [base64] module *)

Module Base64.

Definition alphabet : list byte :=
  list_byte_of_string
    "ABCDEFGHIJKLMNOPQRSTUVWXYZabcdefghijklmnopqrstuvwxyz0123456789+/".

Definition pad : byte := "="%byte.

(** The character of a 6-bit value. *)
Definition encode_sextet (n : Z) : byte := nth (Z.to_nat n) alphabet pad.

(** Position of [c] in [cs], counted from [i]. *)
Fixpoint index_from (i : Z) (c : byte) (cs : list byte) : option Z :=
  match cs with
  | [] => None
  | c' :: cs' => if Strings.Byte.eqb c c' then Some i else index_from (i + 1) c cs'
  end.

(** The 6-bit value of a character, if it belongs to the alphabet. *)
Definition decode_sextet (c : byte) : option Z := index_from 0 c alphabet.

(** The four characters of a 24-bit group. *)
Definition encode_group (n : Z) : list byte :=
  [encode_sextet (Z.shiftr n 18); encode_sextet (Z.land (Z.shiftr n 12) 63);
   encode_sextet (Z.land (Z.shiftr n 6) 63); encode_sextet (Z.land n 63)].

(** [base64.b64encode(bs)] *)
Fixpoint b64encode (bs : list byte) : list byte :=
  match bs with
  | [] => []
  | [b0] =>
      firstn 2 (encode_group (Z.shiftl (Bytes.to_Z b0) 16)) ++ [pad; pad]
  | [b0; b1] =>
      firstn 3 (encode_group (Z.shiftl (Bytes.from_be [b0; b1]) 8)) ++ [pad]
  | b0 :: b1 :: b2 :: rest =>
      encode_group (Bytes.from_be [b0; b1; b2]) ++ b64encode rest
  end.

(** The 24-bit value of four alphabet characters. *)
Definition decode_group (c0 c1 c2 c3 : byte) : option Z :=
  match decode_sextet c0, decode_sextet c1, decode_sextet c2, decode_sextet c3 with
  | Some s0, Some s1, Some s2, Some s3 =>
      Some (Z.lor (Z.lor (Z.shiftl s0 18) (Z.shiftl s1 12))
                  (Z.lor (Z.shiftl s2 6) s3))
  | _, _, _, _ => None
  end.

Definition group_bytes (n : Z) : list byte :=
  [Bytes.of_Z (Z.shiftr n 16); Bytes.of_Z (Z.shiftr n 8); Bytes.of_Z n].

(** [base64.b64decode(cs, validate=True)]; [None] stands for the
    [binascii.Error] raised on a character outside the alphabet, on a
    length that is no multiple of four and on misplaced padding. Unused
    low bits of a final padded group are ignored, as Python does. *)
Fixpoint b64decode (cs : list byte) : option (list byte) :=
  match cs with
  | [] => Some []
  | c0 :: c1 :: c2 :: c3 :: rest =>
      if Strings.Byte.eqb c3 pad then
        match rest with
        | [] =>
            if Strings.Byte.eqb c2 pad
            then option_map (fun n => firstn 1 (group_bytes n))
                            (decode_group c0 c1 "A"%byte "A"%byte)
            else option_map (fun n => firstn 2 (group_bytes n))
                            (decode_group c0 c1 c2 "A"%byte)
        | _ :: _ => None
        end
      else
        match decode_group c0 c1 c2 c3, b64decode rest with
        | Some n, Some bs => Some (group_bytes n ++ bs)
        | _, _ => None
        end
  | _ => None
  end.

End Base64.

(* ------------------------------------------------------------------------- *)
(** ** The [sqlite3] store, as far as the setup script exercises it *)

Module Sqlite.

(** A stored value. Python [str] binds to [Text], Python [int] to
    [Integer]; a column left out of an insert holds its default or [Null]. *)
Inductive value : Type :=
| Null
| Integer (z : Z)
| Text (s : string).

Definition value_eqb (a b : value) : bool :=
  match a, b with
  | Null, Null => true
  | Integer x, Integer y => x =? y
  | Text x, Text y => String.eqb x y
  | _, _ => false
  end.

Definition is_null (v : value) : bool :=
  match v with Null => true | _ => false end.

Inductive sql_type : Type := INTEGER | TEXT | BOOLEAN | DATETIME.

Inductive constraint : Type :=
| PRIMARY_KEY
| UNIQUE
| NOT_NULL
| DEFAULT (v : value)
| DEFAULT_CURRENT_TIMESTAMP.

Record column : Type :=
  mk_column { col_name : string; col_type : sql_type;
              col_constraints : list constraint }.

(** [FOREIGN KEY (fk_column) REFERENCES fk_table(fk_parent)] *)
Record foreign_key : Type :=
  mk_fk { fk_column : string; fk_table : string; fk_parent : string }.

Record table : Type :=
  mk_table { tbl_name : string; tbl_columns : list column;
             tbl_foreign_keys : list foreign_key }.

Definition is_primary_key (c : column) : bool :=
  existsb (fun k => match k with PRIMARY_KEY => true | _ => false end)
          (col_constraints c).

Definition is_unique (c : column) : bool :=
  existsb (fun k => match k with UNIQUE => true | _ => false end)
          (col_constraints c).

Definition is_not_null (c : column) : bool :=
  existsb (fun k => match k with NOT_NULL => true | _ => false end)
          (col_constraints c).

(** The value a column takes when an insert does not name it. *)
Fixpoint default_of (now : string) (ks : list constraint) : value :=
  match ks with
  | [] => Null
  | DEFAULT v :: _ => v
  | DEFAULT_CURRENT_TIMESTAMP :: _ => Text now
  | _ :: ks' => default_of now ks'
  end.

(** A row: the value of each column, by column name. *)
Definition row : Type := list (string * value).

Fixpoint assoc {A} (k : string) (l : list (string * A)) : option A :=
  match l with
  | [] => None
  | (k', a) :: l' => if String.eqb k k' then Some a else assoc k l'
  end.

Definition get (r : row) (c : string) : value :=
  match assoc c r with Some v => v | None => Null end.

(** The largest integer stored in column [c], if there is one. *)
Definition largest_id (c : string) (rows : list row) : option Z :=
  fold_left (fun m r => match get r c, m with
                        | Integer z, Some x => Some (Z.max x z)
                        | Integer z, None => Some z
                        | _, _ => m
                        end) rows None.

(** Does some row hold the integer [z] in column [c]? *)
Definition used_id (c : string) (z : Z) (rows : list row) : bool :=
  existsb (fun r => value_eqb (get r c) (Integer z)) rows.

(** The least positive integer that no row holds in column [c]; among the
    first [length rows + 1] positive integers one is always free. *)
Definition unused_id (c : string) (rows : list row) : Z :=
  match find (fun z => negb (used_id c z rows))
             (map Z.of_nat (seq 1 (S (List.length rows)))) with
  | Some z => z
  | None => 1
  end.

(** The largest row id of SQLite, a signed 64-bit integer. *)
Definition max_rowid : Z := 2 ^ 63 - 1.

(** The row id SQLite gives a row inserted without one: 1 in an empty
    table, else one more than the largest id stored, negative ids included.
    When the largest id is [max_rowid] SQLite draws positive ids at random
    until it finds an unused one; of the ids it may find there the model
    takes the least. *)
Definition next_rowid (c : string) (rows : list row) : Z :=
  match largest_id c rows with
  | Some m => if m =? max_rowid then unused_id c rows else m + 1
  | None => 1
  end.

(** The row an [INSERT] builds from the named columns: a named column takes
    the bound value, any other its default; an [INTEGER PRIMARY KEY] left
    [NULL] takes the next row id. *)
Definition build_row
    (t : table) (now : string) (bound : list (string * value))
    (rows : list row) : row :=
  map (fun c =>
         let v := match assoc (col_name c) bound with
                  | Some v => v
                  | None => default_of now (col_constraints c)
                  end in
         (col_name c,
          if is_primary_key c && is_null v
          then Integer (next_rowid (col_name c) rows) else v))
      (tbl_columns t).

(** Does row [r] break a [NOT NULL], [UNIQUE] or [PRIMARY KEY] constraint
    of [t] against the stored [rows]?  [NULL]s never collide. *)
Definition violates (t : table) (r : row) (rows : list row) : bool :=
  existsb (fun c =>
             let v := get r (col_name c) in
             (is_not_null c && is_null v)
             || ((is_unique c || is_primary_key c) && negb (is_null v)
                 && existsb (fun r' => value_eqb (get r' (col_name c)) v) rows))
          (tbl_columns t).

(** [INSERT OR IGNORE INTO t (bound columns) VALUES (bound values)] on the
    rows of [t]: a row that breaks a constraint is skipped. *)
Definition insert_row
    (t : table) (now : string) (bound : list (string * value))
    (rows : list row) : list row :=
  let r := build_row t now bound rows in
  if violates t r rows then rows else rows ++ [r].

Record relation : Type := mk_relation { schema : table; rows : list row }.

(** The database file: its tables by name. *)
Definition database : Type := list (string * relation).

(** [CREATE TABLE IF NOT EXISTS t (...)] *)
Definition create_table_if_not_exists (db : database) (t : table) : database :=
  match assoc (tbl_name t) db with
  | Some _ => db
  | None => db ++ [(tbl_name t, mk_relation t [])]
  end.

Fixpoint replace (name : string) (rel : relation) (db : database) : database :=
  match db with
  | [] => []
  | (n, r) :: db' =>
      if String.eqb name n then (n, rel) :: db' else (n, r) :: replace name rel db'
  end.

(** [cursor.execute('INSERT OR IGNORE INTO name (...) VALUES (...)', ...)];
    [None] stands for the [sqlite3.OperationalError] raised when the table
    or one of the named columns does not exist. *)
Definition insert_or_ignore
    (name : string) (now : string) (bound : list (string * value))
    (db : database) : option database :=
  match assoc name db with
  | None => None
  | Some rel =>
      if forallb (fun b => existsb (fun c => String.eqb (fst b) (col_name c))
                                   (tbl_columns (schema rel)))
                 bound
      then Some (replace name
                   (mk_relation (schema rel)
                      (insert_row (schema rel) now bound (rows rel)))
                   db)
      else None
  end.

Definition rows_of (name : string) (db : database) : list row :=
  match assoc name db with Some rel => rows rel | None => [] end.

(** The column that names the row id of a table: its [INTEGER PRIMARY KEY],
    if it has one. *)
Definition rowid_column (t : table) : option string :=
  option_map col_name
    (find (fun c => is_primary_key c
                    && match col_type c with INTEGER => true | _ => false end)
          (tbl_columns t)).

Definition rowid_of (c : string) (r : row) : Z :=
  match get r c with Integer z => z | _ => 0 end.

(** Puts row [r] into rows sorted by row id, before the first row of a
    larger or equal id. *)
Fixpoint place_by_rowid (c : string) (r : row) (sorted : list row) : list row :=
  match sorted with
  | [] => [r]
  | r' :: rest =>
      if rowid_of c r <=? rowid_of c r' then r :: sorted
      else r' :: place_by_rowid c r rest
  end.

(** The order in which a scan of the whole table meets its rows: by row
    id, whatever the order they were inserted in. *)
Definition table_scan (rel : relation) : list row :=
  match rowid_column (schema rel) with
  | Some c => fold_right (place_by_rowid c) [] (rows rel)
  | None => rows rel
  end.

End Sqlite.

(* ------------------------------------------------------------------------- *)
(** ** setup_database.py *)

Module SetupDatabase.

Import Sqlite.
Local Open Scope string_scope.

(** [def generate_secure_hash(data, salt=None)]; the result is [None] when
    [hashlib.pbkdf2_hmac] raises. *)
Definition generate_secure_hash (data : string) (salt : option (list byte))
  : Secrets.Rand (option string) :=
  salt <- match salt with
          | None => Secrets.token_bytes 32
          | Some s => Secrets.ret s
          end ;;
  Secrets.ret
    (match Hashlib.pbkdf2_hmac_sha256
             (list_byte_of_string data) salt 100000 None with
     | Some key => Some (string_of_list_byte (Base64.b64encode (salt ++ key)%list))
     | None => None
     end).

(** [def generate_license_key(): return secrets.token_hex(32).upper()] *)
Definition generate_license_key : Secrets.Rand string :=
  k <- Secrets.token_hex 32 ;; Secrets.ret (upper k).

Definition db_path : string := "backend/instance/whisker_auth_txa.db".

(** *** The tables of the [executescript] call *)

Definition col (name : string) (ty : sql_type) (ks : list constraint) : column :=
  mk_column name ty ks.

Definition txa_users : table :=
  mk_table "txa_users"
    [ col "id" INTEGER [PRIMARY_KEY];
      col "uuid" TEXT [UNIQUE];
      col "username" TEXT [UNIQUE; NOT_NULL];
      col "email" TEXT [UNIQUE; NOT_NULL];
      col "password_hash" TEXT [NOT_NULL];
      col "password_salt" TEXT [NOT_NULL];
      col "status" TEXT [DEFAULT (Text "active")];
      col "is_admin" BOOLEAN [DEFAULT (Integer 0)];
      col "security_level" INTEGER [DEFAULT (Integer 1)];
      col "failed_login_attempts" INTEGER [DEFAULT (Integer 0)];
      col "lockout_until" DATETIME [];
      col "last_login_at" DATETIME [];
      col "last_login_ip" TEXT [];
      col "registered_device_id" TEXT [];
      col "hardware_info" TEXT [];
      col "device_locked" BOOLEAN [DEFAULT (Integer 0)];
      col "license_key" TEXT [];
      col "license_type" TEXT [DEFAULT (Text "standard")];
      col "license_expires_at" DATETIME [];
      col "allowed_applications" TEXT [];
      col "application_roles" TEXT [];
      col "created_at" DATETIME [DEFAULT_CURRENT_TIMESTAMP];
      col "updated_at" DATETIME [DEFAULT_CURRENT_TIMESTAMP];
      col "last_activity_at" DATETIME [DEFAULT_CURRENT_TIMESTAMP] ]
    [].

Definition txa_licenses : table :=
  mk_table "txa_licenses"
    [ col "id" INTEGER [PRIMARY_KEY];
      col "key" TEXT [UNIQUE; NOT_NULL];
      col "type" TEXT [DEFAULT (Text "standard")];
      col "status" TEXT [DEFAULT (Text "unused")];
      col "user_id" INTEGER [];
      col "assigned_to" TEXT [];
      col "created_at" DATETIME [DEFAULT_CURRENT_TIMESTAMP];
      col "activated_at" DATETIME [];
      col "expires_at" DATETIME [];
      col "max_applications" INTEGER [DEFAULT (Integer 5)];
      col "used_applications" INTEGER [DEFAULT (Integer 0)];
      col "max_devices" INTEGER [DEFAULT (Integer 1)];
      col "registered_devices" TEXT [] ]
    [ mk_fk "user_id" "txa_users" "id" ].

Definition txa_applications : table :=
  mk_table "txa_applications"
    [ col "id" INTEGER [PRIMARY_KEY];
      col "uuid" TEXT [UNIQUE];
      col "name" TEXT [NOT_NULL];
      col "description" TEXT [];
      col "current_version" TEXT [DEFAULT (Text "1.0.0")];
      col "minimum_version" TEXT [DEFAULT (Text "1.0.0")];
      col "force_update" BOOLEAN [DEFAULT (Integer 0)];
      col "status" TEXT [DEFAULT (Text "active")];
      col "maintenance_message" TEXT [];
      col "secret_key" TEXT [UNIQUE];
      col "requires_license" BOOLEAN [DEFAULT (Integer 1)];
      col "required_license_type" TEXT [DEFAULT (Text "standard")];
      col "total_users" INTEGER [DEFAULT (Integer 0)];
      col "active_sessions" INTEGER [DEFAULT (Integer 0)];
      col "created_at" DATETIME [DEFAULT_CURRENT_TIMESTAMP];
      col "updated_at" DATETIME [DEFAULT_CURRENT_TIMESTAMP] ]
    [].

Definition txa_sessions : table :=
  mk_table "txa_sessions"
    [ col "id" INTEGER [PRIMARY_KEY];
      col "session_id" TEXT [UNIQUE; NOT_NULL];
      col "user_id" INTEGER [NOT_NULL];
      col "application_id" INTEGER [];
      col "device_id" TEXT [NOT_NULL];
      col "ip_address" TEXT [];
      col "user_agent" TEXT [];
      col "is_active" BOOLEAN [DEFAULT (Integer 1)];
      col "expires_at" DATETIME [];
      col "access_token_hash" TEXT [];
      col "last_activity_at" DATETIME [DEFAULT_CURRENT_TIMESTAMP];
      col "created_at" DATETIME [DEFAULT_CURRENT_TIMESTAMP] ]
    [ mk_fk "user_id" "txa_users" "id";
      mk_fk "application_id" "txa_applications" "id" ].

Definition txa_security_events : table :=
  mk_table "txa_security_events"
    [ col "id" INTEGER [PRIMARY_KEY];
      col "event_type" TEXT [NOT_NULL];
      col "severity" TEXT [DEFAULT (Text "info")];
      col "user_id" INTEGER [];
      col "application_id" INTEGER [];
      col "device_id" TEXT [];
      col "ip_address" TEXT [];
      col "description" TEXT [];
      col "details" TEXT [];
      col "created_at" DATETIME [DEFAULT_CURRENT_TIMESTAMP] ]
    [ mk_fk "user_id" "txa_users" "id";
      mk_fk "application_id" "txa_applications" "id" ].

Definition tables : list table :=
  [txa_users; txa_licenses; txa_applications; txa_sessions;
   txa_security_events].

(** *** The script *)

(** What the script acts on: the entropy source and the database file. *)
Record world : Type :=
  mk_world { entropy : Secrets.csprng; store : database }.

(** A step of the script; [None] is an uncaught exception. *)
Definition Script (A : Type) : Type := world -> option (A * world).

Definition pure {A} (a : A) : Script A := fun w => Some (a, w).

Definition andthen {A B} (m : Script A) (k : A -> Script B) : Script B :=
  fun w => match m w with
           | Some (a, w') => k a w'
           | None => None
           end.

Definition draw {A} (m : Secrets.Rand A) : Script A :=
  fun w => let (a, g) := m (entropy w) in Some (a, mk_world g (store w)).

Definition raising {A} (m : Script (option A)) : Script A :=
  andthen m (fun r => match r with Some a => pure a | None => fun _ => None end).

(** [cursor.executescript] with the [CREATE TABLE IF NOT EXISTS]
    statements of [ts]. The store of a [world] is a readable database: a new
    file or an SQLite database of tables. A file that is no database, on
    which the real call raises [sqlite3.DatabaseError], has no counterpart
    here. *)
Definition executescript (ts : list table) : Script unit :=
  fun w =>
    Some (tt, mk_world (entropy w)
                       (fold_left create_table_if_not_exists ts (store w))).

Definition execute_insert
    (name now : string) (bound : list (string * value)) : Script unit :=
  fun w =>
    match insert_or_ignore name now bound (store w) with
    | Some db => Some (tt, mk_world (entropy w) db)
    | None => None
    end.

Fixpoint for_each {A} (xs : list A) (body : A -> Script unit) : Script unit :=
  match xs with
  | [] => pure tt
  | x :: xs' => andthen (body x) (fun _ => for_each xs' body)
  end.

Definition admin_password : string := "TXA2024!@#".

(** The bindings of the admin [INSERT]. *)
Definition admin_user (admin_uuid admin_password_hash salt : string)
  : list (string * value) :=
  [ ("uuid", Text admin_uuid); ("username", Text "admin");
    ("email", Text "admin@whiskerauth.com");
    ("password_hash", Text admin_password_hash);
    ("password_salt", Text salt);
    ("status", Text "active"); ("is_admin", Integer 1);
    ("security_level", Integer 10); ("license_type", Text "enterprise") ].

(** The bindings of a sample-license [INSERT]. *)
Definition sample_license (l : string * string * Z) : list (string * value) :=
  let '(key, license_type, max_apps) := l in
  [ ("key", Text key); ("type", Text license_type);
    ("max_applications", Integer max_apps) ].

Definition sample_application (app_uuid app_secret : string)
  : list (string * value) :=
  [ ("uuid", Text app_uuid); ("name", Text "Whisker Auth Demo");
    ("description", Text "Demo application for TXA authentication");
    ("current_version", Text "3.1.2"); ("minimum_version", Text "3.0.0");
    ("secret_key", Text app_secret) ].

End SetupDatabase.

Notation "x <~ m ;; k" := (SetupDatabase.andthen m (fun x => k))
  (at level 61, m at next level, right associativity).

Module SetupScript.

Import Sqlite SetupDatabase.
Local Open Scope string_scope.

(** The statements of the script that act on the database, in order, up to
    [conn.commit()]; the closing [SELECT] only feeds the printed summary.
    [now] is the value of [CURRENT_TIMESTAMP], whose resolution is one
    second, taken to be the same for the five inserts. *)
Definition setup (now : string) : Script unit :=
  _ <~ executescript tables ;;
  admin_password_hash <~ raising (draw (generate_secure_hash admin_password None)) ;;
  admin_uuid <~ draw (Secrets.token_hex 18) ;;
  salt <~ draw (Secrets.token_hex 16) ;;
  _ <~ execute_insert "txa_users" now
         (admin_user admin_uuid admin_password_hash salt) ;;
  k1 <~ draw generate_license_key ;;
  k2 <~ draw generate_license_key ;;
  k3 <~ draw generate_license_key ;;
  _ <~ for_each [(k1, "standard", 5); (k2, "premium", 10); (k3, "enterprise", 25)]
         (fun l => execute_insert "txa_licenses" now (sample_license l)) ;;
  app_uuid <~ draw (Secrets.token_hex 18) ;;
  app_secret <~ draw (Secrets.token_hex 32) ;;
  execute_insert "txa_applications" now (sample_application app_uuid app_secret).

End SetupScript.

(* ------------------------------------------------------------------------- *)
(** ** Verification of a secret against a stored verifier *)

Module CredentialHasher.

(** [hash(secret)]: the hashing routine of the setup script, called without
    a salt. *)
Definition hash (secret : string) : Secrets.Rand (option string) :=
  SetupDatabase.generate_secure_hash secret None.

(** Modelled from the spec: the repository has no verification routine, its
    only credential code is [generate_secure_hash]. Following section 4.1,
    [verify] decodes the verifier, takes the first 32 bytes as the salt,
    derives the key again with the parameters of [generate_secure_hash] and
    compares it with the rest in constant time; a verifier that cannot be
    decoded is a failed verification. *)
Definition verify (secret verifier : string) : bool :=
  match Base64.b64decode (list_byte_of_string verifier) with
  | None => false
  | Some raw =>
      match Hashlib.pbkdf2_hmac_sha256
              (list_byte_of_string secret) (firstn 32 raw) 100000 None with
      | Some key => Hashlib.compare_digest key (skipn 32 raw)
      | None => false
      end
  end.

End CredentialHasher.


(* ------------------------------------------------------------------------- *)
(** ** Vocabulary of the properties *)

(** What a license key generator owes its caller, for an entropy source [g]
    and the pair [r] it returned: the key is the upper-cased hexadecimal
    form of the next 32 bytes of the source, it has 64 characters, all of
    them in [0-9A-F], and the 32 bytes can be read back from it. *)
Definition license_key_spec
    (g : Secrets.csprng) (r : string * Secrets.csprng) : Prop :=
  let bs := map (Secrets.supply g) (seq (Secrets.consumed g) 32) in
  fst r = upper (string_of_list_byte (Bytes.hex bs))
  /\ List.length bs = 32%nat
  /\ String.length (fst r) = 64%nat
  /\ forallb Bytes.is_upper_hex (list_byte_of_string (fst r)) = true
  /\ Bytes.fromhex (list_byte_of_string (fst r)) = bs
  /\ Secrets.supply (snd r) = Secrets.supply g
  /\ Secrets.consumed (snd r) = (Secrets.consumed g + 32)%nat.

(** PBKDF2 as the exclusive or of a chain of PRF values. *)

(** [chain_value kb salt i k] is the PRF value number [k + 1] of block [i]:
    the first is computed from the salt and the block index, every later one
    from its predecessor. *)
Fixpoint chain_value (kb salt : list byte) (i k : nat) : list byte :=
  match k with
  | O => Hashlib.prf kb (salt ++ Bytes.be32 (Z.of_nat i))
  | S k' => Hashlib.prf kb (chain_value kb salt i k')
  end.

Fixpoint chain_xor (kb salt : list byte) (i k : nat) : list byte :=
  match k with
  | O => chain_value kb salt i 0
  | S k' => Bytes.xor (chain_xor kb salt i k') (chain_value kb salt i k)
  end.

(** The key [generate_secure_hash] derives from a secret and a salt: the
    first PBKDF2 block for 100000 iterations. *)
Definition derived_key (secret : string) (salt : list byte) : list byte :=
  Hashlib.pbkdf2_block
    (Hashlib.key_block (list_byte_of_string secret)) salt 100000 1.

(** The salt the next call of [secrets.token_bytes(32)] returns. *)
Definition next_salt (g : Secrets.csprng) : list byte :=
  fst (Secrets.token_bytes 32 g).

(** The verifier string for a salt and a key. *)
Definition encode_verifier (salt key : list byte) : string :=
  string_of_list_byte (Base64.b64encode (salt ++ key)).

(** A sample entropy source, handing out the bytes 0, 1, 2, ... *)
Definition counting_source : Secrets.csprng :=
  Secrets.mk_csprng (fun n => Bytes.of_Z (Z.of_nat n)) 0.

(** *** Stored rows *)

(** The non-[NULL] values stored in column [c]. *)
Definition stored_values (c : string) (rows : list Sqlite.row)
  : list Sqlite.value :=
  filter (fun v => negb (Sqlite.is_null v))
         (map (fun r => Sqlite.get r c) rows).

(** No non-[NULL] value occurs twice in column [c]. *)
Definition unique_in (c : string) (rows : list Sqlite.row) : Prop :=
  NoDup (stored_values c rows).

(** The column of table [t] called [c]. *)
Definition column_named (t : Sqlite.table) (c : string) : option Sqlite.column :=
  find (fun k => String.eqb c (Sqlite.col_name k)) (Sqlite.tbl_columns t).

(** Column [c] of [t] exists and may hold [NULL]. *)
Definition nullable (t : Sqlite.table) (c : string) : bool :=
  match column_named t c with
  | Some k => negb (Sqlite.is_not_null k) && negb (Sqlite.is_primary_key k)
  | None => false
  end.

(** The states of the database file the statements of the script lead to:
    a new file, then [CREATE TABLE IF NOT EXISTS] for the tables of the
    script and [INSERT OR IGNORE], in any number and order. *)
Inductive reachable : Sqlite.database -> Prop :=
| reachable_new : reachable []
| reachable_create (db : Sqlite.database) (t : Sqlite.table) :
    reachable db -> In t SetupDatabase.tables ->
    reachable (Sqlite.create_table_if_not_exists db t)
| reachable_insert (db db' : Sqlite.database) (name now : string)
    (bound : list (string * Sqlite.value)) :
    reachable db -> Sqlite.insert_or_ignore name now bound db = Some db' ->
    reachable db'.

(** None of the columns [cs] is named by the insert. *)
Definition omits (cs : list string) (bound : list (string * Sqlite.value)) : bool :=
  forallb (fun c => match Sqlite.assoc c bound with
                    | Some _ => false
                    | None => true
                    end) cs.

(** A license row in its initial state. *)
Definition starts_unused (r : Sqlite.row) : Prop :=
  Sqlite.get r "status" = Sqlite.Text "unused"
  /\ Sqlite.get r "user_id" = Sqlite.Null
  /\ Sqlite.get r "activated_at" = Sqlite.Null
  /\ Sqlite.get r "used_applications" = Sqlite.Integer 0.

(** A database file holding the five tables of the script with the given
    rows. *)
Definition db_of (users licenses applications sessions events : list Sqlite.row)
  : Sqlite.database :=
  [ ("txa_users"%string, Sqlite.mk_relation SetupDatabase.txa_users users);
    ("txa_licenses"%string, Sqlite.mk_relation SetupDatabase.txa_licenses licenses);
    ("txa_applications"%string,
      Sqlite.mk_relation SetupDatabase.txa_applications applications);
    ("txa_sessions"%string, Sqlite.mk_relation SetupDatabase.txa_sessions sessions);
    ("txa_security_events"%string,
      Sqlite.mk_relation SetupDatabase.txa_security_events events) ].

(** The [n] bytes the entropy source hands out [off] bytes from now. *)
Definition drawn (g : Secrets.csprng) (off n : nat) : list byte :=
  map (Secrets.supply g) (seq (Secrets.consumed g + off) n).

(** [token_hex] of those bytes. *)
Definition drawn_hex (g : Secrets.csprng) (off n : nat) : string :=
  string_of_list_byte (Bytes.hex (drawn g off n)).

(** What every reachable database satisfies: a table is stored under its
    own name, it is one of the tables of the script, and its [UNIQUE]
    columns hold no duplicates. *)
Definition well_kept (db : Sqlite.database) : Prop :=
  forall name rel,
    Sqlite.assoc name db = Some rel ->
    In (Sqlite.schema rel) SetupDatabase.tables
    /\ Sqlite.tbl_name (Sqlite.schema rel) = name
    /\ forall c, In c (Sqlite.tbl_columns (Sqlite.schema rel)) ->
                 Sqlite.is_unique c = true ->
                 unique_in (Sqlite.col_name c) (Sqlite.rows rel).

(** The entropy source after [n] more bytes were handed out. *)
Definition advance (g : Secrets.csprng) (n : nat) : Secrets.csprng :=
  Secrets.mk_csprng (Secrets.supply g) (Secrets.consumed g + n).

(* ------------------------------------------------------------------------- *)
(** ** The closing query of setup_database.py *)

Module SetupReport.

Import Sqlite SetupDatabase.
Local Open Scope string_scope.

(** [SELECT key, type FROM txa_licenses WHERE status = "unused" LIMIT 1]
    followed by [cursor.fetchone()]: key and type of the first license whose
    status is ['unused'] that a scan of the table meets, which is the one
    of the least id, or Python's [None]. The double-quoted ["unused"] names
    no column of the table, so SQLite reads it as a string. The outer
    [None] is the [sqlite3.OperationalError] raised when the table does not
    exist. *)
Definition select_unused_license : Script (option (value * value)) :=
  fun w =>
    match assoc "txa_licenses" (store w) with
    | None => None
    | Some rel =>
        Some (option_map (fun r => (get r "key", get r "type"))
                (find (fun r => value_eqb (get r "status") (Text "unused"))
                      (table_scan rel)),
              w)
    end.

(** The script as a whole: the setup statements, then the query; its result
    [sample_license] decides between printing a sample key and printing
    ["No licenses available"]. *)
Definition main (now : string) : Script (option (value * value)) :=
  _ <~ SetupScript.setup now ;; select_unused_license.

End SetupReport.

(* ------------------------------------------------------------------------- *)
(** ** Further vocabulary *)

Definition is_lower_hex (b : byte) : bool :=
  ((48 <=? Bytes.to_Z b) && (Bytes.to_Z b <=? 57))
  || ((97 <=? Bytes.to_Z b) && (Bytes.to_Z b <=? 102)).

(** [s] consists of [n] lowercase hexadecimal digits. *)
Definition lower_hex_of_length (n : nat) (s : string) : Prop :=
  String.length s = n
  /\ forallb is_lower_hex (list_byte_of_string s) = true.

(** A character base64 text is made of: a letter of the alphabet or the
    padding sign; all of them are ASCII. *)
Definition is_base64_char (b : byte) : bool :=
  (existsb (Strings.Byte.eqb b) Base64.alphabet || Strings.Byte.eqb b Base64.pad)
  && (Bytes.to_Z b <? 128).

(** Some stored row holds value [v] in column [c]. *)
Definition stored (c : string) (v : Sqlite.value) (rows : list Sqlite.row) : bool :=
  existsb (fun r => Sqlite.value_eqb (Sqlite.get r c) v) rows.

(** A row as table [t] stores it: one value for each column of the table,
    in their order, and none of them [NULL] where the column is [NOT NULL]
    or the [PRIMARY KEY]. *)
Definition row_fits (t : Sqlite.table) (r : Sqlite.row) : Prop :=
  map fst r = map Sqlite.col_name (Sqlite.tbl_columns t)
  /\ forall c, In c (Sqlite.tbl_columns t) ->
               Sqlite.is_not_null c || Sqlite.is_primary_key c = true ->
               Sqlite.get r (Sqlite.col_name c) <> Sqlite.Null.

(** What every reachable database satisfies beyond [well_kept]: the rows of
    a table fit it and its primary key holds no duplicates. *)
Definition well_formed (db : Sqlite.database) : Prop :=
  forall name rel,
    Sqlite.assoc name db = Some rel ->
    Forall (row_fits (Sqlite.schema rel)) (Sqlite.rows rel)
    /\ forall c, In c (Sqlite.tbl_columns (Sqlite.schema rel)) ->
                 Sqlite.is_primary_key c = true ->
                 unique_in (Sqlite.col_name c) (Sqlite.rows rel).

(** The first stored license with key [k]. *)
Definition find_license (k : string) (rows : list Sqlite.row) : option Sqlite.row :=
  find (fun r => Sqlite.value_eqb (Sqlite.get r "key") (Sqlite.Text k)) rows.

(** No name occurs twice in [names]. *)
Fixpoint distinct_names (names : list string) : bool :=
  match names with
  | [] => true
  | x :: rest => negb (existsb (String.eqb x) rest) && distinct_names rest
  end.

(** An entropy source that hands out the same byte for ever. *)
Definition constant_source : Secrets.csprng :=
  Secrets.mk_csprng (fun _ => x00) 0.

(** A sequence of [INSERT OR IGNORE] statements, each a table name and its
    bindings, run one after the other. *)
Fixpoint run_inserts (now : string)
    (statements : list (string * list (string * Sqlite.value)))
    (db : Sqlite.database) : option Sqlite.database :=
  match statements with
  | [] => Some db
  | (name, bound) :: rest =>
      match Sqlite.insert_or_ignore name now bound db with
      | Some db' => run_inserts now rest db'
      | None => None
      end
  end.

(** Sample statements: the admin insert twice, two licenses and the first
    of them again, an application, a session and a security event. *)
Definition sample_statements : list (string * list (string * Sqlite.value)) :=
  [ ("txa_users"%string,
      SetupDatabase.admin_user "0a1b2c" "c2FsdCBhbmQga2V5" "0f0e0d");
    ("txa_users"%string,
      SetupDatabase.admin_user "3d4e5f" "b3RoZXIgaGFzaA==" "0c0b0a");
    ("txa_licenses"%string,
      SetupDatabase.sample_license ("AA11"%string, "standard"%string, 5));
    ("txa_licenses"%string,
      SetupDatabase.sample_license ("BB22"%string, "premium"%string, 10));
    ("txa_licenses"%string,
      SetupDatabase.sample_license ("AA11"%string, "enterprise"%string, 25));
    ("txa_applications"%string,
      SetupDatabase.sample_application "6a7b8c" "9d0e1f");
    ("txa_sessions"%string,
      [ ("session_id"%string, Sqlite.Text "s-1");
        ("user_id"%string, Sqlite.Integer 1);
        ("application_id"%string, Sqlite.Integer 1);
        ("device_id"%string, Sqlite.Text "d-1") ]);
    ("txa_security_events"%string,
      [ ("event_type"%string, Sqlite.Text "login");
        ("user_id"%string, Sqlite.Integer 1) ]) ].

(** The database the sample statements make of the five empty tables: one
    user, two licenses, one application, one session and one event. *)
Definition populated_database : Sqlite.database :=
  match run_inserts "2024-01-01 00:00:00" sample_statements
          (db_of [] [] [] [] []) with
  | Some db => db
  | None => []
  end.

(** The rows hold integer ids above [above] and below [limit] in strictly
    ascending order, as rows do that were inserted without an id into a
    table that never lost a row. *)
Fixpoint ascending_ids (above limit : Z) (rows : list Sqlite.row) : bool :=
  match rows with
  | [] => true
  | r :: rest =>
      match Sqlite.get r "id" with
      | Sqlite.Integer z =>
          (above <? z) && (z <? limit) && ascending_ids z limit rest
      | _ => false
      end
  end.

(** The licenses whose status is ['unused'], the ones the closing query
    selects from. *)
Definition is_unused (r : Sqlite.row) : bool :=
  Sqlite.value_eqb (Sqlite.get r "status") (Sqlite.Text "unused").

(** Two licenses as an earlier run and an activation leave them: the first
    activated for the admin, the second still unused. *)
Definition activated_license : Sqlite.row :=
  [ ("id"%string, Sqlite.Integer 1);
    ("key"%string, Sqlite.Text "00FF");
    ("type"%string, Sqlite.Text "premium");
    ("status"%string, Sqlite.Text "active");
    ("user_id"%string, Sqlite.Integer 1);
    ("assigned_to"%string, Sqlite.Text "admin");
    ("created_at"%string, Sqlite.Text "2023-12-01 09:00:00");
    ("activated_at"%string, Sqlite.Text "2023-12-02 10:30:00");
    ("expires_at"%string, Sqlite.Null);
    ("max_applications"%string, Sqlite.Integer 10);
    ("used_applications"%string, Sqlite.Integer 1);
    ("max_devices"%string, Sqlite.Integer 1);
    ("registered_devices"%string, Sqlite.Null) ].

Definition unused_license : Sqlite.row :=
  [ ("id"%string, Sqlite.Integer 2);
    ("key"%string, Sqlite.Text "11EE");
    ("type"%string, Sqlite.Text "standard");
    ("status"%string, Sqlite.Text "unused");
    ("user_id"%string, Sqlite.Null);
    ("assigned_to"%string, Sqlite.Null);
    ("created_at"%string, Sqlite.Text "2023-12-01 09:00:00");
    ("activated_at"%string, Sqlite.Null);
    ("expires_at"%string, Sqlite.Null);
    ("max_applications"%string, Sqlite.Integer 5);
    ("used_applications"%string, Sqlite.Integer 0);
    ("max_devices"%string, Sqlite.Integer 1);
    ("registered_devices"%string, Sqlite.Null) ].

Definition stored_licenses : list Sqlite.row :=
  [activated_license; unused_license].

(* ========================================================================= *)
(** * Properties *)

(** ** The library models against published test vectors *)

Example sha256_abc :
  Bytes.hex (Hashlib.sha256 (list_byte_of_string "abc"))
  = list_byte_of_string
      "ba7816bf8f01cfea414140de5dae2223b00361a396177a9cb410ff61f20015ad".
Proof. vm_compute. reflexivity. Qed.

(** RFC 4231, test case 2. *)
Example hmac_sha256_rfc4231 :
  Bytes.hex (Hashlib.hmac_sha256 (list_byte_of_string "Jefe")
               (list_byte_of_string "what do ya want for nothing?"))
  = list_byte_of_string
      "5bdcc146bf60754e6a042426089575c75a003f089d2739839dec58b964ec3843".
Proof. vm_compute. reflexivity. Qed.

(** A key longer than one block is hashed first. *)
Example hmac_sha256_long_key :
  Bytes.hex (Hashlib.hmac_sha256 (repeat "k"%byte 100) (list_byte_of_string "msg"))
  = list_byte_of_string
      "bd56a1782c2830e8abc6ed866a57a1230661e650b84c62f7ee3accc5fa5af491".
Proof. vm_compute. reflexivity. Qed.

Example pbkdf2_two_iterations :
  option_map Bytes.hex
    (Hashlib.pbkdf2_hmac_sha256 (list_byte_of_string "password")
       (list_byte_of_string "salt") 2 None)
  = Some (list_byte_of_string
            "ae4d0c95af6b46d32d0adff928f06dd02a303f8ef3c251dfd6e2d85a95474c43").
Proof. vm_compute. reflexivity. Qed.

Example pbkdf2_two_blocks :
  option_map Bytes.hex
    (Hashlib.pbkdf2_hmac_sha256 (list_byte_of_string "password")
       (list_byte_of_string "salt") 3 (Some 40%nat))
  = Some (list_byte_of_string
            "ad35240ac683febfaf3cd49d845473fbbbaa2437f5f82d5a415ae00ac76c6bfccf9a9b8d6d2fe4a1").
Proof. vm_compute. reflexivity. Qed.

Example pbkdf2_no_iterations :
  Hashlib.pbkdf2_hmac_sha256 [] [] 0 None = None.
Proof. reflexivity. Qed.

Example b64encode_foobar :
  Base64.b64encode (list_byte_of_string "foobar") = list_byte_of_string "Zm9vYmFy"
  /\ Base64.b64encode (list_byte_of_string "fooba") = list_byte_of_string "Zm9vYmE="
  /\ Base64.b64encode (list_byte_of_string "foob") = list_byte_of_string "Zm9vYg==".
Proof. repeat split. Qed.

Example b64decode_malformed :
  Base64.b64decode (list_byte_of_string "Zm9v=g==") = None
  /\ Base64.b64decode (list_byte_of_string "Zm9vY") = None
  /\ Base64.b64decode (list_byte_of_string "Zm9v!mFy") = None.
Proof. repeat split. Qed.

Example compare_digest_cases :
  Hashlib.compare_digest [x01; x02] [x01; x02] = true
  /\ Hashlib.compare_digest [x01; x02] [x01; x03] = false
  /\ Hashlib.compare_digest [x01; x02] [x01] = false.
Proof. repeat split. Qed.

(** ** Bytes and strings *)

Lemma to_Z_range (b : byte) : 0 <= Bytes.to_Z b < 256.
Proof.
  unfold Bytes.to_Z.
  pose proof (Strings.Byte.to_N_bounded b) as H.
  lia.
Qed.

Lemma of_Z_to_Z (b : byte) : Bytes.of_Z (Bytes.to_Z b) = b.
Proof.
  unfold Bytes.of_Z.
  rewrite Z.mod_small by apply to_Z_range.
  unfold Bytes.to_Z. rewrite N2Z.id, Strings.Byte.of_to_N. reflexivity.
Qed.

Lemma to_Z_of_Z (z : Z) : Bytes.to_Z (Bytes.of_Z z) = z mod 256.
Proof.
  unfold Bytes.of_Z, Bytes.to_Z.
  pose proof (Z.mod_pos_bound z 256 ltac:(lia)) as Hz.
  destruct (Strings.Byte.of_N (Z.to_N (z mod 256))) as [b|] eqn:E.
  - apply Strings.Byte.to_of_N in E. rewrite E. lia.
  - apply Strings.Byte.of_N_None_iff in E. lia.
Qed.

Lemma to_Z_inj (a b : byte) : Bytes.to_Z a = Bytes.to_Z b -> a = b.
Proof.
  intros H. rewrite <- (of_Z_to_Z a), <- (of_Z_to_Z b), H. reflexivity.
Qed.

Lemma of_Z_eq (z : Z) (b : byte) : z mod 256 = Bytes.to_Z b -> Bytes.of_Z z = b.
Proof.
  intros H. apply to_Z_inj. rewrite to_Z_of_Z. exact H.
Qed.

Lemma string_length_of_bytes (bs : list byte) :
  String.length (string_of_list_byte bs) = List.length bs.
Proof.
  induction bs as [|b bs IH]; simpl; [reflexivity | now rewrite <- IH].
Qed.

Lemma xor_length (xs ys : list byte) :
  List.length xs = List.length ys ->
  List.length (Bytes.xor xs ys) = List.length xs.
Proof.
  revert ys; induction xs as [|x xs IH]; intros [|y ys] H; simpl in *;
    try reflexivity; try discriminate.
  f_equal. apply IH. lia.
Qed.

Lemma hex_length (bs : list byte) :
  List.length (Bytes.hex bs) = (2 * List.length bs)%nat.
Proof.
  unfold Bytes.hex.
  induction bs as [|b bs IH]; simpl in *; [reflexivity | rewrite IH; lia].
Qed.

(** Upper-casing the two hexadecimal digits of any byte gives digits of
    [0-9A-F]. *)
Lemma upper_hex_digits (b : byte) :
  Bytes.is_upper_hex (Bytes.upper_byte (Bytes.hex_digit (Bytes.to_Z b / 16)))
  && Bytes.is_upper_hex (Bytes.upper_byte (Bytes.hex_digit (Bytes.to_Z b mod 16)))
  = true.
Proof. destruct b; vm_compute; reflexivity. Qed.

Lemma upper_hex_all (bs : list byte) :
  forallb Bytes.is_upper_hex (map Bytes.upper_byte (Bytes.hex bs)) = true.
Proof.
  unfold Bytes.hex.
  induction bs as [|b bs IH]; [reflexivity|].
  cbn [flat_map map app forallb].
  pose proof (upper_hex_digits b) as H.
  apply andb_true_iff in H as [H1 H2].
  rewrite H1, H2, IH. reflexivity.
Qed.

(** The two digits of a byte, in either case, give the byte back. *)
Lemma fromhex_digits (b : byte) :
  Bytes.of_Z (16 * Bytes.hex_value (Bytes.upper_byte (Bytes.hex_digit (Bytes.to_Z b / 16)))
              + Bytes.hex_value (Bytes.upper_byte (Bytes.hex_digit (Bytes.to_Z b mod 16))))
  = b
  /\ Bytes.of_Z (16 * Bytes.hex_value (Bytes.hex_digit (Bytes.to_Z b / 16))
                 + Bytes.hex_value (Bytes.hex_digit (Bytes.to_Z b mod 16)))
     = b.
Proof. destruct b; vm_compute; split; reflexivity. Qed.

Lemma fromhex_upper_hex (bs : list byte) :
  Bytes.fromhex (map Bytes.upper_byte (Bytes.hex bs)) = bs.
Proof.
  unfold Bytes.hex.
  induction bs as [|b bs IH]; [reflexivity|].
  cbn [flat_map map app Bytes.fromhex].
  rewrite IH. f_equal. apply fromhex_digits.
Qed.

Lemma fromhex_hex (bs : list byte) : Bytes.fromhex (Bytes.hex bs) = bs.
Proof.
  unfold Bytes.hex.
  induction bs as [|b bs IH]; [reflexivity|].
  cbn [flat_map map app Bytes.fromhex].
  rewrite IH. f_equal. apply fromhex_digits.
Qed.

(** ** The license key generators *)

Lemma token_hex_upper_spec (g : Secrets.csprng) :
  license_key_spec g
    (Secrets.bind (Secrets.token_hex 32) (fun k => Secrets.ret (upper k)) g).
Proof.
  destruct g as [s c].
  cbv [license_key_spec Secrets.bind Secrets.token_hex Secrets.token_bytes
       Secrets.ret upper fst snd Secrets.supply Secrets.consumed].
  set (bs := map s (seq c 32)).
  rewrite !list_byte_of_string_of_list_byte.
  assert (Hlen : List.length bs = 32%nat)
    by (unfold bs; rewrite length_map, length_seq; reflexivity).
  refine (conj eq_refl (conj Hlen (conj _ (conj _ (conj _ (conj eq_refl eq_refl)))))).
  - rewrite string_length_of_bytes, length_map, hex_length, Hlen. reflexivity.
  - apply upper_hex_all.
  - apply fromhex_upper_hex.
Qed.

(** C5. Every key returned by [generate_license_key], in
    [generate_license.py] as in [setup_database.py], is the upper-cased
    hexadecimal form of 32 bytes (256 bits) drawn from the [secrets] source:
    64 characters, each of [0-9A-F], from which the 32 bytes can be read
    back. *)
Theorem license_key_is_upper_hex_of_32_random_bytes (g : Secrets.csprng) :
  license_key_spec g (GenerateLicense.generate_license_key g)
  /\ license_key_spec g (SetupDatabase.generate_license_key g).
Proof.
  split; apply token_hex_upper_spec.
Qed.

(** ** Bit operations as arithmetic *)

Lemma land_shiftl_small (x y k : Z) :
  0 <= k -> 0 <= y < 2 ^ k -> Z.land (Z.shiftl x k) y = 0.
Proof.
  intros Hk Hy. apply Z.bits_inj'. intros n Hn.
  rewrite Z.land_spec, Z.bits_0.
  destruct (Z.lt_ge_cases n k) as [Hlt | Hge].
  - rewrite Z.shiftl_spec_low by assumption. reflexivity.
  - rewrite <- (Z.mod_small y (2 ^ k)) by assumption.
    rewrite Z.mod_pow2_bits_high by lia. apply andb_false_r.
Qed.

(** A value with [k] low zero bits and a value below [2^k] do not overlap,
    so their bitwise or is their sum. *)
Lemma lor_disjoint_add (a b k : Z) :
  0 <= k -> a mod 2 ^ k = 0 -> 0 <= b < 2 ^ k -> Z.lor a b = a + b.
Proof.
  intros Hk Ha Hb.
  assert (Hshift : a = Z.shiftl (a / 2 ^ k) k).
  { rewrite Z.shiftl_mul_pow2 by assumption.
    pose proof (Z.div_mod a (2 ^ k) ltac:(lia)). lia. }
  assert (Hland : Z.land a b = 0)
    by (rewrite Hshift; apply land_shiftl_small; assumption).
  rewrite <- Z.lxor_lor by assumption.
  symmetry. apply Z.add_nocarry_lxor. assumption.
Qed.

Lemma lor_shiftl_add (x y k : Z) :
  0 <= k -> 0 <= y < 2 ^ k -> Z.lor (Z.shiftl x k) y = x * 2 ^ k + y.
Proof.
  intros Hk Hy.
  rewrite (lor_disjoint_add (Z.shiftl x k) y k Hk); try assumption.
  - rewrite Z.shiftl_mul_pow2 by assumption. reflexivity.
  - rewrite Z.shiftl_mul_pow2 by assumption. apply Z.mod_mul. lia.
Qed.

Lemma from_be_2 (a b : byte) :
  Bytes.from_be [a; b] = Bytes.to_Z a * 256 + Bytes.to_Z b.
Proof.
  unfold Bytes.from_be. cbn [fold_left].
  pose proof (to_Z_range a). pose proof (to_Z_range b).
  rewrite (lor_shiftl_add 0 _ 8) by lia.
  rewrite lor_shiftl_add by lia. lia.
Qed.

Lemma from_be_3 (a b c : byte) :
  Bytes.from_be [a; b; c]
  = Bytes.to_Z a * 65536 + Bytes.to_Z b * 256 + Bytes.to_Z c.
Proof.
  unfold Bytes.from_be. cbn [fold_left].
  pose proof (to_Z_range a). pose proof (to_Z_range b). pose proof (to_Z_range c).
  rewrite (lor_shiftl_add 0 _ 8) by lia.
  rewrite (lor_shiftl_add _ (Bytes.to_Z b)) by lia.
  rewrite lor_shiftl_add by lia. lia.
Qed.

(** ** Base64 *)

Lemma sextet_roundtrip (n : Z) :
  0 <= n < 64 ->
  Base64.decode_sextet (Base64.encode_sextet n) = Some n
  /\ Strings.Byte.eqb (Base64.encode_sextet n) Base64.pad = false.
Proof.
  intros Hn.
  assert (Hall : forallb
            (fun i =>
               match Base64.decode_sextet (Base64.encode_sextet i) with
               | Some j => j =? i
               | None => false
               end
               && negb (Strings.Byte.eqb (Base64.encode_sextet i) Base64.pad))
            (map Z.of_nat (seq 0 64)) = true) by (vm_compute; reflexivity).
  rewrite forallb_forall in Hall.
  specialize (Hall n).
  assert (Hin : In n (map Z.of_nat (seq 0 64))).
  { apply in_map_iff. exists (Z.to_nat n). split; [lia|].
    apply in_seq. lia. }
  apply Hall in Hin. apply andb_true_iff in Hin as [Hdec Hpad].
  split.
  - destruct (Base64.decode_sextet (Base64.encode_sextet n)) as [j|];
      [|discriminate].
    apply Z.eqb_eq in Hdec. now subst.
  - now apply negb_true_iff.
Qed.

Ltac arith_of_bits :=
  change 63 with (Z.ones 6);
  rewrite ?Z.land_ones by lia;
  rewrite ?Z.shiftr_div_pow2 by lia;
  rewrite ?Z.shiftl_mul_pow2 by lia;
  change (2 ^ 18) with 262144; change (2 ^ 16) with 65536;
  change (2 ^ 12) with 4096; change (2 ^ 8) with 256;
  change (2 ^ 6) with 64.

(** The six-bit pieces of a 24-bit value put it together again. *)
Lemma sextets_join (n : Z) :
  0 <= n < 2 ^ 24 ->
  Z.lor (Z.lor (Z.shiftl (Z.shiftr n 18) 18)
               (Z.shiftl (Z.land (Z.shiftr n 12) 63) 12))
        (Z.lor (Z.shiftl (Z.land (Z.shiftr n 6) 63) 6) (Z.land n 63))
  = n.
Proof.
  intros Hn. change (2 ^ 24) with 16777216 in Hn.
  set (s0 := Z.shiftr n 18). set (s1 := Z.land (Z.shiftr n 12) 63).
  set (s2 := Z.land (Z.shiftr n 6) 63). set (s3 := Z.land n 63).
  assert (H0 : s0 = n / 262144) by (unfold s0; arith_of_bits; reflexivity).
  assert (H1 : s1 = (n / 4096) mod 64) by (unfold s1; arith_of_bits; reflexivity).
  assert (H2 : s2 = (n / 64) mod 64) by (unfold s2; arith_of_bits; reflexivity).
  assert (H3 : s3 = n mod 64) by (unfold s3; arith_of_bits; reflexivity).
  assert (B0 : 0 <= s0 < 64) by (rewrite H0; Z.to_euclidean_division_equations; lia).
  assert (B1 : 0 <= s1 < 64) by (rewrite H1; apply Z.mod_pos_bound; lia).
  assert (B2 : 0 <= s2 < 64) by (rewrite H2; apply Z.mod_pos_bound; lia).
  assert (B3 : 0 <= s3 < 64) by (rewrite H3; apply Z.mod_pos_bound; lia).
  rewrite (lor_shiftl_add s2 s3 6) by (change (2 ^ 6) with 64; lia).
  rewrite (Z.shiftl_mul_pow2 s1) by lia.
  rewrite (lor_shiftl_add s0 _ 18) by (change (2 ^ 18) with 262144; lia).
  rewrite (lor_disjoint_add _ _ 12).
  - change (2 ^ 18) with 262144; change (2 ^ 12) with 4096;
      change (2 ^ 6) with 64.
    rewrite H0, H1, H2, H3. Z.to_euclidean_division_equations. lia.
  - lia.
  - change (2 ^ 18) with (64 * 2 ^ 12).
    rewrite Z.mul_assoc, <- Z.mul_add_distr_r. apply Z.mod_mul. lia.
  - change (2 ^ 6) with 64; change (2 ^ 12) with 4096. lia.
Qed.

Lemma sextet_bounds (n : Z) :
  0 <= n < 2 ^ 24 ->
  0 <= Z.shiftr n 18 < 64 /\ 0 <= Z.land (Z.shiftr n 12) 63 < 64
  /\ 0 <= Z.land (Z.shiftr n 6) 63 < 64 /\ 0 <= Z.land n 63 < 64.
Proof.
  intros Hn. change (2 ^ 24) with 16777216 in Hn.
  arith_of_bits. repeat split; Z.to_euclidean_division_equations; lia.
Qed.

(** Decoding the four characters of a 24-bit group gives the group. *)
Lemma decode_encode_group (n : Z) :
  0 <= n < 2 ^ 24 ->
  Base64.decode_group
    (Base64.encode_sextet (Z.shiftr n 18))
    (Base64.encode_sextet (Z.land (Z.shiftr n 12) 63))
    (Base64.encode_sextet (Z.land (Z.shiftr n 6) 63))
    (Base64.encode_sextet (Z.land n 63))
  = Some n.
Proof.
  intros Hn. destruct (sextet_bounds n Hn) as (B0 & B1 & B2 & B3).
  unfold Base64.decode_group.
  rewrite (proj1 (sextet_roundtrip _ B0)), (proj1 (sextet_roundtrip _ B1)),
    (proj1 (sextet_roundtrip _ B2)), (proj1 (sextet_roundtrip _ B3)).
  f_equal. apply sextets_join. assumption.
Qed.

Lemma list_ind3 {A} (P : list A -> Prop) :
  P [] -> (forall a, P [a]) -> (forall a b, P [a; b]) ->
  (forall a b c l, P l -> P (a :: b :: c :: l)) ->
  forall l, P l.
Proof.
  intros H0 H1 H2 H3.
  refine (fix go (l : list A) : P l :=
            match l with
            | [] => H0
            | [a] => H1 a
            | [a; b] => H2 a b
            | a :: b :: c :: l' => H3 a b c l' (go l')
            end).
Qed.

Lemma group_bytes_value (a b c : byte) (n : Z) :
  n = Bytes.to_Z a * 65536 + Bytes.to_Z b * 256 + Bytes.to_Z c ->
  Base64.group_bytes n = [a; b; c].
Proof.
  intros ->.
  pose proof (to_Z_range a). pose proof (to_Z_range b). pose proof (to_Z_range c).
  unfold Base64.group_bytes.
  repeat f_equal; apply of_Z_eq; arith_of_bits;
    Z.to_euclidean_division_equations; lia.
Qed.

Lemma b64decode_group_step (c0 c1 c2 c3 : byte) (rest : list byte) :
  Strings.Byte.eqb c3 Base64.pad = false ->
  Base64.b64decode (c0 :: c1 :: c2 :: c3 :: rest)
  = match Base64.decode_group c0 c1 c2 c3, Base64.b64decode rest with
    | Some n, Some bs => Some (Base64.group_bytes n ++ bs)
    | _, _ => None
    end.
Proof.
  intros H. cbn [Base64.b64decode]. rewrite H. reflexivity.
Qed.

Lemma decode_sextet_A : Base64.decode_sextet "A"%byte = Some 0.
Proof. reflexivity. Qed.

(** [b64decode] undoes [b64encode]. *)
Lemma b64decode_b64encode (bs : list byte) :
  Base64.b64decode (Base64.b64encode bs) = Some bs.
Proof.
  induction bs as [| a | a b | a b c rest IH] using list_ind3.
  - reflexivity.
  - (* one byte, two characters and two pads *)
    pose proof (to_Z_range a) as Ha.
    set (n := Z.shiftl (Bytes.to_Z a) 16).
    assert (Hn : n = Bytes.to_Z a * 65536)
      by (unfold n; rewrite Z.shiftl_mul_pow2 by lia; reflexivity).
    assert (Rn : 0 <= n < 2 ^ 24) by (change (2 ^ 24) with 16777216; lia).
    destruct (sextet_bounds n Rn) as (B0 & B1 & _ & _).
    change (Base64.b64encode [a])
      with [Base64.encode_sextet (Z.shiftr n 18);
            Base64.encode_sextet (Z.land (Z.shiftr n 12) 63);
            Base64.pad; Base64.pad].
    cbn [Base64.b64decode].
    change (Strings.Byte.eqb Base64.pad Base64.pad) with true. cbv iota.
    unfold Base64.decode_group.
    rewrite (proj1 (sextet_roundtrip _ B0)), (proj1 (sextet_roundtrip _ B1)),
      decode_sextet_A.
    cbn [option_map]. f_equal.
    unfold Base64.group_bytes. cbn [firstn]. f_equal.
    apply of_Z_eq. change (Z.shiftl 0 6) with 0. change (Z.lor 0 0) with 0.
    rewrite Z.lor_0_r.
    rewrite (Z.shiftl_mul_pow2 (Z.land _ _)) by lia.
    rewrite lor_shiftl_add
      by (change (2 ^ 18) with 262144; change (2 ^ 12) with 4096; lia).
    arith_of_bits. rewrite Hn. Z.to_euclidean_division_equations. lia.
  - (* two bytes, three characters and one pad *)
    pose proof (to_Z_range a) as Ha. pose proof (to_Z_range b) as Hb.
    set (n := Z.shiftl (Bytes.from_be [a; b]) 8).
    assert (Hn : n = Bytes.to_Z a * 65536 + Bytes.to_Z b * 256)
      by (unfold n; rewrite Z.shiftl_mul_pow2, from_be_2 by lia;
          change (2 ^ 8) with 256; lia).
    assert (Rn : 0 <= n < 2 ^ 24) by (change (2 ^ 24) with 16777216; lia).
    destruct (sextet_bounds n Rn) as (B0 & B1 & B2 & _).
    change (Base64.b64encode [a; b])
      with [Base64.encode_sextet (Z.shiftr n 18);
            Base64.encode_sextet (Z.land (Z.shiftr n 12) 63);
            Base64.encode_sextet (Z.land (Z.shiftr n 6) 63);
            Base64.pad].
    cbn [Base64.b64decode].
    change (Strings.Byte.eqb Base64.pad Base64.pad) with true. cbv iota.
    rewrite (proj2 (sextet_roundtrip _ B2)).
    unfold Base64.decode_group.
    rewrite (proj1 (sextet_roundtrip _ B0)), (proj1 (sextet_roundtrip _ B1)),
      (proj1 (sextet_roundtrip _ B2)), decode_sextet_A.
    cbn [option_map]. f_equal.
    assert (Hlow : Z.land n 63 = 0)
      by (arith_of_bits; rewrite Hn; Z.to_euclidean_division_equations; lia).
    rewrite <- Hlow at 1. rewrite sextets_join by assumption.
    unfold Base64.group_bytes. cbn [firstn].
    repeat f_equal; apply of_Z_eq; arith_of_bits; rewrite Hn;
      Z.to_euclidean_division_equations; lia.
  - (* a full group of three bytes *)
    pose proof (to_Z_range a) as Ha. pose proof (to_Z_range b) as Hb.
    pose proof (to_Z_range c) as Hc.
    pose proof (from_be_3 a b c) as Hn.
    set (n := Bytes.from_be [a; b; c]) in *.
    assert (Rn : 0 <= n < 2 ^ 24) by (change (2 ^ 24) with 16777216; lia).
    destruct (sextet_bounds n Rn) as (_ & _ & _ & B3).
    change (Base64.b64encode (a :: b :: c :: rest))
      with (Base64.encode_sextet (Z.shiftr n 18)
            :: Base64.encode_sextet (Z.land (Z.shiftr n 12) 63)
            :: Base64.encode_sextet (Z.land (Z.shiftr n 6) 63)
            :: Base64.encode_sextet (Z.land n 63)
            :: Base64.b64encode rest).
    rewrite b64decode_group_step by apply (proj2 (sextet_roundtrip _ B3)).
    rewrite decode_encode_group, IH by assumption.
    rewrite (group_bytes_value a b c n Hn). reflexivity.
Qed.

Lemma b64encode_inj (xs ys : list byte) :
  Base64.b64encode xs = Base64.b64encode ys -> xs = ys.
Proof.
  intros H. apply (f_equal Base64.b64decode) in H.
  rewrite !b64decode_b64encode in H. congruence.
Qed.

Lemma b64encode_length (bs : list byte) :
  List.length (Base64.b64encode bs) = (4 * ((List.length bs + 2) / 3))%nat.
Proof.
  induction bs as [| a | a b | a b c rest IH] using list_ind3;
    try reflexivity.
  change (Base64.b64encode (a :: b :: c :: rest))
    with (Base64.encode_group (Bytes.from_be [a; b; c]) ++ Base64.b64encode rest).
  rewrite length_app, IH.
  change (List.length (Base64.encode_group (Bytes.from_be [a; b; c]))) with 4%nat.
  cbn [List.length].
  replace (S (S (S (List.length rest))) + 2)%nat
    with (List.length rest + 2 + 1 * 3)%nat by lia.
  rewrite Nat.div_add by lia. lia.
Qed.

(** ** SHA-256, HMAC and PBKDF2 *)

Lemma sha256_length (msg : list byte) :
  List.length (Hashlib.sha256 msg) = 32%nat.
Proof. reflexivity. Qed.

Lemma prf_length (kb msg : list byte) :
  List.length (Hashlib.prf kb msg) = 32%nat.
Proof. apply sha256_length. Qed.

(** The loop of PBKDF2 keeps both parts of its state one digest long. *)
Lemma pbkdf2_loop_length (kb : list byte) (n : N) (st : list byte * list byte) :
  List.length (fst st) = 32%nat -> List.length (snd st) = 32%nat ->
  List.length (fst (N.iter n (Hashlib.pbkdf2_step kb) st)) = 32%nat
  /\ List.length (snd (N.iter n (Hashlib.pbkdf2_step kb) st)) = 32%nat.
Proof.
  intros Hp Hr. rewrite N2Nat.inj_iter.
  induction (N.to_nat n) as [|k IH]; [now split|].
  rewrite Nat.iter_succ. destruct IH as [IH1 IH2].
  set (st' := Nat.iter k (Hashlib.pbkdf2_step kb) st) in *.
  unfold Hashlib.pbkdf2_step. cbv zeta. cbn [fst snd]. split.
  - apply prf_length.
  - rewrite xor_length; [assumption|]. rewrite prf_length. assumption.
Qed.

Lemma pbkdf2_block_length (kb salt : list byte) (c : N) (i : nat) :
  List.length (Hashlib.pbkdf2_block kb salt c i) = 32%nat.
Proof.
  unfold Hashlib.pbkdf2_block.
  apply pbkdf2_loop_length; apply prf_length.
Qed.

(** With the parameters of [generate_secure_hash] the derivation never
    raises, and its key is the first output block, 32 bytes long. *)
Lemma pbkdf2_100000 (password salt : list byte) :
  Hashlib.pbkdf2_hmac_sha256 password salt 100000 None
  = Some (Hashlib.pbkdf2_block (Hashlib.key_block password) salt 100000 1).
Proof.
  unfold Hashlib.pbkdf2_hmac_sha256.
  change ((100000 <? 1)%N || (Hashlib.digest_size <? 1)%nat) with false.
  cbv iota.
  change ((Hashlib.digest_size + Hashlib.digest_size - 1) / Hashlib.digest_size)%nat
    with 1%nat.
  cbn [seq flat_map]. rewrite app_nil_r.
  rewrite firstn_all2; [reflexivity|].
  rewrite pbkdf2_block_length. apply Nat.le_refl.
Qed.

(** The derived key of [generate_secure_hash], as a total function. *)
Lemma derived_key_length (password salt : list byte) :
  List.length (Hashlib.pbkdf2_block (Hashlib.key_block password) salt 100000 1)
  = 32%nat.
Proof. apply pbkdf2_block_length. Qed.

(** Passwords with the same HMAC key block derive the same key. *)
Lemma pbkdf2_same_key_block (p q salt : list byte) (c : N) (dklen : option nat) :
  Hashlib.key_block p = Hashlib.key_block q ->
  Hashlib.pbkdf2_hmac_sha256 p salt c dklen
  = Hashlib.pbkdf2_hmac_sha256 q salt c dklen.
Proof.
  intros H. unfold Hashlib.pbkdf2_hmac_sha256. rewrite H. reflexivity.
Qed.

(** A key shorter than one block and the same key followed by a zero byte
    have the same key block. *)
Lemma key_block_trailing_zero (key : list byte) :
  (List.length key < 64)%nat ->
  Hashlib.key_block (key ++ [x00]) = Hashlib.key_block key.
Proof.
  intros Hlen. unfold Hashlib.key_block, Hashlib.block_size.
  rewrite length_app. cbn [List.length].
  replace (64 <? List.length key + 1)%nat with false
    by (symmetry; apply Nat.ltb_ge; lia).
  replace (64 <? List.length key)%nat with false
    by (symmetry; apply Nat.ltb_ge; lia).
  rewrite length_app. cbn [List.length].
  rewrite <- app_assoc. f_equal.
  replace (64 - List.length key)%nat with (S (64 - (List.length key + 1)))
    by lia.
  reflexivity.
Qed.

(** ** Constant-time comparison *)

Lemma fold_lor_zero (zs : list Z) (acc : Z) :
  fold_left Z.lor zs acc = 0 <-> acc = 0 /\ Forall (fun z => z = 0) zs.
Proof.
  revert acc. induction zs as [|z zs IH]; intros acc; cbn [fold_left].
  - split; [intros H; split; [exact H | constructor] | intros [H _]; exact H].
  - rewrite IH, Z.lor_eq_0_iff. split.
    + intros [[Ha Hz] Hall]. split; [exact Ha | constructor; assumption].
    + intros [Ha Hall]. inversion Hall; subst. repeat split; assumption.
Qed.

Lemma compare_digest_eq (a b : list byte) :
  Hashlib.compare_digest a b = true <-> a = b.
Proof.
  unfold Hashlib.compare_digest.
  rewrite andb_true_iff, Nat.eqb_eq, Z.eqb_eq, fold_lor_zero.
  split.
  - intros [Hlen [_ Hall]]. revert b Hlen Hall.
    induction a as [|x a IH]; intros [|y b] Hlen Hall;
      try reflexivity; try discriminate.
    cbn [combine map] in Hall. inversion Hall as [|? ? Hxy Hrest]; subst.
    cbn [fst snd] in Hxy. apply Z.lxor_eq in Hxy. apply to_Z_inj in Hxy.
    f_equal; [exact Hxy | apply IH; [now inversion Hlen | exact Hrest]].
  - intros ->. split; [reflexivity | split; [reflexivity|]].
    induction b as [|y b IH]; cbn [combine map]; constructor;
      [apply Z.lxor_nilpotent | exact IH].
Qed.

(** ** PBKDF2 as the exclusive or of a chain of PRF values *)

Lemma pbkdf2_loop_chain (kb salt : list byte) (i k : nat) :
  Nat.iter k (Hashlib.pbkdf2_step kb)
    (chain_value kb salt i 0, chain_value kb salt i 0)
  = (chain_value kb salt i k, chain_xor kb salt i k).
Proof.
  induction k as [|k IH]; [reflexivity|].
  rewrite Nat.iter_succ, IH. reflexivity.
Qed.

Lemma pbkdf2_block_chain (kb salt : list byte) (c : N) (i : nat) :
  Hashlib.pbkdf2_block kb salt c i
  = chain_xor kb salt i (N.to_nat (c - 1)).
Proof.
  unfold Hashlib.pbkdf2_block.
  rewrite N2Nat.inj_iter.
  change (Hashlib.prf kb (salt ++ Bytes.be32 (Z.of_nat i)))
    with (chain_value kb salt i 0).
  rewrite pbkdf2_loop_chain. reflexivity.
Qed.

(** From here on the derivation is used through the lemmas above only. *)
Opaque Hashlib.pbkdf2_block.

(** ** The credential hasher *)

Lemma next_salt_length (g : Secrets.csprng) : List.length (next_salt g) = 32%nat.
Proof.
  unfold next_salt, Secrets.token_bytes. cbn [fst].
  rewrite length_map, length_seq. reflexivity.
Qed.

(** [generate_secure_hash] with a supplied salt: no entropy is drawn. *)
Lemma generate_secure_hash_salted (data : string) (salt : list byte)
    (g : Secrets.csprng) :
  SetupDatabase.generate_secure_hash data (Some salt) g
  = (Some (encode_verifier salt (derived_key data salt)), g).
Proof.
  unfold SetupDatabase.generate_secure_hash, Secrets.bind, Secrets.ret,
    encode_verifier, derived_key.
  rewrite pbkdf2_100000. reflexivity.
Qed.

(** [generate_secure_hash] without a salt: the salt is the next 32 bytes of
    the entropy source. *)
Lemma generate_secure_hash_fresh (data : string) (g : Secrets.csprng) :
  SetupDatabase.generate_secure_hash data None g
  = (Some (encode_verifier (next_salt g) (derived_key data (next_salt g))),
     snd (Secrets.token_bytes 32 g)).
Proof.
  unfold SetupDatabase.generate_secure_hash, Secrets.bind, Secrets.ret,
    next_salt, encode_verifier, derived_key.
  destruct (Secrets.token_bytes 32 g) as [salt g'] eqn:E. cbn [fst snd].
  rewrite pbkdf2_100000. reflexivity.
Qed.

Lemma decode_verifier (salt key : list byte) :
  Base64.b64decode (list_byte_of_string (encode_verifier salt key))
  = Some (salt ++ key).
Proof.
  unfold encode_verifier.
  rewrite list_byte_of_string_of_list_byte. apply b64decode_b64encode.
Qed.

Lemma app_eq_same_length {A} (a b c d : list A) :
  List.length a = List.length c -> a ++ b = c ++ d -> a = c /\ b = d.
Proof.
  revert c. induction a as [|x a IH]; intros [|y c] Hlen H;
    try discriminate; cbn in *.
  - now split.
  - injection H as -> H. destruct (IH c) as [-> ->]; [lia | exact H | now split].
Qed.

Lemma firstn_app_exact {A} (a b : list A) : firstn (List.length a) (a ++ b) = a.
Proof. induction a as [|x a IH]; cbn; [now destruct b | now rewrite IH]. Qed.

Lemma skipn_app_exact {A} (a b : list A) : skipn (List.length a) (a ++ b) = b.
Proof. induction a as [|x a IH]; cbn; [reflexivity | exact IH]. Qed.

Lemma split_salt_key (salt key : list byte) :
  List.length salt = 32%nat ->
  firstn 32 (salt ++ key) = salt /\ skipn 32 (salt ++ key) = key.
Proof.
  intros <-. split; [apply firstn_app_exact | apply skipn_app_exact].
Qed.

Lemma encode_verifier_inj (s1 k1 s2 k2 : list byte) :
  List.length s1 = List.length s2 ->
  encode_verifier s1 k1 = encode_verifier s2 k2 -> s1 = s2 /\ k1 = k2.
Proof.
  intros Hlen H.
  apply (f_equal list_byte_of_string) in H.
  unfold encode_verifier in H.
  rewrite !list_byte_of_string_of_list_byte in H.
  apply b64encode_inj in H.
  now apply app_eq_same_length.
Qed.

(** Verifying against a verifier built from a 32-byte salt compares the key
    derived from that salt with the stored key. *)
Lemma verify_encoded (secret : string) (salt key : list byte) :
  List.length salt = 32%nat ->
  CredentialHasher.verify secret (encode_verifier salt key)
  = Hashlib.compare_digest (derived_key secret salt) key.
Proof.
  intros Hlen. unfold CredentialHasher.verify.
  rewrite decode_verifier.
  destruct (split_salt_key salt key Hlen) as [-> ->].
  rewrite pbkdf2_100000. unfold derived_key. reflexivity.
Qed.

Lemma verify_encoded_iff (secret : string) (salt key : list byte) :
  List.length salt = 32%nat ->
  CredentialHasher.verify secret (encode_verifier salt key) = true
  <-> derived_key secret salt = key.
Proof.
  intros Hlen. rewrite verify_encoded by assumption. apply compare_digest_eq.
Qed.

(** A secret shorter than one HMAC block and the same secret followed by a
    NUL character derive the same key. *)
Lemma derived_key_trailing_nul (secret : string) (salt : list byte) :
  (String.length secret < 64)%nat ->
  derived_key (secret ++ String Ascii.zero EmptyString) salt
  = derived_key secret salt.
Proof.
  intros Hlen. unfold derived_key.
  replace (list_byte_of_string (secret ++ String Ascii.zero EmptyString))
    with (list_byte_of_string secret ++ [x00]).
  - rewrite key_block_trailing_zero; [reflexivity|].
    rewrite <- string_length_of_bytes, string_of_list_byte_of_string.
    exact Hlen.
  - clear Hlen. unfold list_byte_of_string.
    induction secret as [|c s IH]; [reflexivity|].
    cbn [String.append list_ascii_of_string map app]. now rewrite <- IH.
Qed.

(** *** Claims about hashing and verification *)

(** C1 (amended). For every secret [s1], [verify s1 (hash s1)] is [true].
    For any second secret [s2], [verify s2 (hash s1)] is [true] exactly when
    PBKDF2 derives the same key from [s2] and from [s1] under the salt of
    the verifier; it is [false] in every other case. *)
Theorem verify_accepts_exactly_equal_derived_keys
    (s1 s2 : string) (g : Secrets.csprng) :
  exists v,
    fst (CredentialHasher.hash s1 g) = Some v
    /\ CredentialHasher.verify s1 v = true
    /\ (CredentialHasher.verify s2 v = true
        <-> derived_key s2 (next_salt g) = derived_key s1 (next_salt g)).
Proof.
  unfold CredentialHasher.hash. rewrite generate_secure_hash_fresh. cbn [fst].
  eexists. split; [reflexivity|].
  pose proof (next_salt_length g) as Hlen. split.
  - now apply verify_encoded_iff.
  - now apply verify_encoded_iff.
Qed.

(** C1, as stated, fails: the secrets ["a"] and ["a"] followed by a NUL
    character are distinct, yet the second verifies against the hash of the
    first, because HMAC fills short keys with zero bytes. *)
Lemma nul_suffixed_secret_verifies :
  String "a" EmptyString <> String "a" (String Ascii.zero EmptyString)
  /\ exists v,
       fst (CredentialHasher.hash (String "a" EmptyString) counting_source)
       = Some v
       /\ CredentialHasher.verify
            (String "a" (String Ascii.zero EmptyString)) v = true.
Proof.
  split; [discriminate|].
  unfold CredentialHasher.hash. rewrite generate_secure_hash_fresh. cbn [fst].
  eexists. split; [reflexivity|].
  apply verify_encoded_iff; [apply next_salt_length|].
  change (String "a" (String Ascii.zero EmptyString))
    with (String "a" EmptyString ++ String Ascii.zero EmptyString)%string.
  apply derived_key_trailing_nul. cbn. lia.
Qed.

(** C3. Called without a salt, [generate_secure_hash] takes its salt from
    [secrets.token_bytes]: 32 bytes, hence at least 32; it derives the key
    with PBKDF2-HMAC-SHA256 for an iteration count [c] of at least 100000,
    that is as the exclusive or of [c] chained HMAC values; and it returns
    the encoding of salt and key. *)
Theorem fresh_salt_and_iterated_derivation (data : string) (g : Secrets.csprng) :
  exists (salt key : list byte) (g' : Secrets.csprng) (c : N),
    Secrets.token_bytes 32 g = (salt, g')
    /\ (32 <= List.length salt)%nat
    /\ (100000 <= c)%N
    /\ Hashlib.pbkdf2_hmac_sha256 (list_byte_of_string data) salt c None
       = Some key
    /\ key = chain_xor (Hashlib.key_block (list_byte_of_string data)) salt 1
               (N.to_nat (c - 1))
    /\ SetupDatabase.generate_secure_hash data None g
       = (Some (encode_verifier salt key), g').
Proof.
  exists (next_salt g), (derived_key data (next_salt g)),
    (snd (Secrets.token_bytes 32 g)), 100000%N.
  split; [reflexivity|].
  split; [rewrite next_salt_length; apply Nat.le_refl|].
  split; [apply N.le_refl|].
  split; [rewrite pbkdf2_100000; unfold derived_key; reflexivity|].
  split; [unfold derived_key; apply pbkdf2_block_chain|].
  apply generate_secure_hash_fresh.
Qed.

(** C6 (amended). Two calls of [generate_secure_hash] with the same secret
    and no salt, one after the other, return different verifiers exactly
    when the salts they draw differ, and the same verifier when the second
    salt repeats the first; in either case both verifiers verify against
    the secret. *)
Theorem successive_verifiers_differ_as_their_salts
    (s : string) (g : Secrets.csprng) :
  exists v1 v2 g1 g2,
    SetupDatabase.generate_secure_hash s None g = (Some v1, g1)
    /\ SetupDatabase.generate_secure_hash s None g1 = (Some v2, g2)
    /\ (v1 = v2 <-> next_salt g = next_salt g1)
    /\ CredentialHasher.verify s v1 = true
    /\ CredentialHasher.verify s v2 = true.
Proof.
  set (g1 := snd (Secrets.token_bytes 32 g)).
  exists (encode_verifier (next_salt g) (derived_key s (next_salt g))),
    (encode_verifier (next_salt g1) (derived_key s (next_salt g1))),
    g1, (snd (Secrets.token_bytes 32 g1)).
  split; [apply generate_secure_hash_fresh|].
  split; [apply generate_secure_hash_fresh|].
  split.
  - split.
    + intros E. apply encode_verifier_inj in E.
      * now destruct E.
      * now rewrite !next_salt_length.
    + now intros ->.
  - split; apply verify_encoded_iff;
      try apply next_salt_length; reflexivity.
Qed.

(** C6, as stated, fails: with an entropy source that repeats its bytes,
    two calls in a row with the same secret and no salt return the same
    verifier. *)
Lemma repeating_source_gives_equal_verifiers :
  exists v g1 g2,
    SetupDatabase.generate_secure_hash "TXA2024!@#" None constant_source
    = (Some v, g1)
    /\ SetupDatabase.generate_secure_hash "TXA2024!@#" None g1 = (Some v, g2).
Proof.
  eexists _, _, _. split; [apply generate_secure_hash_fresh|].
  rewrite generate_secure_hash_fresh.
  replace (next_salt (snd (Secrets.token_bytes 32 constant_source)))
    with (next_salt constant_source) by (vm_compute; reflexivity).
  reflexivity.
Qed.

(** C9. For every secret and every 32-byte salt, the verifier of
    [generate_secure_hash] decodes to 64 bytes: the salt, then the 32-byte
    key PBKDF2 derives from the secret and the salt. *)
Theorem verifier_decodes_to_salt_and_key
    (data : string) (salt : list byte) (g : Secrets.csprng) :
  List.length salt = 32%nat ->
  exists v raw,
    fst (SetupDatabase.generate_secure_hash data (Some salt) g) = Some v
    /\ Base64.b64decode (list_byte_of_string v) = Some raw
    /\ List.length raw = 64%nat
    /\ firstn 32 raw = salt
    /\ List.length (skipn 32 raw) = 32%nat
    /\ Hashlib.pbkdf2_hmac_sha256 (list_byte_of_string data) salt 100000 None
       = Some (skipn 32 raw).
Proof.
  intros Hlen. rewrite generate_secure_hash_salted. cbn [fst].
  exists (encode_verifier salt (derived_key data salt)),
    (salt ++ derived_key data salt).
  assert (Hkey : List.length (derived_key data salt) = 32%nat)
    by apply derived_key_length.
  split; [reflexivity|].
  split; [apply decode_verifier|].
  split; [rewrite length_app, Hlen, Hkey; reflexivity|].
  destruct (split_salt_key salt (derived_key data salt) Hlen) as [-> ->].
  split; [reflexivity|].
  split; [exact Hkey | rewrite pbkdf2_100000; unfold derived_key; reflexivity].
Qed.

Lemma verifier_decodes_to_salt_and_key_witness :
  List.length (next_salt counting_source) = 32%nat
  /\ exists v raw,
       fst (SetupDatabase.generate_secure_hash "TXA2024!@#"
              (Some (next_salt counting_source)) counting_source) = Some v
       /\ Base64.b64decode (list_byte_of_string v) = Some raw
       /\ List.length raw = 64%nat
       /\ firstn 32 raw = next_salt counting_source
       /\ List.length (skipn 32 raw) = 32%nat
       /\ Hashlib.pbkdf2_hmac_sha256 (list_byte_of_string "TXA2024!@#")
            (next_salt counting_source) 100000 None
          = Some (skipn 32 raw).
Proof.
  assert (H : List.length (next_salt counting_source) = 32%nat)
    by (vm_compute; reflexivity).
  split; [exact H|].
  apply (verifier_decodes_to_salt_and_key
           "TXA2024!@#" (next_salt counting_source) counting_source H).
Defined.

(** C10. With the salt supplied, [generate_secure_hash] is a function of
    the secret and the salt alone: two calls return the same verifier,
    whatever the state of the entropy source, which they leave untouched. *)
Theorem hash_deterministic_given_salt
    (data : string) (salt : list byte) (g1 g2 : Secrets.csprng) :
  exists v,
    SetupDatabase.generate_secure_hash data (Some salt) g1 = (Some v, g1)
    /\ SetupDatabase.generate_secure_hash data (Some salt) g2 = (Some v, g2).
Proof.
  exists (encode_verifier salt (derived_key data salt)).
  split; apply generate_secure_hash_salted.
Qed.

(** ** The store *)

Lemma value_eqb_refl (v : Sqlite.value) : Sqlite.value_eqb v v = true.
Proof.
  destruct v; cbn; [reflexivity | apply Z.eqb_refl | apply String.eqb_refl].
Qed.

Lemma stored_values_app (c : string) (xs ys : list Sqlite.row) :
  stored_values c (xs ++ ys) = stored_values c xs ++ stored_values c ys.
Proof.
  unfold stored_values. rewrite map_app. apply filter_app.
Qed.

Lemma stored_value_has_row (c : string) (v : Sqlite.value) (rows : list Sqlite.row) :
  In v (stored_values c rows) -> exists r, In r rows /\ Sqlite.get r c = v.
Proof.
  unfold stored_values. rewrite filter_In, in_map_iff.
  intros [[r [Hget Hin]] _]. exists r. now split.
Qed.

Lemma NoDup_snoc {A} (l : list A) (x : A) :
  NoDup l -> ~ In x l -> NoDup (l ++ [x]).
Proof.
  induction l as [|y l IH]; intros Hnd Hx; cbn.
  - constructor; [intros [] | constructor].
  - inversion Hnd as [|? ? Hy Hl]; subst. constructor.
    + rewrite in_app_iff. intros [H | [H | []]]; [now apply Hy|].
      subst. apply Hx. now left.
    + apply IH; [assumption|]. intros H. apply Hx. now right.
Qed.

Lemma existsb_false {A} (f : A -> bool) (l : list A) (x : A) :
  existsb f l = false -> In x l -> f x = false.
Proof.
  intros H Hin. destruct (f x) eqn:E; [|reflexivity].
  assert (existsb f l = true) by (apply existsb_exists; now exists x).
  congruence.
Qed.

(** [INSERT OR IGNORE] keeps a [UNIQUE] column free of duplicates. *)
Lemma insert_row_unique
    (t : Sqlite.table) (now : string) (bound : list (string * Sqlite.value))
    (rows : list Sqlite.row) (c : Sqlite.column) :
  In c (Sqlite.tbl_columns t) -> Sqlite.is_unique c = true ->
  unique_in (Sqlite.col_name c) rows ->
  unique_in (Sqlite.col_name c) (Sqlite.insert_row t now bound rows).
Proof.
  intros Hc Hu Hnd. unfold Sqlite.insert_row.
  set (r := Sqlite.build_row t now bound rows).
  destruct (Sqlite.violates t r rows) eqn:V; [exact Hnd|].
  unfold unique_in. rewrite stored_values_app.
  unfold Sqlite.violates in V.
  apply (fun H => existsb_false _ _ c H Hc) in V.
  cbv beta zeta in V. rewrite Hu in V. cbn [orb andb] in V.
  apply orb_false_iff in V as [_ V].
  unfold stored_values at 2. cbn [map filter].
  destruct (Sqlite.is_null (Sqlite.get r (Sqlite.col_name c))) eqn:N;
    cbn [negb andb] in *.
  - rewrite app_nil_r. exact Hnd.
  - apply NoDup_snoc; [exact Hnd|].
    intros Hin. apply stored_value_has_row in Hin as [r' [Hr' Hget]].
    apply (fun H => existsb_false _ _ r' H Hr') in V.
    cbv beta in V. rewrite Hget, value_eqb_refl in V. discriminate.
Qed.

(** *** Tables of a database by name *)

Lemma assoc_replace (name n : string) (rel : Sqlite.relation) (db : Sqlite.database) :
  Sqlite.assoc n (Sqlite.replace name rel db)
  = if String.eqb n name
    then match Sqlite.assoc name db with Some _ => Some rel | None => None end
    else Sqlite.assoc n db.
Proof.
  induction db as [|[k r] db IH]; cbn [Sqlite.replace Sqlite.assoc].
  - now destruct (String.eqb n name).
  - destruct (String.eqb name k) eqn:E; cbn [Sqlite.assoc].
    + apply String.eqb_eq in E. subst k.
      destruct (String.eqb n name); reflexivity.
    + destruct (String.eqb n k) eqn:F.
      * apply String.eqb_eq in F. subst k.
        rewrite String.eqb_sym, E. reflexivity.
      * exact IH.
Qed.

Lemma assoc_app_new {A} (n k : string) (a : A) (l : list (string * A)) :
  Sqlite.assoc k l = None ->
  Sqlite.assoc n (l ++ [(k, a)])
  = match Sqlite.assoc n l with
    | Some x => Some x
    | None => if String.eqb n k then Some a else None
    end.
Proof.
  intros _. induction l as [|[k' x] l IH]; cbn [app Sqlite.assoc].
  - reflexivity.
  - destruct (String.eqb n k'); [reflexivity | exact IH].
Qed.

Lemma reachable_well_kept (db : Sqlite.database) : reachable db -> well_kept db.
Proof.
  induction 1 as [| db t Hreach IH Ht | db db' name now bound Hreach IH Hins].
  - intros name rel H. discriminate.
  - unfold Sqlite.create_table_if_not_exists.
    destruct (Sqlite.assoc (Sqlite.tbl_name t) db) eqn:E; [exact IH|].
    intros name rel H. rewrite (assoc_app_new _ _ _ _ E) in H.
    destruct (Sqlite.assoc name db) eqn:F.
    + injection H as ->. now apply IH.
    + destruct (String.eqb name (Sqlite.tbl_name t)) eqn:G; [|discriminate].
      injection H as <-. apply String.eqb_eq in G. cbn [Sqlite.schema Sqlite.rows].
      repeat split; [assumption | now symmetry |].
      intros c _ _. constructor.
  - unfold Sqlite.insert_or_ignore in Hins.
    destruct (Sqlite.assoc name db) as [old|] eqn:E; [|discriminate].
    destruct (forallb _ bound); [|discriminate].
    injection Hins as <-.
    intros n rel H. rewrite assoc_replace, E in H.
    destruct (String.eqb n name) eqn:G; [|now apply IH].
    injection H as <-. apply String.eqb_eq in G. subst n.
    destruct (IH name old E) as (Hin & Hname & Huniq).
    cbn [Sqlite.schema Sqlite.rows].
    repeat split; [assumption | assumption |].
    intros c Hc Hu. apply insert_row_unique; auto.
Qed.

(** A reachable database stores each table of the script, when present,
    with the schema the script gives it. *)
Lemma well_kept_schema (db : Sqlite.database) (t : Sqlite.table) (rel : Sqlite.relation) :
  well_kept db -> In t SetupDatabase.tables ->
  Sqlite.assoc (Sqlite.tbl_name t) db = Some rel -> Sqlite.schema rel = t.
Proof.
  intros Hk Ht E. destruct (Hk _ _ E) as (Hin & Hname & _).
  revert Hname.
  cbn [SetupDatabase.tables In] in Hin, Ht.
  repeat (destruct Ht as [<- | Ht]); try contradiction;
    repeat (destruct Hin as [<- | Hin]); try contradiction;
    intros Hname; try reflexivity; discriminate Hname.
Qed.

Lemma well_kept_unique
    (db : Sqlite.database) (t : Sqlite.table) (c : Sqlite.column) :
  well_kept db -> In t SetupDatabase.tables ->
  In c (Sqlite.tbl_columns t) -> Sqlite.is_unique c = true ->
  unique_in (Sqlite.col_name c) (Sqlite.rows_of (Sqlite.tbl_name t) db).
Proof.
  intros Hk Ht Hc Hu. unfold Sqlite.rows_of.
  destruct (Sqlite.assoc (Sqlite.tbl_name t) db) as [rel|] eqn:E;
    [|constructor].
  pose proof (well_kept_schema db t rel Hk Ht E) as Hs.
  destruct (Hk _ _ E) as (_ & _ & Huniq).
  apply Huniq; [rewrite Hs|]; assumption.
Qed.

(** *** Claims about the schema *)

Local Open Scope string_scope.

Ltac in_list := cbn [In Sqlite.tbl_columns SetupDatabase.tables
                        SetupDatabase.txa_users SetupDatabase.txa_licenses
                        SetupDatabase.txa_applications SetupDatabase.txa_sessions
                        SetupDatabase.txa_security_events];
                repeat first [left; reflexivity | right].

Lemma reachable_empty_tables : reachable (db_of [] [] [] [] []).
Proof.
  change (db_of [] [] [] [] [])
    with (fold_left Sqlite.create_table_if_not_exists SetupDatabase.tables []).
  cbn [fold_left SetupDatabase.tables].
  repeat (apply reachable_create; [| in_list]).
  apply reachable_new.
Qed.

Lemma run_inserts_reachable (now : string)
    (statements : list (string * list (string * Sqlite.value)))
    (db db' : Sqlite.database) :
  reachable db -> run_inserts now statements db = Some db' -> reachable db'.
Proof.
  revert db. induction statements as [|[name bound] rest IH]; intros db Hdb Hrun.
  - injection Hrun as <-. exact Hdb.
  - cbn [run_inserts] in Hrun.
    destruct (Sqlite.insert_or_ignore name now bound db) as [db1|] eqn:E;
      [|discriminate].
    apply (IH db1); [|exact Hrun].
    exact (reachable_insert db db1 name now bound Hdb E).
Qed.

(** The sample statements fill every table; the second admin insert and
    the repeated license key are skipped. *)
Example populated_database_rows :
  map (fun t => List.length (Sqlite.rows_of (Sqlite.tbl_name t) populated_database))
      SetupDatabase.tables
  = [1; 2; 1; 1; 1]%nat
  /\ stored_values "username" (Sqlite.rows_of "txa_users" populated_database)
     = [Sqlite.Text "admin"]
  /\ stored_values "key" (Sqlite.rows_of "txa_licenses" populated_database)
     = [Sqlite.Text "AA11"; Sqlite.Text "BB22"]
  /\ stored_values "id" (Sqlite.rows_of "txa_licenses" populated_database)
     = [Sqlite.Integer 1; Sqlite.Integer 2].
Proof. vm_compute. repeat split. Qed.

(** C7. In every state of the database the statements of the script lead
    to, no two users share a username or an email, no two licenses a key, no
    two applications a secret key and no two sessions a session id; and the
    schema declares the foreign keys of licenses, sessions and security
    events, those of security events on columns that may stay [NULL]. *)
Theorem schema_keeps_unique_columns_and_declares_foreign_keys
    (db : Sqlite.database) :
  reachable db ->
  unique_in "username" (Sqlite.rows_of "txa_users" db)
  /\ unique_in "email" (Sqlite.rows_of "txa_users" db)
  /\ unique_in "key" (Sqlite.rows_of "txa_licenses" db)
  /\ unique_in "secret_key" (Sqlite.rows_of "txa_applications" db)
  /\ unique_in "session_id" (Sqlite.rows_of "txa_sessions" db)
  /\ Sqlite.tbl_foreign_keys SetupDatabase.txa_licenses
     = [Sqlite.mk_fk "user_id" "txa_users" "id"]
  /\ Sqlite.tbl_foreign_keys SetupDatabase.txa_sessions
     = [Sqlite.mk_fk "user_id" "txa_users" "id";
        Sqlite.mk_fk "application_id" "txa_applications" "id"]
  /\ Sqlite.tbl_foreign_keys SetupDatabase.txa_security_events
     = [Sqlite.mk_fk "user_id" "txa_users" "id";
        Sqlite.mk_fk "application_id" "txa_applications" "id"]
  /\ nullable SetupDatabase.txa_security_events "user_id" = true
  /\ nullable SetupDatabase.txa_security_events "application_id" = true.
Proof.
  intros Hreach. apply reachable_well_kept in Hreach.
  split; [|split; [|split; [|split; [|split]]]].
  - apply (well_kept_unique db SetupDatabase.txa_users
             (SetupDatabase.col "username" Sqlite.TEXT [Sqlite.UNIQUE; Sqlite.NOT_NULL]));
      [assumption | in_list | in_list | reflexivity].
  - apply (well_kept_unique db SetupDatabase.txa_users
             (SetupDatabase.col "email" Sqlite.TEXT [Sqlite.UNIQUE; Sqlite.NOT_NULL]));
      [assumption | in_list | in_list | reflexivity].
  - apply (well_kept_unique db SetupDatabase.txa_licenses
             (SetupDatabase.col "key" Sqlite.TEXT [Sqlite.UNIQUE; Sqlite.NOT_NULL]));
      [assumption | in_list | in_list | reflexivity].
  - apply (well_kept_unique db SetupDatabase.txa_applications
             (SetupDatabase.col "secret_key" Sqlite.TEXT [Sqlite.UNIQUE]));
      [assumption | in_list | in_list | reflexivity].
  - apply (well_kept_unique db SetupDatabase.txa_sessions
             (SetupDatabase.col "session_id" Sqlite.TEXT [Sqlite.UNIQUE; Sqlite.NOT_NULL]));
      [assumption | in_list | in_list | reflexivity].
  - repeat split.
Qed.

Lemma schema_keeps_unique_columns_and_declares_foreign_keys_witness :
  reachable populated_database
  /\ unique_in "username" (Sqlite.rows_of "txa_users" populated_database)
  /\ unique_in "email" (Sqlite.rows_of "txa_users" populated_database)
  /\ unique_in "key" (Sqlite.rows_of "txa_licenses" populated_database)
  /\ unique_in "secret_key" (Sqlite.rows_of "txa_applications" populated_database)
  /\ unique_in "session_id" (Sqlite.rows_of "txa_sessions" populated_database)
  /\ Sqlite.tbl_foreign_keys SetupDatabase.txa_licenses
     = [Sqlite.mk_fk "user_id" "txa_users" "id"]
  /\ Sqlite.tbl_foreign_keys SetupDatabase.txa_sessions
     = [Sqlite.mk_fk "user_id" "txa_users" "id";
        Sqlite.mk_fk "application_id" "txa_applications" "id"]
  /\ Sqlite.tbl_foreign_keys SetupDatabase.txa_security_events
     = [Sqlite.mk_fk "user_id" "txa_users" "id";
        Sqlite.mk_fk "application_id" "txa_applications" "id"]
  /\ nullable SetupDatabase.txa_security_events "user_id" = true
  /\ nullable SetupDatabase.txa_security_events "application_id" = true.
Proof.
  assert (H : reachable populated_database).
  { apply (run_inserts_reachable "2024-01-01 00:00:00" sample_statements
             (db_of [] [] [] [] [])); [apply reachable_empty_tables|].
    vm_compute. reflexivity. }
  split; [exact H|].
  apply (schema_keeps_unique_columns_and_declares_foreign_keys _ H).
Defined.

(** A license insert that leaves [status], [user_id], [activated_at] and
    [used_applications] to their defaults is skipped or adds a row in the
    initial state. *)
Lemma new_license_row_unused
    (now : string) (bound : list (string * Sqlite.value))
    (rows : list Sqlite.row) :
  omits ["status"; "user_id"; "activated_at"; "used_applications"] bound = true ->
  Sqlite.insert_row SetupDatabase.txa_licenses now bound rows = rows
  \/ exists r,
       Sqlite.insert_row SetupDatabase.txa_licenses now bound rows = (rows ++ [r])%list
       /\ starts_unused r.
Proof.
  intros Homits. unfold omits in Homits. cbn [forallb] in Homits.
  repeat (apply andb_true_iff in Homits as [? Homits]).
  destruct (Sqlite.assoc "status" bound) eqn:E1; [discriminate|].
  destruct (Sqlite.assoc "user_id" bound) eqn:E2; [discriminate|].
  destruct (Sqlite.assoc "activated_at" bound) eqn:E3; [discriminate|].
  destruct (Sqlite.assoc "used_applications" bound) eqn:E4; [discriminate|].
  unfold Sqlite.insert_row.
  destruct (Sqlite.violates _ _ rows); [now left | right].
  eexists. split; [reflexivity|].
  unfold starts_unused, Sqlite.get, Sqlite.build_row.
  cbn [map Sqlite.tbl_columns SetupDatabase.txa_licenses SetupDatabase.col
       Sqlite.col_name Sqlite.col_constraints Sqlite.assoc String.eqb
       Ascii.eqb Bool.eqb].
  rewrite E1, E2, E3, E4. repeat split.
Qed.

Lemma sample_license_omits (l : string * string * Z) :
  omits ["status"; "user_id"; "activated_at"; "used_applications"]
        (SetupDatabase.sample_license l) = true.
Proof. destruct l as [[key ty] n]. reflexivity. Qed.

Lemma insert_sample_license_unused
    (now : string) (l : string * string * Z) (rows : list Sqlite.row) :
  Forall starts_unused rows ->
  Forall starts_unused
    (Sqlite.insert_row SetupDatabase.txa_licenses now
       (SetupDatabase.sample_license l) rows).
Proof.
  intros Hrows.
  destruct (new_license_row_unused now _ rows (sample_license_omits l))
    as [-> | [r [-> Hr]]]; [exact Hrows|].
  apply Forall_app. split; [exact Hrows | now constructor].
Qed.



(** ** The script *)

Lemma token_hex_advance (g : Secrets.csprng) (off n : nat) :
  Secrets.token_hex n (advance g off)
  = (drawn_hex g off n, advance g (off + n)).
Proof.
  unfold Secrets.token_hex, Secrets.bind, Secrets.token_bytes, Secrets.ret,
    advance, drawn_hex, drawn.
  cbn [Secrets.supply Secrets.consumed]. rewrite Nat.add_assoc. reflexivity.
Qed.

Lemma license_key_advance (g : Secrets.csprng) (off : nat) :
  SetupDatabase.generate_license_key (advance g off)
  = (upper (drawn_hex g off 32), advance g (off + 32)).
Proof.
  unfold SetupDatabase.generate_license_key, Secrets.bind, Secrets.ret.
  rewrite token_hex_advance. reflexivity.
Qed.

Lemma hash_advance (data : string) (g : Secrets.csprng) :
  SetupDatabase.generate_secure_hash data None g
  = (Some (encode_verifier (next_salt g) (derived_key data (next_salt g))),
     advance g 32).
Proof. apply generate_secure_hash_fresh. Qed.

Lemma insert_users (now : string) (u l a s e : list Sqlite.row)
    (x y z : string) :
  Sqlite.insert_or_ignore "txa_users" now (SetupDatabase.admin_user x y z)
    (db_of u l a s e)
  = Some (db_of (Sqlite.insert_row SetupDatabase.txa_users now
                   (SetupDatabase.admin_user x y z) u) l a s e).
Proof. reflexivity. Qed.

Lemma insert_licenses (now : string) (u l a s e : list Sqlite.row)
    (k : string * string * Z) :
  Sqlite.insert_or_ignore "txa_licenses" now (SetupDatabase.sample_license k)
    (db_of u l a s e)
  = Some (db_of u (Sqlite.insert_row SetupDatabase.txa_licenses now
                     (SetupDatabase.sample_license k) l) a s e).
Proof. destruct k as [[key ty] n]. reflexivity. Qed.

Lemma insert_applications (now : string) (u l a s e : list Sqlite.row)
    (x y : string) :
  Sqlite.insert_or_ignore "txa_applications" now
    (SetupDatabase.sample_application x y) (db_of u l a s e)
  = Some (db_of u l (Sqlite.insert_row SetupDatabase.txa_applications now
                       (SetupDatabase.sample_application x y) a) s e).
Proof. reflexivity. Qed.

Ltac script_step :=
  cbv beta iota zeta; cbn [SetupDatabase.entropy SetupDatabase.store].

(** What the script does to a database whose tables, once created, are
    those of the script: one admin insert, three license inserts and one
    application insert, fed by 212 bytes of entropy. *)
Lemma setup_effect (now : string) (g : Secrets.csprng) (db : Sqlite.database)
    (u l a s e : list Sqlite.row) :
  fold_left Sqlite.create_table_if_not_exists SetupDatabase.tables db
  = db_of u l a s e ->
  SetupScript.setup now (SetupDatabase.mk_world g db)
  = Some (tt,
          SetupDatabase.mk_world (advance g 212)
            (db_of
               (Sqlite.insert_row SetupDatabase.txa_users now
                  (SetupDatabase.admin_user (drawn_hex g 32 18)
                     (encode_verifier (next_salt g)
                        (derived_key SetupDatabase.admin_password (next_salt g)))
                     (drawn_hex g 50 16)) u)
               (Sqlite.insert_row SetupDatabase.txa_licenses now
                  (SetupDatabase.sample_license
                     (upper (drawn_hex g 130 32), "enterprise"%string, 25))
                  (Sqlite.insert_row SetupDatabase.txa_licenses now
                     (SetupDatabase.sample_license
                        (upper (drawn_hex g 98 32), "premium"%string, 10))
                     (Sqlite.insert_row SetupDatabase.txa_licenses now
                        (SetupDatabase.sample_license
                           (upper (drawn_hex g 66 32), "standard"%string, 5))
                        l)))
               (Sqlite.insert_row SetupDatabase.txa_applications now
                  (SetupDatabase.sample_application
                     (drawn_hex g 162 18) (drawn_hex g 180 32)) a)
               s e)).
Proof.
  intros Hcreate.
  unfold SetupScript.setup, SetupDatabase.raising.
  unfold SetupDatabase.andthen, SetupDatabase.draw, SetupDatabase.executescript,
    SetupDatabase.execute_insert, SetupDatabase.pure.
  script_step. rewrite Hcreate.
  script_step. rewrite hash_advance.
  script_step. rewrite token_hex_advance.
  script_step. rewrite token_hex_advance.
  script_step. rewrite insert_users.
  do 3 (script_step; rewrite license_key_advance).
  script_step. cbn [SetupDatabase.for_each].
  unfold SetupDatabase.andthen, SetupDatabase.execute_insert, SetupDatabase.pure.
  do 3 (script_step; rewrite insert_licenses).
  do 2 (script_step; rewrite token_hex_advance).
  script_step. rewrite insert_applications.
  reflexivity.
Qed.

Lemma setup_new_database (now : string) (g : Secrets.csprng) :
  exists w,
    SetupScript.setup now (SetupDatabase.mk_world g []) = Some (tt, w)
    /\ Sqlite.rows_of "txa_users" (SetupDatabase.store w)
       = Sqlite.insert_row SetupDatabase.txa_users now
           (SetupDatabase.admin_user (drawn_hex g 32 18)
              (encode_verifier (next_salt g)
                 (derived_key SetupDatabase.admin_password (next_salt g)))
              (drawn_hex g 50 16)) []
    /\ Sqlite.rows_of "txa_licenses" (SetupDatabase.store w)
       = Sqlite.insert_row SetupDatabase.txa_licenses now
           (SetupDatabase.sample_license
              (upper (drawn_hex g 130 32), "enterprise", 25))
           (Sqlite.insert_row SetupDatabase.txa_licenses now
              (SetupDatabase.sample_license
                 (upper (drawn_hex g 98 32), "premium", 10))
              (Sqlite.insert_row SetupDatabase.txa_licenses now
                 (SetupDatabase.sample_license
                    (upper (drawn_hex g 66 32), "standard", 5))
                 [])).
Proof.
  eexists. split.
  - apply (setup_effect now g [] [] [] [] [] []). reflexivity.
  - split; reflexivity.
Qed.

(** The admin insert into an empty user table stores its row. *)
Lemma admin_insert_new (now x y z : string) :
  Sqlite.insert_row SetupDatabase.txa_users now
    (SetupDatabase.admin_user x y z) []
  = [Sqlite.build_row SetupDatabase.txa_users now
       (SetupDatabase.admin_user x y z) []].
Proof. reflexivity. Qed.

Lemma admin_row_fields (now x y z : string) (rows : list Sqlite.row) :
  let r := Sqlite.build_row SetupDatabase.txa_users now
             (SetupDatabase.admin_user x y z) rows in
  Sqlite.get r "username" = Sqlite.Text "admin"
  /\ Sqlite.get r "password_hash" = Sqlite.Text y
  /\ Sqlite.get r "password_salt" = Sqlite.Text z.
Proof. repeat split. Qed.

Lemma drawn_hex_length (g : Secrets.csprng) (off n : nat) :
  String.length (drawn_hex g off n) = (2 * n)%nat.
Proof.
  unfold drawn_hex, drawn.
  rewrite string_length_of_bytes, hex_length, length_map, length_seq.
  reflexivity.
Qed.

Lemma encode_verifier_length (salt key : list byte) :
  List.length salt = 32%nat -> List.length key = 32%nat ->
  String.length (encode_verifier salt key) = 88%nat.
Proof.
  intros Hs Hk. unfold encode_verifier.
  rewrite string_length_of_bytes, b64encode_length, length_app, Hs, Hk.
  reflexivity.
Qed.

(** *** Claims about stored credentials *)

(** C2 (amended). [generate_secure_hash] encodes salt and derived key into
    one base64 string, from which both are read back. The user table
    nevertheless has a [password_salt] column of its own, [NOT NULL] like
    [password_hash]; on a new database the script stores one user, whose
    [password_hash] is the verifier and whose [password_salt] is a
    32-character hexadecimal token drawn from the entropy source after the
    salt of the verifier. *)
Theorem verifier_embeds_salt_and_users_keep_salt_column :
  (forall (data : string) (salt : option (list byte)) (g : Secrets.csprng),
      exists s key,
        s = match salt with Some x => x | None => next_salt g end
        /\ fst (SetupDatabase.generate_secure_hash data salt g)
           = Some (encode_verifier s key)
        /\ Base64.b64decode (list_byte_of_string (encode_verifier s key))
           = Some (s ++ key)%list)
  /\ column_named SetupDatabase.txa_users "password_hash"
     = Some (SetupDatabase.col "password_hash" Sqlite.TEXT [Sqlite.NOT_NULL])
  /\ column_named SetupDatabase.txa_users "password_salt"
     = Some (SetupDatabase.col "password_salt" Sqlite.TEXT [Sqlite.NOT_NULL])
  /\ (forall (now : string) (g : Secrets.csprng),
         exists w r,
           SetupScript.setup now (SetupDatabase.mk_world g []) = Some (tt, w)
           /\ Sqlite.rows_of "txa_users" (SetupDatabase.store w) = [r]
           /\ Sqlite.get r "password_hash"
              = Sqlite.Text
                  (encode_verifier (next_salt g)
                     (derived_key SetupDatabase.admin_password (next_salt g)))
           /\ Sqlite.get r "password_salt" = Sqlite.Text (drawn_hex g 50 16)
           /\ String.length (drawn_hex g 50 16) = 32%nat).
Proof.
  split; [|split; [reflexivity | split; [reflexivity|]]].
  - intros data [salt|] g.
    + exists salt, (derived_key data salt).
      rewrite generate_secure_hash_salted, decode_verifier. now repeat split.
    + exists (next_salt g), (derived_key data (next_salt g)).
      rewrite generate_secure_hash_fresh, decode_verifier. now repeat split.
  - intros now g.
    destruct (setup_new_database now g) as (w & Hrun & Husers & _).
    rewrite admin_insert_new in Husers.
    eexists w, _. split; [exact Hrun|]. split; [exact Husers|].
    split; [|split]; [apply admin_row_fields .. | apply drawn_hex_length].
Qed.

(** C2, as stated, fails: after the script ran on a new database with the
    sample entropy source, the stored admin record has a [password_salt]
    field, which is neither [NULL] nor the encoded verifier. *)
Lemma admin_record_keeps_separate_salt :
  exists w r,
    SetupScript.setup "2024-01-01 00:00:00"
      (SetupDatabase.mk_world counting_source []) = Some (tt, w)
    /\ In r (Sqlite.rows_of "txa_users" (SetupDatabase.store w))
    /\ Sqlite.get r "password_salt"
       = Sqlite.Text "32333435363738393a3b3c3d3e3f4041"
    /\ Sqlite.get r "password_salt" <> Sqlite.get r "password_hash".
Proof.
  destruct (setup_new_database "2024-01-01 00:00:00" counting_source)
    as (w & Hrun & Husers & _).
  rewrite admin_insert_new in Husers.
  eexists w, _. split; [exact Hrun|]. split; [rewrite Husers; now left|].
  match goal with
  | |- Sqlite.get ?r _ = _ /\ _ =>
      destruct (admin_row_fields "2024-01-01 00:00:00"
                  (drawn_hex counting_source 32 18)
                  (encode_verifier (next_salt counting_source)
                     (derived_key SetupDatabase.admin_password
                        (next_salt counting_source)))
                  (drawn_hex counting_source 50 16) [])
        as (_ & Hhash & Hsalt)
  end.
  rewrite Hsalt, Hhash. split.
  - vm_compute. reflexivity.
  - intros E.
    assert (L : String.length (drawn_hex counting_source 50 16)
                = String.length
                    (encode_verifier (next_salt counting_source)
                       (derived_key SetupDatabase.admin_password
                          (next_salt counting_source))))
      by congruence.
    rewrite drawn_hex_length, encode_verifier_length in L;
      [discriminate | apply next_salt_length | apply derived_key_length].
Qed.

(** Every license the script leaves in a new database is in the initial
    state. *)
Corollary script_licenses_start_unused (now : string) (g : Secrets.csprng) :
  exists w,
    SetupScript.setup now (SetupDatabase.mk_world g []) = Some (tt, w)
    /\ Forall starts_unused (Sqlite.rows_of "txa_licenses" (SetupDatabase.store w)).
Proof.
  destruct (setup_new_database now g) as (w & Hrun & _ & Hlic).
  exists w. split; [exact Hrun|]. rewrite Hlic.
  repeat apply insert_sample_license_unused. constructor.
Qed.

(* ========================================================================= *)
(** * Further properties of the code *)

Local Open Scope list_scope.

(** ** Verifiers as text *)

Lemma alphabet_chars (k : nat) :
  is_base64_char (nth k Base64.alphabet Base64.pad) = true.
Proof.
  destruct (Nat.lt_ge_cases k (List.length Base64.alphabet)) as [Hlt | Hge].
  - assert (Hall : forallb is_base64_char Base64.alphabet = true)
      by (vm_compute; reflexivity).
    rewrite forallb_forall in Hall. apply Hall, nth_In, Hlt.
  - rewrite nth_overflow by exact Hge. reflexivity.
Qed.

Lemma encode_sextet_char (n : Z) : is_base64_char (Base64.encode_sextet n) = true.
Proof. apply alphabet_chars. Qed.

Lemma pad_char : is_base64_char Base64.pad = true.
Proof. reflexivity. Qed.

(** [b64encode] writes letters of the alphabet and padding signs only. *)
Lemma b64encode_chars (bs : list byte) :
  forallb is_base64_char (Base64.b64encode bs) = true.
Proof.
  induction bs as [| a | a b | a b c rest IH] using list_ind3.
  - reflexivity.
  - cbn [Base64.b64encode Base64.encode_group firstn app forallb].
    rewrite !encode_sextet_char, pad_char. reflexivity.
  - cbn [Base64.b64encode Base64.encode_group firstn app forallb].
    rewrite !encode_sextet_char, pad_char. reflexivity.
  - change (Base64.b64encode (a :: b :: c :: rest))
      with (Base64.encode_group (Bytes.from_be [a; b; c]) ++ Base64.b64encode rest).
    rewrite forallb_app, IH. unfold Base64.encode_group. cbn [forallb].
    rewrite !encode_sextet_char. reflexivity.
Qed.

(** One byte more than a multiple of three ends in two padding signs. *)
Lemma b64encode_two_pads (bs : list byte) :
  (List.length bs mod 3 = 1)%nat ->
  exists body, Base64.b64encode bs = body ++ [Base64.pad; Base64.pad].
Proof.
  induction bs as [| a | a b | a b c rest IH] using list_ind3; intros Hlen.
  - discriminate.
  - eexists. cbn [Base64.b64encode Base64.encode_group firstn].
    reflexivity.
  - discriminate.
  - destruct IH as [body Hbody].
    + cbn [List.length] in Hlen.
      replace (S (S (S (List.length rest)))) with (List.length rest + 1 * 3)%nat
        in Hlen by lia.
      now rewrite Nat.Div0.mod_add in Hlen.
    + exists (Base64.encode_group (Bytes.from_be [a; b; c]) ++ body).
      change (Base64.b64encode (a :: b :: c :: rest))
        with (Base64.encode_group (Bytes.from_be [a; b; c]) ++ Base64.b64encode rest).
      rewrite Hbody, app_assoc. reflexivity.
Qed.

Lemma encode_verifier_length_any (salt key : list byte) :
  String.length (encode_verifier salt key)
  = (4 * ((List.length salt + List.length key + 2) / 3))%nat.
Proof.
  unfold encode_verifier.
  rewrite string_length_of_bytes, b64encode_length, length_app. reflexivity.
Qed.

Lemma derived_key_32 (secret : string) (salt : list byte) :
  List.length (derived_key secret salt) = 32%nat.
Proof. apply derived_key_length. Qed.

(** X1. A supplied salt of any length, the empty one included, is used as it
    is: no byte is drawn from the entropy source, the call does not raise,
    and the verifier decodes to the salt followed by a key of exactly 32
    bytes, so its length is [4 * ceil((len(salt) + 32) / 3)]. *)
Theorem supplied_salt_of_any_length_is_embedded
    (data : string) (salt : list byte) (g : Secrets.csprng) :
  exists v key,
    SetupDatabase.generate_secure_hash data (Some salt) g = (Some v, g)
    /\ Base64.b64decode (list_byte_of_string v) = Some (salt ++ key)
    /\ List.length key = 32%nat
    /\ String.length v = (4 * ((List.length salt + 32 + 2) / 3))%nat.
Proof.
  exists (encode_verifier salt (derived_key data salt)), (derived_key data salt).
  split; [apply generate_secure_hash_salted|].
  split; [apply decode_verifier|].
  split; [apply derived_key_length|].
  rewrite encode_verifier_length_any, derived_key_32. reflexivity.
Qed.

(** X2. Without a supplied salt the verifier is a string of exactly 88
    characters, every one of them an ASCII letter of the base64 alphabet or
    the padding sign, and it ends in two padding signs; [decode('utf-8')]
    therefore cannot fail on it. *)
Theorem fresh_verifier_is_88_base64_characters
    (data : string) (g : Secrets.csprng) :
  exists v body,
    fst (SetupDatabase.generate_secure_hash data None g) = Some v
    /\ String.length v = 88%nat
    /\ forallb is_base64_char (list_byte_of_string v) = true
    /\ list_byte_of_string v = body ++ [Base64.pad; Base64.pad].
Proof.
  rewrite generate_secure_hash_fresh. cbn [fst].
  set (salt := next_salt g). set (key := derived_key data salt).
  assert (Hs : List.length salt = 32%nat) by apply next_salt_length.
  assert (Hk : List.length key = 32%nat) by apply derived_key_length.
  destruct (b64encode_two_pads (salt ++ key)) as [body Hbody].
  { rewrite length_app, Hs, Hk. reflexivity. }
  exists (encode_verifier salt key), body.
  split; [reflexivity|].
  split; [now apply encode_verifier_length|].
  unfold encode_verifier. rewrite list_byte_of_string_of_list_byte.
  split; [apply b64encode_chars | exact Hbody].
Qed.

(** X3. A secret of fewer than 64 bytes and the same secret followed by a
    NUL character are hashed alike: with the same salt argument and the
    same state of the entropy source, [generate_secure_hash] returns the
    same verifier for both. *)
Theorem trailing_nul_does_not_change_the_hash
    (secret : string) (salt : option (list byte)) (g : Secrets.csprng) :
  (String.length secret < 64)%nat ->
  SetupDatabase.generate_secure_hash
    (secret ++ String Ascii.zero EmptyString)%string salt g
  = SetupDatabase.generate_secure_hash secret salt g.
Proof.
  intros Hlen. destruct salt as [salt|].
  - rewrite !generate_secure_hash_salted, derived_key_trailing_nul by exact Hlen.
    reflexivity.
  - rewrite !generate_secure_hash_fresh, derived_key_trailing_nul by exact Hlen.
    reflexivity.
Qed.

Lemma trailing_nul_does_not_change_the_hash_witness :
  (String.length SetupDatabase.admin_password < 64)%nat
  /\ SetupDatabase.generate_secure_hash
       (SetupDatabase.admin_password ++ String Ascii.zero EmptyString)%string
       None counting_source
     = SetupDatabase.generate_secure_hash
         SetupDatabase.admin_password None counting_source.
Proof.
  assert (H : (String.length SetupDatabase.admin_password < 64)%nat)
    by (vm_compute; lia).
  split; [exact H|].
  apply (trailing_nul_does_not_change_the_hash
           SetupDatabase.admin_password None counting_source H).
Defined.

(** ** Tokens *)

Lemma lower_hex_digits (b : byte) :
  is_lower_hex (Bytes.hex_digit (Bytes.to_Z b / 16))
  && is_lower_hex (Bytes.hex_digit (Bytes.to_Z b mod 16)) = true.
Proof. destruct b; vm_compute; reflexivity. Qed.

Lemma hex_lower (bs : list byte) : forallb is_lower_hex (Bytes.hex bs) = true.
Proof.
  unfold Bytes.hex.
  induction bs as [|b bs IH]; [reflexivity|].
  cbn [flat_map app forallb].
  pose proof (lower_hex_digits b) as H.
  apply andb_true_iff in H as [H1 H2].
  rewrite H1, H2, IH. reflexivity.
Qed.

Lemma drawn_hex_lower (g : Secrets.csprng) (off n : nat) :
  lower_hex_of_length (2 * n) (drawn_hex g off n).
Proof.
  split; [apply drawn_hex_length|].
  unfold drawn_hex. rewrite list_byte_of_string_of_list_byte. apply hex_lower.
Qed.

Lemma drawn_length (g : Secrets.csprng) (off n : nat) :
  List.length (drawn g off n) = n.
Proof. unfold drawn. rewrite length_map, length_seq. reflexivity. Qed.

(** Keys made from different bytes are different. *)
Lemma upper_hex_key_inj (xs ys : list byte) :
  upper (string_of_list_byte (Bytes.hex xs))
  = upper (string_of_list_byte (Bytes.hex ys)) -> xs = ys.
Proof.
  unfold upper. rewrite !list_byte_of_string_of_list_byte. intros H.
  apply (f_equal list_byte_of_string) in H.
  rewrite !list_byte_of_string_of_list_byte in H.
  apply (f_equal Bytes.fromhex) in H.
  now rewrite !fromhex_upper_hex in H.
Qed.

(** X4. Two calls of [generate_license_key] in a row, in either file, take
    64 bytes from the entropy source, 32 each, and return the same key
    exactly when the second 32 bytes repeat the first: the key loses
    nothing of the bytes it is made from. *)
Theorem successive_license_keys_differ_as_their_bytes
    (g : Secrets.csprng) :
  exists k1 k2,
    GenerateLicense.generate_license_key g = (k1, advance g 32)
    /\ SetupDatabase.generate_license_key g = (k1, advance g 32)
    /\ GenerateLicense.generate_license_key (advance g 32) = (k2, advance g 64)
    /\ SetupDatabase.generate_license_key (advance g 32) = (k2, advance g 64)
    /\ (k1 = k2 <-> next_salt g = drawn g 32 32).
Proof.
  exists (upper (string_of_list_byte (Bytes.hex (next_salt g)))),
    (upper (drawn_hex g 32 32)).
  assert (H1 : SetupDatabase.generate_license_key g
               = (upper (string_of_list_byte (Bytes.hex (next_salt g))),
                  advance g 32)) by reflexivity.
  assert (H2 : SetupDatabase.generate_license_key (advance g 32)
               = (upper (drawn_hex g 32 32), advance g 64))
    by apply license_key_advance.
  repeat split; try assumption.
  - apply upper_hex_key_inj.
  - unfold drawn_hex. now intros ->.
Qed.

(** ** Rows as the store keeps them *)

Lemma assoc_built (f : Sqlite.column -> Sqlite.value)
    (cols : list Sqlite.column) (c : Sqlite.column) :
  NoDup (map Sqlite.col_name cols) -> In c cols ->
  Sqlite.assoc (Sqlite.col_name c)
    (map (fun k => (Sqlite.col_name k, f k)) cols)
  = Some (f c).
Proof.
  induction cols as [|k cols IH]; intros Hnd Hin; [contradiction|].
  cbn [map Sqlite.assoc]. cbn [map] in Hnd.
  inversion Hnd as [|? ? Hk Hrest]; subst.
  destruct Hin as [-> | Hin].
  - rewrite String.eqb_refl. reflexivity.
  - destruct (String.eqb (Sqlite.col_name c) (Sqlite.col_name k)) eqn:E.
    + apply String.eqb_eq in E. exfalso. apply Hk. rewrite <- E.
      now apply in_map.
    + now apply IH.
Qed.

Lemma build_row_names (t : Sqlite.table) (now : string)
    (bound : list (string * Sqlite.value)) (rows : list Sqlite.row) :
  map fst (Sqlite.build_row t now bound rows)
  = map Sqlite.col_name (Sqlite.tbl_columns t).
Proof.
  unfold Sqlite.build_row. rewrite map_map. reflexivity.
Qed.

(** The primary key of a built row is never [NULL]. *)
Lemma build_row_primary_key (t : Sqlite.table) (now : string)
    (bound : list (string * Sqlite.value)) (rows : list Sqlite.row)
    (c : Sqlite.column) :
  NoDup (map Sqlite.col_name (Sqlite.tbl_columns t)) ->
  In c (Sqlite.tbl_columns t) -> Sqlite.is_primary_key c = true ->
  Sqlite.get (Sqlite.build_row t now bound rows) (Sqlite.col_name c)
  <> Sqlite.Null.
Proof.
  intros Hnd Hin Hpk. unfold Sqlite.get, Sqlite.build_row.
  rewrite (assoc_built _ _ c Hnd Hin). rewrite Hpk. cbn [andb].
  destruct (Sqlite.is_null _) eqn:E; [discriminate|].
  intros H. rewrite H in E. discriminate.
Qed.

Lemma insert_row_fits (t : Sqlite.table) (now : string)
    (bound : list (string * Sqlite.value)) (rows : list Sqlite.row) :
  NoDup (map Sqlite.col_name (Sqlite.tbl_columns t)) ->
  Forall (row_fits t) rows ->
  Forall (row_fits t) (Sqlite.insert_row t now bound rows).
Proof.
  intros Hnd Hrows. unfold Sqlite.insert_row.
  set (r := Sqlite.build_row t now bound rows).
  destruct (Sqlite.violates t r rows) eqn:V; [exact Hrows|].
  apply Forall_app. split; [exact Hrows|]. constructor; [|constructor].
  split; [apply build_row_names|].
  intros c Hc Hflag. apply orb_true_iff in Hflag as [Hnn | Hpk].
  - unfold Sqlite.violates in V.
    apply (fun H => existsb_false _ _ c H Hc) in V. cbv beta zeta in V.
    rewrite Hnn in V. cbn [andb] in V. apply orb_false_iff in V as [V _].
    intros H. rewrite H in V. discriminate.
  - now apply build_row_primary_key.
Qed.

Lemma insert_row_primary_key_unique
    (t : Sqlite.table) (now : string) (bound : list (string * Sqlite.value))
    (rows : list Sqlite.row) (c : Sqlite.column) :
  In c (Sqlite.tbl_columns t) -> Sqlite.is_primary_key c = true ->
  unique_in (Sqlite.col_name c) rows ->
  unique_in (Sqlite.col_name c) (Sqlite.insert_row t now bound rows).
Proof.
  intros Hc Hpk Hnd. unfold Sqlite.insert_row.
  set (r := Sqlite.build_row t now bound rows).
  destruct (Sqlite.violates t r rows) eqn:V; [exact Hnd|].
  unfold unique_in. rewrite stored_values_app.
  unfold Sqlite.violates in V.
  apply (fun H => existsb_false _ _ c H Hc) in V.
  cbv beta zeta in V. rewrite Hpk, orb_true_r in V. cbn [andb] in V.
  apply orb_false_iff in V as [_ V].
  unfold stored_values at 2. cbn [map filter].
  destruct (Sqlite.is_null (Sqlite.get r (Sqlite.col_name c))) eqn:N;
    cbn [negb andb] in *.
  - rewrite app_nil_r. exact Hnd.
  - apply NoDup_snoc; [exact Hnd|].
    intros Hin. apply stored_value_has_row in Hin as [r' [Hr' Hget]].
    apply (fun H => existsb_false _ _ r' H Hr') in V.
    cbv beta in V. rewrite Hget, value_eqb_refl in V. discriminate.
Qed.

Lemma distinct_names_NoDup (names : list string) :
  distinct_names names = true -> NoDup names.
Proof.
  induction names as [|x rest IH]; intros H; [constructor|].
  cbn [distinct_names] in H. apply andb_true_iff in H as [Hx Hrest].
  constructor; [|now apply IH].
  intros Hin. apply negb_true_iff in Hx.
  apply (fun E => existsb_false _ _ x E Hin) in Hx.
  rewrite String.eqb_refl in Hx. discriminate.
Qed.

(** No table of the script names a column twice. *)
Lemma tables_name_columns_once (t : Sqlite.table) :
  In t SetupDatabase.tables ->
  NoDup (map Sqlite.col_name (Sqlite.tbl_columns t)).
Proof.
  assert (Hall : forallb
            (fun t => distinct_names (map Sqlite.col_name (Sqlite.tbl_columns t)))
            SetupDatabase.tables = true) by (vm_compute; reflexivity).
  intros Ht. rewrite forallb_forall in Hall.
  apply distinct_names_NoDup, Hall, Ht.
Qed.

Lemma reachable_well_formed (db : Sqlite.database) :
  reachable db -> well_formed db.
Proof.
  induction 1 as [| db t Hreach IH Ht | db db' name now bound Hreach IH Hins].
  - intros name rel H. discriminate.
  - unfold Sqlite.create_table_if_not_exists.
    destruct (Sqlite.assoc (Sqlite.tbl_name t) db) eqn:E; [exact IH|].
    intros name rel H. rewrite (assoc_app_new _ _ _ _ E) in H.
    destruct (Sqlite.assoc name db) as [old|] eqn:F.
    + injection H as <-. exact (IH name old F).
    + destruct (String.eqb name (Sqlite.tbl_name t)); [|discriminate].
      injection H as <-. cbn [Sqlite.schema Sqlite.rows].
      split; [constructor | intros c _ _; constructor].
  - pose proof (reachable_well_kept db Hreach) as Hold.
    unfold Sqlite.insert_or_ignore in Hins.
    destruct (Sqlite.assoc name db) as [old|] eqn:E; [|discriminate].
    destruct (forallb _ bound); [|discriminate].
    injection Hins as <-.
    intros n rel H. rewrite assoc_replace, E in H.
    destruct (String.eqb n name) eqn:G; [|exact (IH n rel H)].
    injection H as <-.
    destruct (IH name old E) as (Hfit & Hpk).
    destruct (Hold name old E) as (Hin & _ & _).
    cbn [Sqlite.schema Sqlite.rows]. split.
    + apply insert_row_fits; [now apply tables_name_columns_once | exact Hfit].
    + intros c Hc Hflag. apply insert_row_primary_key_unique; auto.
Qed.

(** X5. In every state of the database the statements of the script lead
    to, each stored row of each of the five tables has exactly the columns
    of its table, in their order, holds no [NULL] in a [NOT NULL] column or
    in the primary key, and no two rows of a table share an [id]. *)
Theorem stored_rows_fit_their_table (db : Sqlite.database) (t : Sqlite.table) :
  reachable db -> In t SetupDatabase.tables ->
  Forall (row_fits t) (Sqlite.rows_of (Sqlite.tbl_name t) db)
  /\ unique_in "id" (Sqlite.rows_of (Sqlite.tbl_name t) db).
Proof.
  intros Hreach Ht.
  pose proof (reachable_well_kept db Hreach) as Hkept.
  pose proof (reachable_well_formed db Hreach) as Hformed.
  unfold Sqlite.rows_of.
  destruct (Sqlite.assoc (Sqlite.tbl_name t) db) as [rel|] eqn:E;
    [|split; constructor].
  pose proof (well_kept_schema db t rel Hkept Ht E) as Hs.
  destruct (Hformed _ _ E) as [Hfit Hpk]. rewrite Hs in Hfit, Hpk.
  split; [exact Hfit|].
  apply (Hpk (SetupDatabase.col "id" Sqlite.INTEGER [Sqlite.PRIMARY_KEY]));
    [|reflexivity].
  cbn [SetupDatabase.tables In] in Ht.
  repeat (destruct Ht as [<- | Ht]); try contradiction; now left.
Qed.

Lemma stored_rows_fit_their_table_witness :
  reachable populated_database
  /\ In SetupDatabase.txa_licenses SetupDatabase.tables
  /\ Forall (row_fits SetupDatabase.txa_licenses)
       (Sqlite.rows_of (Sqlite.tbl_name SetupDatabase.txa_licenses)
          populated_database)
  /\ unique_in "id"
       (Sqlite.rows_of (Sqlite.tbl_name SetupDatabase.txa_licenses)
          populated_database).
Proof.
  assert (H : reachable populated_database).
  { apply (run_inserts_reachable "2024-01-01 00:00:00" sample_statements
             (db_of [] [] [] [] [])); [apply reachable_empty_tables|].
    vm_compute. reflexivity. }
  assert (Ht : In SetupDatabase.txa_licenses SetupDatabase.tables)
    by (right; now left).
  split; [exact H|]. split; [exact Ht|].
  apply (stored_rows_fit_their_table _ _ H Ht).
Defined.

(** ** Creating tables *)

Lemma rows_of_create (db : Sqlite.database) (t : Sqlite.table) (name : string) :
  Sqlite.rows_of name (Sqlite.create_table_if_not_exists db t)
  = Sqlite.rows_of name db.
Proof.
  unfold Sqlite.create_table_if_not_exists.
  destruct (Sqlite.assoc (Sqlite.tbl_name t) db) eqn:E; [reflexivity|].
  unfold Sqlite.rows_of. rewrite (assoc_app_new _ _ _ _ E).
  destruct (Sqlite.assoc name db); [reflexivity|].
  now destruct (String.eqb name (Sqlite.tbl_name t)).
Qed.

Lemma rows_of_create_all (ts : list Sqlite.table) (db : Sqlite.database)
    (name : string) :
  Sqlite.rows_of name (fold_left Sqlite.create_table_if_not_exists ts db)
  = Sqlite.rows_of name db.
Proof.
  revert db. induction ts as [|t ts IH]; intros db; [reflexivity|].
  cbn [fold_left]. rewrite IH. apply rows_of_create.
Qed.

Lemma create_keeps_tables (db : Sqlite.database) (t : Sqlite.table) (name : string) :
  Sqlite.assoc name db <> None ->
  Sqlite.assoc name (Sqlite.create_table_if_not_exists db t) <> None.
Proof.
  intros H. unfold Sqlite.create_table_if_not_exists.
  destruct (Sqlite.assoc (Sqlite.tbl_name t) db) eqn:E; [exact H|].
  rewrite (assoc_app_new _ _ _ _ E).
  destruct (Sqlite.assoc name db); [discriminate | contradiction].
Qed.

Lemma create_makes_table (db : Sqlite.database) (t : Sqlite.table) :
  Sqlite.assoc (Sqlite.tbl_name t) (Sqlite.create_table_if_not_exists db t)
  <> None.
Proof.
  unfold Sqlite.create_table_if_not_exists.
  destruct (Sqlite.assoc (Sqlite.tbl_name t) db) eqn:E;
    [rewrite E; discriminate|].
  rewrite (assoc_app_new _ _ _ _ E), E, String.eqb_refl. discriminate.
Qed.

Lemma create_all_keeps_tables (ts : list Sqlite.table) (db : Sqlite.database)
    (name : string) :
  Sqlite.assoc name db <> None ->
  Sqlite.assoc name (fold_left Sqlite.create_table_if_not_exists ts db) <> None.
Proof.
  revert db. induction ts as [|t ts IH]; intros db H; [exact H|].
  cbn [fold_left]. apply IH. now apply create_keeps_tables.
Qed.

Lemma create_all_makes_tables (ts : list Sqlite.table) (db : Sqlite.database)
    (t : Sqlite.table) :
  In t ts ->
  Sqlite.assoc (Sqlite.tbl_name t)
    (fold_left Sqlite.create_table_if_not_exists ts db) <> None.
Proof.
  revert db. induction ts as [|t' ts IH]; intros db Hin; [contradiction|].
  cbn [fold_left]. destruct Hin as [-> | Hin].
  - apply create_all_keeps_tables, create_makes_table.
  - now apply IH.
Qed.

(** Creating tables that all exist changes nothing. *)
Lemma create_all_present (ts : list Sqlite.table) (db : Sqlite.database) :
  (forall t, In t ts -> Sqlite.assoc (Sqlite.tbl_name t) db <> None) ->
  fold_left Sqlite.create_table_if_not_exists ts db = db.
Proof.
  induction ts as [|t ts IH]; intros H; [reflexivity|].
  cbn [fold_left].
  assert (Hsame : Sqlite.create_table_if_not_exists db t = db).
  { unfold Sqlite.create_table_if_not_exists.
    destruct (Sqlite.assoc (Sqlite.tbl_name t) db) eqn:E; [reflexivity|].
    exfalso. apply (H t); [now left | exact E]. }
  rewrite Hsame. apply IH. intros t' Ht'. apply H. now right.
Qed.

(** Existing tables stay as they are, schema and rows. *)
Lemma create_all_keeps_relations (ts : list Sqlite.table) (db : Sqlite.database)
    (name : string) (rel : Sqlite.relation) :
  Sqlite.assoc name db = Some rel ->
  Sqlite.assoc name (fold_left Sqlite.create_table_if_not_exists ts db)
  = Some rel.
Proof.
  revert db. induction ts as [|t ts IH]; intros db H; [exact H|].
  cbn [fold_left]. apply IH. unfold Sqlite.create_table_if_not_exists.
  destruct (Sqlite.assoc (Sqlite.tbl_name t) db) eqn:E; [exact H|].
  rewrite (assoc_app_new _ _ _ _ E), H. reflexivity.
Qed.

Lemma some_pair {A B} (a a' : A) (b b' : B) :
  Some (a, b) = Some (a', b') -> a = a' /\ b = b'.
Proof. intros H. injection H as -> ->. split; reflexivity. Qed.

(** X6. [CREATE TABLE IF NOT EXISTS] keeps what is stored. When the
    [executescript] call of the script returns on a database of tables, it
    has drawn no entropy, every table that existed has the schema and the
    rows it had, the rows under every table name are as they were, all
    five tables exist, and running the five statements again changes
    nothing. Whether the call returns is not part of the statement: a file
    that is no database, on which it raises, is not modelled. *)
Theorem executescript_keeps_stored_rows (w w1 : SetupDatabase.world) :
  SetupDatabase.executescript SetupDatabase.tables w = Some (tt, w1) ->
  SetupDatabase.entropy w1 = SetupDatabase.entropy w
  /\ (forall name rel,
         Sqlite.assoc name (SetupDatabase.store w) = Some rel ->
         Sqlite.assoc name (SetupDatabase.store w1) = Some rel)
  /\ (forall name,
         Sqlite.rows_of name (SetupDatabase.store w1)
         = Sqlite.rows_of name (SetupDatabase.store w))
  /\ (forall t, In t SetupDatabase.tables ->
                Sqlite.assoc (Sqlite.tbl_name t) (SetupDatabase.store w1) <> None)
  /\ fold_left Sqlite.create_table_if_not_exists SetupDatabase.tables
       (SetupDatabase.store w1)
     = SetupDatabase.store w1.
Proof.
  unfold SetupDatabase.executescript. intros H.
  apply some_pair in H as [_ <-].
  cbn [SetupDatabase.entropy SetupDatabase.store].
  split; [reflexivity|].
  split; [intros name rel; apply create_all_keeps_relations|].
  split; [intros name; apply rows_of_create_all|].
  split; [intros t Ht; now apply create_all_makes_tables|].
  apply create_all_present.
  intros t Ht. now apply create_all_makes_tables.
Qed.

Lemma executescript_keeps_stored_rows_witness :
  SetupDatabase.executescript SetupDatabase.tables
    (SetupDatabase.mk_world counting_source
       [("txa_licenses"%string,
         Sqlite.mk_relation SetupDatabase.txa_licenses
           (Sqlite.rows_of "txa_licenses" populated_database))])
  = Some (tt,
          SetupDatabase.mk_world counting_source
            (fold_left Sqlite.create_table_if_not_exists SetupDatabase.tables
               [("txa_licenses"%string,
                 Sqlite.mk_relation SetupDatabase.txa_licenses
                   (Sqlite.rows_of "txa_licenses" populated_database))]))
  /\ stored_values "key"
       (Sqlite.rows_of "txa_licenses"
          (fold_left Sqlite.create_table_if_not_exists SetupDatabase.tables
             [("txa_licenses"%string,
               Sqlite.mk_relation SetupDatabase.txa_licenses
                 (Sqlite.rows_of "txa_licenses" populated_database))]))
     = [Sqlite.Text "AA11"; Sqlite.Text "BB22"]
  /\ Sqlite.assoc "txa_users"
       (fold_left Sqlite.create_table_if_not_exists SetupDatabase.tables
          [("txa_licenses"%string,
            Sqlite.mk_relation SetupDatabase.txa_licenses
              (Sqlite.rows_of "txa_licenses" populated_database))])
     <> None.
Proof.
  assert (H : SetupDatabase.executescript SetupDatabase.tables
                (SetupDatabase.mk_world counting_source
                   [("txa_licenses"%string,
                     Sqlite.mk_relation SetupDatabase.txa_licenses
                       (Sqlite.rows_of "txa_licenses" populated_database))])
              = Some (tt,
                      SetupDatabase.mk_world counting_source
                        (fold_left Sqlite.create_table_if_not_exists
                           SetupDatabase.tables
                           [("txa_licenses"%string,
                             Sqlite.mk_relation SetupDatabase.txa_licenses
                               (Sqlite.rows_of "txa_licenses"
                                  populated_database))])))
    by reflexivity.
  split; [exact H|].
  destruct (executescript_keeps_stored_rows _ _ H) as (_ & _ & Hrows & Hall & _).
  split.
  - cbn [SetupDatabase.store] in Hrows. rewrite Hrows. vm_compute. reflexivity.
  - apply (Hall SetupDatabase.txa_users). now left.
Defined.

(** ** Row ids *)

(** The largest id, from any start of the scan: it is at least the start
    and at least every integer id scanned. *)
Lemma rowid_bound (c : string) (rows : list Sqlite.row) (m : option Z) :
  (forall x, m = Some x ->
             exists y, fold_left (fun m r => match Sqlite.get r c, m with
                                             | Sqlite.Integer z, Some x => Some (Z.max x z)
                                             | Sqlite.Integer z, None => Some z
                                             | _, _ => m
                                             end) rows m = Some y
                       /\ x <= y)
  /\ (forall r z, In r rows -> Sqlite.get r c = Sqlite.Integer z ->
                  exists y, fold_left (fun m r => match Sqlite.get r c, m with
                                                  | Sqlite.Integer z, Some x => Some (Z.max x z)
                                                  | Sqlite.Integer z, None => Some z
                                                  | _, _ => m
                                                  end) rows m = Some y
                            /\ z <= y).
Proof.
  revert m. induction rows as [|r0 rows IH]; intros m; cbn [fold_left].
  - split; [intros x ->; exists x; split; [reflexivity | lia] | intros r z []].
  - destruct (IH (match Sqlite.get r0 c, m with
                  | Sqlite.Integer z, Some x => Some (Z.max x z)
                  | Sqlite.Integer z, None => Some z
                  | _, _ => m
                  end)) as [Hm Hrows].
    split.
    + intros x ->. destruct (Sqlite.get r0 c) as [|z0|s0].
      * apply Hm. reflexivity.
      * destruct (Hm (Z.max x z0) eq_refl) as (y & Hy & Hle).
        exists y. split; [exact Hy | lia].
      * apply Hm. reflexivity.
    + intros r z [<- | Hin] Hget.
      * rewrite Hget in Hm |- *. destruct m as [x|].
        -- destruct (Hm (Z.max x z) eq_refl) as (y & Hy & Hle).
           exists y. split; [exact Hy | lia].
        -- destruct (Hm z eq_refl) as (y & Hy & Hle).
           exists y. split; [exact Hy | lia].
      * now apply (Hrows r z).
Qed.

(** Of more candidate ids than there are rows, one is stored in no row. *)
Lemma some_id_unused (c : string) (rows : list Sqlite.row) :
  forall candidates : list Z,
    NoDup candidates ->
    (List.length rows < List.length candidates)%nat ->
    exists z, In z candidates /\ stored c (Sqlite.Integer z) rows = false.
Proof.
  induction rows as [|r rows IH]; intros candidates Hnd Hlen.
  - destruct candidates as [|z rest]; [cbn in Hlen; lia|].
    exists z. split; [now left | reflexivity].
  - cbn [List.length] in Hlen.
    assert (Hother : forall z, Sqlite.get r c <> Sqlite.Integer z ->
                               stored c (Sqlite.Integer z) rows = false ->
                               stored c (Sqlite.Integer z) (r :: rows) = false).
    { intros z Hne Hz. unfold stored in *. cbn [existsb]. rewrite Hz, orb_false_r.
      destruct (Sqlite.get r c) as [|z0|s0]; try reflexivity.
      unfold Sqlite.value_eqb. apply Z.eqb_neq. congruence. }
    destruct (Sqlite.get r c) as [|z0|s0] eqn:G.
    + destruct (IH candidates Hnd) as (z & Hin & Hz); [lia|].
      exists z. split; [exact Hin|]. apply Hother; [discriminate | exact Hz].
    + destruct (in_dec Z.eq_dec z0 candidates) as [Hin0 | Hout].
      * apply in_split in Hin0 as (l1 & l2 & ->).
        rewrite length_app in Hlen. cbn [List.length] in Hlen.
        destruct (IH (l1 ++ l2)%list) as (z & Hin & Hz).
        -- exact (NoDup_remove_1 _ _ _ Hnd).
        -- rewrite length_app. lia.
        -- exists z. split.
           ++ apply in_app_iff in Hin. apply in_app_iff.
              destruct Hin as [Hin | Hin]; [now left | right; now right].
           ++ apply Hother; [|exact Hz].
              intros Heq. injection Heq as ->.
              exact (NoDup_remove_2 _ _ _ Hnd Hin).
      * destruct (IH candidates Hnd) as (z & Hin & Hz); [lia|].
        exists z. split; [exact Hin|]. apply Hother; [|exact Hz].
        intros Heq. injection Heq as ->. contradiction.
    + destruct (IH candidates Hnd) as (z & Hin & Hz); [lia|].
      exists z. split; [exact Hin|]. apply Hother; [discriminate | exact Hz].
Qed.

Lemma NoDup_of_nat (l : list nat) : NoDup l -> NoDup (map Z.of_nat l).
Proof.
  induction 1 as [|x l Hx Hl IH]; cbn [map]; constructor; [|exact IH].
  intros Hin. apply in_map_iff in Hin as (y & Hy & Hin).
  apply Nat2Z.inj in Hy. now subst y.
Qed.

Lemma unused_id_fresh (c : string) (rows : list Sqlite.row) :
  stored c (Sqlite.Integer (Sqlite.unused_id c rows)) rows = false.
Proof.
  unfold Sqlite.unused_id.
  destruct (find _ _) as [z|] eqn:F.
  - apply find_some in F as [_ F]. apply negb_true_iff in F. exact F.
  - destruct (some_id_unused c rows
                (map Z.of_nat (seq 1 (S (List.length rows)))))
      as (z & Hin & Hz).
    + apply NoDup_of_nat, seq_NoDup.
    + rewrite length_map, length_seq. lia.
    + pose proof (find_none _ _ F z Hin) as Hno. cbv beta in Hno.
      unfold Sqlite.used_id in Hno. unfold stored in Hz.
      rewrite Hz in Hno. discriminate.
Qed.

(** The next row id is the id of no stored row. *)
Lemma next_rowid_fresh (c : string) (rows : list Sqlite.row) :
  stored c (Sqlite.Integer (Sqlite.next_rowid c rows)) rows = false.
Proof.
  unfold Sqlite.next_rowid.
  destruct (Sqlite.largest_id c rows) as [m|] eqn:L.
  - destruct (m =? Sqlite.max_rowid)%Z; [apply unused_id_fresh|].
    unfold stored. destruct (existsb _ rows) eqn:E; [|reflexivity].
    apply existsb_exists in E as [r [Hin Heq]].
    destruct (Sqlite.get r c) as [|z|s] eqn:G; unfold Sqlite.value_eqb in Heq;
      try discriminate.
    apply Z.eqb_eq in Heq.
    destruct (rowid_bound c rows None) as [_ Hb].
    destruct (Hb r z Hin G) as (y & Hy & Hle).
    unfold Sqlite.largest_id in L. rewrite L in Hy.
    assert (m = y) by congruence. lia.
  - unfold stored. destruct (existsb _ rows) eqn:E; [|reflexivity].
    apply existsb_exists in E as [r [Hin Heq]].
    destruct (Sqlite.get r c) as [|z|s] eqn:G; unfold Sqlite.value_eqb in Heq;
      try discriminate.
    destruct (rowid_bound c rows None) as [_ Hb].
    destruct (Hb r z Hin G) as (y & Hy & _).
    unfold Sqlite.largest_id in L. rewrite L in Hy. discriminate.
Qed.

(** After the id -5 comes -4, after 7 and 3 comes 8, and after the largest
    id of all the least positive id that is still free. *)
Example next_rowid_values :
  Sqlite.next_rowid "id" [] = 1
  /\ Sqlite.next_rowid "id" [[("id", Sqlite.Integer (-5))]] = -4
  /\ Sqlite.next_rowid "id"
       [[("id", Sqlite.Integer 7)]; [("id", Sqlite.Integer 3)]] = 8
  /\ Sqlite.next_rowid "id"
       [[("id", Sqlite.Integer 1)];
        [("id", Sqlite.Integer Sqlite.max_rowid)]] = 2.
Proof. vm_compute. repeat split. Qed.

(** ** Inserts of the script on any stored rows *)

Lemma license_violation (now k ty : string) (n : Z) (rows : list Sqlite.row) :
  Sqlite.violates SetupDatabase.txa_licenses
    (Sqlite.build_row SetupDatabase.txa_licenses now
       (SetupDatabase.sample_license (k, ty, n)) rows) rows
  = stored "key" (Sqlite.Text k) rows.
Proof.
  pose proof (next_rowid_fresh "id" rows) as Hid.
  unfold Sqlite.violates, Sqlite.build_row, stored in *.
  cbn -[Sqlite.next_rowid]. rewrite Hid, orb_false_r. reflexivity.
Qed.

Lemma admin_violation (now x y z : string) (rows : list Sqlite.row) :
  Sqlite.violates SetupDatabase.txa_users
    (Sqlite.build_row SetupDatabase.txa_users now
       (SetupDatabase.admin_user x y z) rows) rows
  = stored "uuid" (Sqlite.Text x) rows
    || stored "username" (Sqlite.Text "admin") rows
    || stored "email" (Sqlite.Text "admin@whiskerauth.com") rows.
Proof.
  pose proof (next_rowid_fresh "id" rows) as Hid.
  unfold Sqlite.violates, Sqlite.build_row, stored in *.
  cbn -[Sqlite.next_rowid]. rewrite Hid, orb_false_r, !orb_assoc. reflexivity.
Qed.

Lemma application_violation (now x y : string) (rows : list Sqlite.row) :
  Sqlite.violates SetupDatabase.txa_applications
    (Sqlite.build_row SetupDatabase.txa_applications now
       (SetupDatabase.sample_application x y) rows) rows
  = stored "uuid" (Sqlite.Text x) rows
    || stored "secret_key" (Sqlite.Text y) rows.
Proof.
  pose proof (next_rowid_fresh "id" rows) as Hid.
  unfold Sqlite.violates, Sqlite.build_row, stored in *.
  cbn -[Sqlite.next_rowid]. rewrite Hid, orb_false_r. reflexivity.
Qed.

Lemma find_after (f : Sqlite.row -> bool) (rows : list Sqlite.row) (r : Sqlite.row) :
  existsb f rows = false -> f r = true -> find f (rows ++ [r]) = Some r.
Proof.
  intros Hnone Hr. induction rows as [|r0 rows IH]; cbn [app find].
  - now rewrite Hr.
  - cbn [existsb] in Hnone. apply orb_false_iff in Hnone as [H0 Hrest].
    rewrite H0. now apply IH.
Qed.

(** X7. A sample-license insert is skipped exactly when its key is already
    stored. Otherwise it adds one row, whose id is an integer that no
    stored row has, with the bound key, type and application limit, a
    device limit of 1 and the creation time of the insert; looking the key
    up afterwards finds that row. *)
Theorem license_insert_is_skipped_iff_key_is_stored
    (now k ty : string) (n : Z) (rows : list Sqlite.row) :
  if stored "key" (Sqlite.Text k) rows
  then Sqlite.insert_row SetupDatabase.txa_licenses now
         (SetupDatabase.sample_license (k, ty, n)) rows = rows
  else exists r id,
      Sqlite.insert_row SetupDatabase.txa_licenses now
        (SetupDatabase.sample_license (k, ty, n)) rows = rows ++ [r]
      /\ Sqlite.get r "id" = Sqlite.Integer id
      /\ stored "id" (Sqlite.Integer id) rows = false
      /\ Sqlite.get r "key" = Sqlite.Text k
      /\ Sqlite.get r "type" = Sqlite.Text ty
      /\ Sqlite.get r "max_applications" = Sqlite.Integer n
      /\ Sqlite.get r "max_devices" = Sqlite.Integer 1
      /\ Sqlite.get r "created_at" = Sqlite.Text now
      /\ find_license k (rows ++ [r]) = Some r.
Proof.
  unfold Sqlite.insert_row. rewrite license_violation.
  destruct (stored "key" (Sqlite.Text k) rows) eqn:E; [reflexivity|].
  eexists _, (Sqlite.next_rowid "id" rows). split; [reflexivity|].
  split; [reflexivity|]. split; [apply next_rowid_fresh|].
  repeat (split; [reflexivity|]).
  apply find_after; [exact E|].
  cbn -[Sqlite.next_rowid]. apply String.eqb_refl.
Qed.

(** X8. The admin insert is skipped exactly when a stored user already has
    its uuid, the username ['admin'] or the email of the admin. Otherwise
    it adds one row, whose id is an integer that no stored row has, with
    the bound password hash and salt, administrator rights at security level 10 and the defaults of an
    account that never failed a login and is not locked. *)
Theorem admin_insert_is_skipped_iff_identity_is_stored
    (now x y z : string) (rows : list Sqlite.row) :
  if stored "uuid" (Sqlite.Text x) rows
     || stored "username" (Sqlite.Text "admin") rows
     || stored "email" (Sqlite.Text "admin@whiskerauth.com") rows
  then Sqlite.insert_row SetupDatabase.txa_users now
         (SetupDatabase.admin_user x y z) rows = rows
  else exists r id,
      Sqlite.insert_row SetupDatabase.txa_users now
        (SetupDatabase.admin_user x y z) rows = rows ++ [r]
      /\ Sqlite.get r "id" = Sqlite.Integer id
      /\ stored "id" (Sqlite.Integer id) rows = false
      /\ Sqlite.get r "uuid" = Sqlite.Text x
      /\ Sqlite.get r "password_hash" = Sqlite.Text y
      /\ Sqlite.get r "password_salt" = Sqlite.Text z
      /\ Sqlite.get r "is_admin" = Sqlite.Integer 1
      /\ Sqlite.get r "security_level" = Sqlite.Integer 10
      /\ Sqlite.get r "status" = Sqlite.Text "active"
      /\ Sqlite.get r "license_type" = Sqlite.Text "enterprise"
      /\ Sqlite.get r "failed_login_attempts" = Sqlite.Integer 0
      /\ Sqlite.get r "device_locked" = Sqlite.Integer 0
      /\ Sqlite.get r "lockout_until" = Sqlite.Null
      /\ Sqlite.get r "license_key" = Sqlite.Null.
Proof.
  unfold Sqlite.insert_row. rewrite admin_violation.
  destruct (stored "uuid" (Sqlite.Text x) rows
            || stored "username" (Sqlite.Text "admin") rows
            || stored "email" (Sqlite.Text "admin@whiskerauth.com") rows);
    [reflexivity|].
  eexists _, (Sqlite.next_rowid "id" rows). split; [reflexivity|].
  split; [reflexivity|]. split; [apply next_rowid_fresh|]. repeat split.
Qed.

(** An insert adds at most one row and keeps the stored ones. *)
Lemma insert_row_appends (t : Sqlite.table) (now : string)
    (bound : list (string * Sqlite.value)) (rows : list Sqlite.row) :
  exists added,
    Sqlite.insert_row t now bound rows = rows ++ added
    /\ (List.length added <= 1)%nat.
Proof.
  unfold Sqlite.insert_row. destruct (Sqlite.violates _ _ rows).
  - exists []. rewrite app_nil_r. split; [reflexivity | cbn; lia].
  - eexists [_]. split; [reflexivity | cbn; lia].
Qed.

(** ** The script on a database of its own making *)

Lemma create_all_on_script_database (u l a s e : list Sqlite.row) :
  fold_left Sqlite.create_table_if_not_exists SetupDatabase.tables
    (db_of u l a s e)
  = db_of u l a s e.
Proof. reflexivity. Qed.

Lemma sample_license_appends
    (now : string) (k : string * string * Z) (rows : list Sqlite.row) :
  exists added,
    Sqlite.insert_row SetupDatabase.txa_licenses now
      (SetupDatabase.sample_license k) rows = rows ++ added
    /\ (List.length added <= 1)%nat
    /\ Forall starts_unused added.
Proof.
  destruct (new_license_row_unused now _ rows (sample_license_omits k))
    as [E | [r [E Hr]]]; rewrite E.
  - exists []. rewrite app_nil_r. repeat split; [cbn; lia | constructor].
  - exists [r]. repeat split; [cbn; lia | now constructor].
Qed.

(** X9. On a new database file, and on any database holding the five
    tables of the script, the script runs to its end without raising and
    takes exactly 212 bytes from the entropy source. It only appends: the
    stored users, licenses and applications stay, in their order, followed
    by at most one new user, three new licenses, all unused, and one new
    application; sessions and security events are not touched. *)
Theorem setup_only_appends
    (now : string) (g : Secrets.csprng) (u l a s e : list Sqlite.row) :
  SetupScript.setup now (SetupDatabase.mk_world g [])
  = SetupScript.setup now (SetupDatabase.mk_world g (db_of [] [] [] [] []))
  /\ exists w us ls aps,
       SetupScript.setup now (SetupDatabase.mk_world g (db_of u l a s e))
       = Some (tt, w)
       /\ SetupDatabase.entropy w = advance g 212
       /\ SetupDatabase.store w = db_of (u ++ us) (l ++ ls) (a ++ aps) s e
       /\ (List.length us <= 1)%nat
       /\ (List.length ls <= 3)%nat
       /\ (List.length aps <= 1)%nat
       /\ Forall starts_unused ls.
Proof.
  split.
  - rewrite (setup_effect now g [] [] [] [] [] []) by reflexivity.
    rewrite (setup_effect now g (db_of [] [] [] [] []) [] [] [] [] [])
      by reflexivity.
    reflexivity.
  - rewrite (setup_effect now g (db_of u l a s e) u l a s e)
      by apply create_all_on_script_database.
    destruct (insert_row_appends SetupDatabase.txa_users now
                (SetupDatabase.admin_user (drawn_hex g 32 18)
                   (encode_verifier (next_salt g)
                      (derived_key SetupDatabase.admin_password (next_salt g)))
                   (drawn_hex g 50 16)) u) as (us & -> & Hus).
    destruct (sample_license_appends now
                (upper (drawn_hex g 66 32), "standard"%string, 5) l)
      as (l1 & -> & H1 & U1).
    destruct (sample_license_appends now
                (upper (drawn_hex g 98 32), "premium"%string, 10) (l ++ l1))
      as (l2 & -> & H2 & U2).
    destruct (sample_license_appends now
                (upper (drawn_hex g 130 32), "enterprise"%string, 25)
                ((l ++ l1) ++ l2))
      as (l3 & -> & H3 & U3).
    destruct (insert_row_appends SetupDatabase.txa_applications now
                (SetupDatabase.sample_application
                   (drawn_hex g 162 18) (drawn_hex g 180 32)) a)
      as (aps & -> & Haps).
    exists (SetupDatabase.mk_world (advance g 212)
              (db_of (u ++ us) (((l ++ l1) ++ l2) ++ l3) (a ++ aps) s e)),
      us, (l1 ++ l2 ++ l3), aps.
    split; [reflexivity|]. split; [reflexivity|].
    split; [cbn [SetupDatabase.store]; now rewrite <- !app_assoc|].
    split; [exact Hus|].
    split; [rewrite !length_app; lia|].
    split; [exact Haps|].
    repeat (apply Forall_app; split); assumption.
Qed.

(** ** Running the script twice *)

(** X10. Running the script a second time on the database a first run
    made from a new file leaves the user table as it was: the one admin
    record of the first run, with the password hash of the first run; the
    second admin insert is skipped, whatever the second run draws. *)
Theorem second_run_keeps_the_admin_record
    (now1 now2 : string) (g : Secrets.csprng) :
  exists w1 w2 r,
    SetupScript.setup now1 (SetupDatabase.mk_world g []) = Some (tt, w1)
    /\ Sqlite.rows_of "txa_users" (SetupDatabase.store w1) = [r]
    /\ SetupScript.setup now2 w1 = Some (tt, w2)
    /\ Sqlite.rows_of "txa_users" (SetupDatabase.store w2) = [r]
    /\ Sqlite.get r "password_hash"
       = Sqlite.Text
           (encode_verifier (next_salt g)
              (derived_key SetupDatabase.admin_password (next_salt g))).
Proof.
  rewrite (setup_effect now1 g [] [] [] [] [] []) by reflexivity.
  rewrite admin_insert_new.
  eexists _, _, _. split; [reflexivity|].
  split; [reflexivity|].
  split.
  - apply setup_effect. apply create_all_on_script_database.
  - cbn [SetupDatabase.store]. split.
    + change (Sqlite.rows_of "txa_users" (db_of ?u ?l ?a ?s ?e)) with u.
      unfold Sqlite.insert_row at 1. rewrite admin_violation.
      destruct (stored "uuid" _ _); reflexivity.
    + reflexivity.
Qed.

(** ** The seeded licenses *)

Lemma insert_license_eq (now k ty : string) (n : Z) (rows : list Sqlite.row) :
  Sqlite.insert_row SetupDatabase.txa_licenses now
    (SetupDatabase.sample_license (k, ty, n)) rows
  = if stored "key" (Sqlite.Text k) rows then rows
    else rows ++ [Sqlite.build_row SetupDatabase.txa_licenses now
                    (SetupDatabase.sample_license (k, ty, n)) rows].
Proof. unfold Sqlite.insert_row. rewrite license_violation. reflexivity. Qed.

Lemma stored_key_cons (now k ty k' : string) (n : Z)
    (before rows : list Sqlite.row) :
  stored "key" (Sqlite.Text k')
    (Sqlite.build_row SetupDatabase.txa_licenses now
       (SetupDatabase.sample_license (k, ty, n)) before :: rows)
  = String.eqb k k' || stored "key" (Sqlite.Text k') rows.
Proof. reflexivity. Qed.

(** Three inserts of different keys into an empty table store three rows
    with the ids 1, 2 and 3. *)
Lemma three_licenses (now k1 k2 k3 : string) :
  k1 <> k2 -> k1 <> k3 -> k2 <> k3 ->
  exists r1 r2 r3,
    Sqlite.insert_row SetupDatabase.txa_licenses now
      (SetupDatabase.sample_license (k3, "enterprise", 25))
      (Sqlite.insert_row SetupDatabase.txa_licenses now
         (SetupDatabase.sample_license (k2, "premium", 10))
         (Sqlite.insert_row SetupDatabase.txa_licenses now
            (SetupDatabase.sample_license (k1, "standard", 5)) []))
    = [r1; r2; r3]
    /\ (Sqlite.get r1 "id", Sqlite.get r1 "key", Sqlite.get r1 "type",
        Sqlite.get r1 "max_applications")
       = (Sqlite.Integer 1, Sqlite.Text k1, Sqlite.Text "standard",
          Sqlite.Integer 5)
    /\ (Sqlite.get r2 "id", Sqlite.get r2 "key", Sqlite.get r2 "type",
        Sqlite.get r2 "max_applications")
       = (Sqlite.Integer 2, Sqlite.Text k2, Sqlite.Text "premium",
          Sqlite.Integer 10)
    /\ (Sqlite.get r3 "id", Sqlite.get r3 "key", Sqlite.get r3 "type",
        Sqlite.get r3 "max_applications")
       = (Sqlite.Integer 3, Sqlite.Text k3, Sqlite.Text "enterprise",
          Sqlite.Integer 25).
Proof.
  intros H12 H13 H23.
  apply String.eqb_neq in H12, H13, H23.
  rewrite (insert_license_eq now k1). cbn [stored existsb app].
  rewrite (insert_license_eq now k2), stored_key_cons, H12.
  cbn [stored existsb orb app].
  rewrite (insert_license_eq now k3), !stored_key_cons, H13, H23.
  cbn [stored existsb orb app].
  eexists _, _, _. split; [reflexivity|]. repeat split.
Qed.

(** X11. On a new database, when the three license keys are made from
    three different 32-byte draws, the script stores exactly three
    licenses, with the ids 1, 2 and 3: the first key as ['standard'] with 5
    applications, the second as ['premium'] with 10 and the third as
    ['enterprise'] with 25. *)
Theorem distinct_draws_store_three_licenses (now : string) (g : Secrets.csprng) :
  drawn g 66 32 <> drawn g 98 32 ->
  drawn g 66 32 <> drawn g 130 32 ->
  drawn g 98 32 <> drawn g 130 32 ->
  exists w r1 r2 r3,
    SetupScript.setup now (SetupDatabase.mk_world g []) = Some (tt, w)
    /\ Sqlite.rows_of "txa_licenses" (SetupDatabase.store w) = [r1; r2; r3]
    /\ (Sqlite.get r1 "id", Sqlite.get r1 "key", Sqlite.get r1 "type",
        Sqlite.get r1 "max_applications")
       = (Sqlite.Integer 1, Sqlite.Text (upper (drawn_hex g 66 32)),
          Sqlite.Text "standard", Sqlite.Integer 5)
    /\ (Sqlite.get r2 "id", Sqlite.get r2 "key", Sqlite.get r2 "type",
        Sqlite.get r2 "max_applications")
       = (Sqlite.Integer 2, Sqlite.Text (upper (drawn_hex g 98 32)),
          Sqlite.Text "premium", Sqlite.Integer 10)
    /\ (Sqlite.get r3 "id", Sqlite.get r3 "key", Sqlite.get r3 "type",
        Sqlite.get r3 "max_applications")
       = (Sqlite.Integer 3, Sqlite.Text (upper (drawn_hex g 130 32)),
          Sqlite.Text "enterprise", Sqlite.Integer 25).
Proof.
  intros H12 H13 H23.
  destruct (setup_new_database now g) as (w & Hrun & _ & Hlic).
  destruct (three_licenses now (upper (drawn_hex g 66 32))
              (upper (drawn_hex g 98 32)) (upper (drawn_hex g 130 32)))
    as (r1 & r2 & r3 & Hrows & Hfields);
    try (intros E; apply upper_hex_key_inj in E; contradiction).
  exists w, r1, r2, r3. split; [exact Hrun|].
  split; [rewrite Hlic; exact Hrows | exact Hfields].
Qed.

Lemma distinct_draws_store_three_licenses_witness :
  drawn counting_source 66 32 <> drawn counting_source 98 32
  /\ drawn counting_source 66 32 <> drawn counting_source 130 32
  /\ drawn counting_source 98 32 <> drawn counting_source 130 32
  /\ exists w r1 r2 r3,
       SetupScript.setup "2024-01-01 00:00:00"
         (SetupDatabase.mk_world counting_source []) = Some (tt, w)
       /\ Sqlite.rows_of "txa_licenses" (SetupDatabase.store w) = [r1; r2; r3]
       /\ (Sqlite.get r1 "id", Sqlite.get r1 "key", Sqlite.get r1 "type",
           Sqlite.get r1 "max_applications")
          = (Sqlite.Integer 1, Sqlite.Text (upper (drawn_hex counting_source 66 32)),
             Sqlite.Text "standard", Sqlite.Integer 5)
       /\ (Sqlite.get r2 "id", Sqlite.get r2 "key", Sqlite.get r2 "type",
           Sqlite.get r2 "max_applications")
          = (Sqlite.Integer 2, Sqlite.Text (upper (drawn_hex counting_source 98 32)),
             Sqlite.Text "premium", Sqlite.Integer 10)
       /\ (Sqlite.get r3 "id", Sqlite.get r3 "key", Sqlite.get r3 "type",
           Sqlite.get r3 "max_applications")
          = (Sqlite.Integer 3, Sqlite.Text (upper (drawn_hex counting_source 130 32)),
             Sqlite.Text "enterprise", Sqlite.Integer 25).
Proof.
  assert (H12 : drawn counting_source 66 32 <> drawn counting_source 98 32)
    by (vm_compute; discriminate).
  assert (H13 : drawn counting_source 66 32 <> drawn counting_source 130 32)
    by (vm_compute; discriminate).
  assert (H23 : drawn counting_source 98 32 <> drawn counting_source 130 32)
    by (vm_compute; discriminate).
  split; [exact H12|]. split; [exact H13|]. split; [exact H23|].
  apply (distinct_draws_store_three_licenses "2024-01-01 00:00:00"
           counting_source H12 H13 H23).
Defined.

(** ** Scanning by id *)

Lemma ascending_weaken (rows : list Sqlite.row) :
  forall above limit limit',
    ascending_ids above limit rows = true -> limit <= limit' ->
    ascending_ids above limit' rows = true.
Proof.
  induction rows as [|r rows IH]; intros above limit limit' H Hle;
    [reflexivity|].
  cbn [ascending_ids] in *. destruct (Sqlite.get r "id") as [|z|t];
    try discriminate.
  apply andb_true_iff in H as [H Hrest]. apply andb_true_iff in H as [Ha Hl].
  rewrite Ha, (IH _ _ _ Hrest Hle), andb_true_r. cbn [andb].
  apply Z.ltb_lt in Hl. apply Z.ltb_lt. lia.
Qed.

Lemma ascending_above (rows : list Sqlite.row) :
  forall above limit r,
    ascending_ids above limit rows = true -> In r rows ->
    exists z, Sqlite.get r "id" = Sqlite.Integer z /\ above < z.
Proof.
  induction rows as [|r1 rows IH]; intros above limit r H Hin; [contradiction|].
  cbn [ascending_ids] in H. destruct (Sqlite.get r1 "id") as [|z1|t] eqn:G;
    try discriminate.
  apply andb_true_iff in H as [H Hrest]. apply andb_true_iff in H as [Ha _].
  apply Z.ltb_lt in Ha. destruct Hin as [<- | Hin].
  - exists z1. split; [exact G | exact Ha].
  - destruct (IH _ _ _ Hrest Hin) as (z & Hz & Hlt).
    exists z. split; [exact Hz | lia].
Qed.

(** In rows of ascending ids the first row that passes a test has the
    least id of all that pass it. *)
Lemma ascending_find_least (f : Sqlite.row -> bool) (rows : list Sqlite.row) :
  forall above limit r0,
    ascending_ids above limit rows = true -> find f rows = Some r0 ->
    forall r, In r rows -> f r = true ->
              exists z0 z, Sqlite.get r0 "id" = Sqlite.Integer z0
                           /\ Sqlite.get r "id" = Sqlite.Integer z
                           /\ z0 <= z.
Proof.
  induction rows as [|r1 rows IH]; intros above limit r0 H Hfind r Hin Hr;
    [contradiction|].
  cbn [ascending_ids] in H. destruct (Sqlite.get r1 "id") as [|z1|t] eqn:G;
    try discriminate.
  apply andb_true_iff in H as [_ Hrest].
  cbn [find] in Hfind. destruct (f r1) eqn:F1.
  - injection Hfind as <-. destruct Hin as [<- | Hin].
    + exists z1, z1. repeat split; [exact G | exact G | lia].
    + destruct (ascending_above _ _ _ _ Hrest Hin) as (z & Hz & Hlt).
      exists z1, z. repeat split; [exact G | exact Hz | lia].
  - destruct Hin as [<- | Hin]; [congruence|].
    exact (IH _ _ _ Hrest Hfind r Hin Hr).
Qed.

(** After rows of ascending ids, all from [above] on, the largest id is
    that of the last row, and a row that takes the id after it keeps the
    ids ascending. *)
Lemma ascending_largest (rows : list Sqlite.row) :
  forall above limit,
    ascending_ids above limit rows = true -> above < limit ->
    exists y,
      fold_left (fun m r => match Sqlite.get r "id", m with
                            | Sqlite.Integer z, Some x => Some (Z.max x z)
                            | Sqlite.Integer z, None => Some z
                            | _, _ => m
                            end) rows (Some above) = Some y
      /\ above <= y < limit
      /\ forall r limit',
           Sqlite.get r "id" = Sqlite.Integer (y + 1) -> y + 1 < limit' ->
           limit <= limit' ->
           ascending_ids above limit' (rows ++ [r]) = true.
Proof.
  induction rows as [|r1 rows IH]; intros above limit H Hlt.
  - exists above. split; [reflexivity|]. split; [lia|].
    intros r limit' Hr Hy _. cbn [app ascending_ids]. rewrite Hr.
    rewrite andb_true_r. apply andb_true_iff.
    split; apply Z.ltb_lt; lia.
  - cbn [ascending_ids] in H. destruct (Sqlite.get r1 "id") as [|z1|t] eqn:G;
      try discriminate.
    apply andb_true_iff in H as [H Hrest]. apply andb_true_iff in H as [Ha Hl].
    apply Z.ltb_lt in Ha, Hl.
    destruct (IH z1 limit Hrest Hl) as (y & Hy & Hbound & Hsnoc).
    exists y. cbn [fold_left]. rewrite G, Z.max_r by lia.
    split; [exact Hy|]. split; [lia|].
    intros r limit' Hr Hnext Hle. cbn [app ascending_ids]. rewrite G.
    rewrite (Hsnoc r limit' Hr Hnext Hle), andb_true_r.
    apply andb_true_iff. split; apply Z.ltb_lt; lia.
Qed.

Lemma ascending_next (rows : list Sqlite.row) (limit limit' : Z) (r : Sqlite.row) :
  ascending_ids 0 limit rows = true ->
  0 < limit -> limit <= Sqlite.max_rowid -> limit < limit' ->
  Sqlite.get r "id" = Sqlite.Integer (Sqlite.next_rowid "id" rows) ->
  ascending_ids 0 limit' (rows ++ [r]) = true.
Proof.
  intros H Hpos Hmax Hlt. unfold Sqlite.next_rowid, Sqlite.largest_id.
  destruct rows as [|r1 rows].
  - cbn [fold_left app ascending_ids]. intros ->.
    rewrite andb_true_r. apply andb_true_iff. split; apply Z.ltb_lt; lia.
  - cbn [ascending_ids] in H. cbn [fold_left app ascending_ids].
    destruct (Sqlite.get r1 "id") as [|z1|t] eqn:G; try discriminate.
    apply andb_true_iff in H as [H Hrest]. apply andb_true_iff in H as [Ha Hl].
    apply Z.ltb_lt in Ha, Hl.
    destruct (ascending_largest rows z1 limit Hrest Hl)
      as (y & -> & Hbound & Hsnoc).
    assert (Hne : (y =? Sqlite.max_rowid)%Z = false) by (apply Z.eqb_neq; lia).
    rewrite Hne. intros Hr.
    rewrite (Hsnoc r limit' Hr) by lia. rewrite andb_true_r.
    apply andb_true_iff. split; apply Z.ltb_lt; lia.
Qed.

Lemma license_insert_ascending
    (now : string) (k : string * string * Z) (rows : list Sqlite.row)
    (limit limit' : Z) :
  ascending_ids 0 limit rows = true ->
  0 < limit -> limit <= Sqlite.max_rowid -> limit < limit' ->
  ascending_ids 0 limit'
    (Sqlite.insert_row SetupDatabase.txa_licenses now
       (SetupDatabase.sample_license k) rows) = true.
Proof.
  intros H Hpos Hmax Hlt. destruct k as [[k ty] n].
  rewrite insert_license_eq.
  destruct (stored "key" (Sqlite.Text k) rows).
  - apply (ascending_weaken rows 0 limit limit' H). lia.
  - apply (ascending_next rows limit limit' _ H Hpos Hmax Hlt). reflexivity.
Qed.

(** ** The sample license of the summary *)

Lemma find_app_found {A} (f : A -> bool) (xs ys : list A) (x : A) :
  find f xs = Some x -> find f (xs ++ ys) = Some x.
Proof.
  induction xs as [|a xs IH]; cbn [find app]; [discriminate|].
  destruct (f a); [trivial | exact IH].
Qed.

(** A scan of rows stored in ascending order of their ids meets them in
    the order stored. *)
Lemma ascending_scan (rows : list Sqlite.row) :
  forall above limit,
    ascending_ids above limit rows = true ->
    fold_right (Sqlite.place_by_rowid "id") [] rows = rows.
Proof.
  induction rows as [|r1 rows IH]; intros above limit H; [reflexivity|].
  cbn [ascending_ids] in H. destruct (Sqlite.get r1 "id") as [|z1|t] eqn:G;
    try discriminate.
  apply andb_true_iff in H as [_ Hrest].
  cbn [fold_right]. rewrite (IH _ _ Hrest).
  destruct rows as [|r2 rows]; [reflexivity|].
  cbn [ascending_ids] in Hrest.
  destruct (Sqlite.get r2 "id") as [|z2|t] eqn:G2; try discriminate.
  apply andb_true_iff in Hrest as [H2 _]. apply andb_true_iff in H2 as [H2 _].
  apply Z.ltb_lt in H2.
  cbn [Sqlite.place_by_rowid]. unfold Sqlite.rowid_of. rewrite G, G2.
  assert (Hle : (z1 <=? z2)%Z = true) by (apply Z.leb_le; lia).
  now rewrite Hle.
Qed.

(** A scan meets the license of id 1 before that of id 2 also when it was
    stored after it. *)
Example scan_is_by_id :
  Sqlite.table_scan
    (Sqlite.mk_relation SetupDatabase.txa_licenses
       [unused_license; activated_license])
  = [activated_license; unused_license].
Proof. reflexivity. Qed.

(** The script and its closing query on a database of five tables: the
    query scans the licenses the three inserts leave. *)
Lemma main_on_script_database
    (now : string) (g : Secrets.csprng) (u l a s e : list Sqlite.row) :
  exists w,
    SetupReport.main now (SetupDatabase.mk_world g (db_of u l a s e))
    = Some (option_map (fun r => (Sqlite.get r "key", Sqlite.get r "type"))
              (find is_unused
                 (fold_right (Sqlite.place_by_rowid "id") []
                    (Sqlite.insert_row SetupDatabase.txa_licenses now
                       (SetupDatabase.sample_license
                          (upper (drawn_hex g 130 32), "enterprise", 25))
                       (Sqlite.insert_row SetupDatabase.txa_licenses now
                          (SetupDatabase.sample_license
                             (upper (drawn_hex g 98 32), "premium", 10))
                          (Sqlite.insert_row SetupDatabase.txa_licenses now
                             (SetupDatabase.sample_license
                                (upper (drawn_hex g 66 32), "standard", 5))
                             l))))),
            w)
    /\ Sqlite.rows_of "txa_licenses" (SetupDatabase.store w)
       = Sqlite.insert_row SetupDatabase.txa_licenses now
           (SetupDatabase.sample_license
              (upper (drawn_hex g 130 32), "enterprise", 25))
           (Sqlite.insert_row SetupDatabase.txa_licenses now
              (SetupDatabase.sample_license
                 (upper (drawn_hex g 98 32), "premium", 10))
              (Sqlite.insert_row SetupDatabase.txa_licenses now
                 (SetupDatabase.sample_license
                    (upper (drawn_hex g 66 32), "standard", 5))
                 l)).
Proof.
  unfold SetupReport.main, SetupDatabase.andthen.
  rewrite (setup_effect now g (db_of u l a s e) u l a s e)
    by apply create_all_on_script_database.
  eexists. split; reflexivity.
Qed.

(** Three sample-license inserts, one after the other, keep ascending ids
    ascending and only append. *)
Lemma three_inserts_ascending
    (now k1 k2 k3 : string) (l : list Sqlite.row) (limit : Z) :
  ascending_ids 0 limit l = true ->
  0 < limit -> limit + 2 <= Sqlite.max_rowid ->
  exists ls,
    Sqlite.insert_row SetupDatabase.txa_licenses now
      (SetupDatabase.sample_license (k3, "enterprise", 25))
      (Sqlite.insert_row SetupDatabase.txa_licenses now
         (SetupDatabase.sample_license (k2, "premium", 10))
         (Sqlite.insert_row SetupDatabase.txa_licenses now
            (SetupDatabase.sample_license (k1, "standard", 5)) l))
    = (l ++ ls)%list
    /\ ascending_ids 0 (limit + 3) (l ++ ls)%list = true
    /\ exists rest,
         Sqlite.insert_row SetupDatabase.txa_licenses now
           (SetupDatabase.sample_license (k1, "standard", 5)) l ++ rest
         = (l ++ ls)%list.
Proof.
  intros Hasc Hpos Hmax.
  assert (H1 := license_insert_ascending now (k1, "standard", 5) l
                  limit (limit + 1) Hasc Hpos).
  destruct (insert_row_appends SetupDatabase.txa_licenses now
              (SetupDatabase.sample_license (k1, "standard", 5)) l)
    as (a1 & E1 & _).
  assert (H2 := license_insert_ascending now (k2, "premium", 10) (l ++ a1)
                  (limit + 1) (limit + 2)).
  destruct (insert_row_appends SetupDatabase.txa_licenses now
              (SetupDatabase.sample_license (k2, "premium", 10)) (l ++ a1))
    as (a2 & E2 & _).
  assert (H3 := license_insert_ascending now (k3, "enterprise", 25)
                  ((l ++ a1) ++ a2) (limit + 2) (limit + 3)).
  destruct (insert_row_appends SetupDatabase.txa_licenses now
              (SetupDatabase.sample_license (k3, "enterprise", 25))
              ((l ++ a1) ++ a2))
    as (a3 & E3 & _).
  rewrite E1 in *. rewrite E2 in *. rewrite E3 in *.
  specialize (H1 ltac:(lia) ltac:(lia)).
  specialize (H2 H1 ltac:(lia) ltac:(lia) ltac:(lia)).
  specialize (H3 H2 ltac:(lia) ltac:(lia) ltac:(lia)).
  exists (a1 ++ a2 ++ a3)%list. rewrite <- !app_assoc in *.
  split; [reflexivity|]. split; [exact H3|].
  exists (a2 ++ a3)%list. rewrite <- !app_assoc. reflexivity.
Qed.

(** X12. On a new database the closing query of the script always finds a
    license to show, the ['standard'] one made from the first key: the
    branch that prints ["No licenses available"] is not taken. *)
Theorem new_database_shows_the_first_license (now : string) (g : Secrets.csprng) :
  exists w,
    SetupReport.main now (SetupDatabase.mk_world g [])
    = Some (Some (Sqlite.Text (upper (drawn_hex g 66 32)),
                  Sqlite.Text "standard"), w).
Proof.
  destruct (main_on_script_database now g [] [] [] [] []) as (w & H & _).
  exists w.
  unfold SetupReport.main, SetupDatabase.andthen in *.
  rewrite (setup_effect now g [] [] [] [] [] []) by reflexivity.
  rewrite (setup_effect now g (db_of [] [] [] [] []) [] [] [] [] []) in H
    by reflexivity.
  rewrite H.
  destruct (three_inserts_ascending now (upper (drawn_hex g 66 32))
              (upper (drawn_hex g 98 32)) (upper (drawn_hex g 130 32)) [] 1)
    as (ls & E & Hasc & rest & Efirst);
    [reflexivity | lia | unfold Sqlite.max_rowid; lia |].
  rewrite E, (ascending_scan _ _ _ Hasc), <- Efirst, insert_license_eq.
  reflexivity.
Qed.

(** The licenses of the example fit their table. *)
Example stored_licenses_fit :
  Forall (row_fits SetupDatabase.txa_licenses) stored_licenses.
Proof.
  repeat constructor;
    intros c Hc Hk; cbn in Hc;
    repeat (destruct Hc as [<- | Hc];
            [try discriminate Hk; cbn; discriminate|]);
    contradiction.
Qed.

(** X13. On a database whose licenses are stored in ascending order of
    their positive ids, all below [2^63 - 4], and one of them unused, the
    closing query shows the first stored unused license: it has the least
    id of all unused licenses stored after the run, so it is none of the
    three the run has just added; after the run the licenses are still in
    ascending order of their ids. *)
Theorem oldest_unused_license_is_shown
    (now : string) (g : Secrets.csprng) (u l a s e : list Sqlite.row)
    (r0 : Sqlite.row) :
  ascending_ids 0 (2 ^ 63 - 4) l = true ->
  find is_unused l = Some r0 ->
  exists w ls,
    SetupReport.main now (SetupDatabase.mk_world g (db_of u l a s e))
    = Some (Some (Sqlite.get r0 "key", Sqlite.get r0 "type"), w)
    /\ Sqlite.rows_of "txa_licenses" (SetupDatabase.store w) = (l ++ ls)%list
    /\ ascending_ids 0 (2 ^ 63 - 1) (l ++ ls)%list = true
    /\ forall r, In r (l ++ ls)%list -> is_unused r = true ->
                 exists z0 z, Sqlite.get r0 "id" = Sqlite.Integer z0
                              /\ Sqlite.get r "id" = Sqlite.Integer z
                              /\ z0 <= z.
Proof.
  intros Hasc Hfound.
  destruct (main_on_script_database now g u l a s e) as (w & H & Hrows).
  destruct (three_inserts_ascending now (upper (drawn_hex g 66 32))
              (upper (drawn_hex g 98 32)) (upper (drawn_hex g 130 32)) l
              (2 ^ 63 - 4) Hasc)
    as (ls & E & Hall & _); [lia | unfold Sqlite.max_rowid; lia |].
  replace (2 ^ 63 - 4 + 3) with (2 ^ 63 - 1) in Hall by lia.
  assert (Hfind : find is_unused (l ++ ls) = Some r0)
    by exact (find_app_found _ _ _ _ Hfound).
  exists w, ls.
  rewrite E in H, Hrows.
  rewrite (ascending_scan _ _ _ Hall), Hfind in H.
  split; [exact H|]. split; [exact Hrows|]. split; [exact Hall|].
  exact (ascending_find_least is_unused _ 0 (2 ^ 63 - 1) r0 Hall Hfind).
Qed.

Lemma oldest_unused_license_is_shown_witness :
  ascending_ids 0 (2 ^ 63 - 4) stored_licenses = true
  /\ find is_unused stored_licenses = Some unused_license
  /\ exists w ls,
       SetupReport.main "2024-01-01 00:00:00"
         (SetupDatabase.mk_world counting_source
            (db_of [] stored_licenses [] [] []))
       = Some (Some (Sqlite.get unused_license "key",
                     Sqlite.get unused_license "type"), w)
       /\ Sqlite.rows_of "txa_licenses" (SetupDatabase.store w)
          = (stored_licenses ++ ls)%list
       /\ ascending_ids 0 (2 ^ 63 - 1) (stored_licenses ++ ls)%list = true
       /\ forall r, In r (stored_licenses ++ ls)%list -> is_unused r = true ->
                    exists z0 z, Sqlite.get unused_license "id" = Sqlite.Integer z0
                                 /\ Sqlite.get r "id" = Sqlite.Integer z
                                 /\ z0 <= z.
Proof.
  assert (Hasc : ascending_ids 0 (2 ^ 63 - 4) stored_licenses = true)
    by reflexivity.
  assert (H : find is_unused stored_licenses = Some unused_license)
    by reflexivity.
  split; [exact Hasc|]. split; [exact H|].
  apply (oldest_unused_license_is_shown "2024-01-01 00:00:00" counting_source
           [] stored_licenses [] [] [] unused_license Hasc H).
Defined.

(** ** The seeded identifiers *)

Lemma application_insert_new (now x y : string) :
  Sqlite.insert_row SetupDatabase.txa_applications now
    (SetupDatabase.sample_application x y) []
  = [Sqlite.build_row SetupDatabase.txa_applications now
       (SetupDatabase.sample_application x y) []].
Proof. reflexivity. Qed.

(** X14. On a new database the script stores one user and one application
    whose identifiers are lowercase hexadecimal tokens: a user uuid of 36
    digits, a password salt of 32, an application uuid of 36 and an
    application secret of 64 digits; the application is named
    ['Whisker Auth Demo'] and requires a ['standard'] license. *)
Theorem seeded_identifiers_are_hex_tokens (now : string) (g : Secrets.csprng) :
  exists w user app uuid salt app_uuid secret,
    SetupScript.setup now (SetupDatabase.mk_world g []) = Some (tt, w)
    /\ Sqlite.rows_of "txa_users" (SetupDatabase.store w) = [user]
    /\ Sqlite.rows_of "txa_applications" (SetupDatabase.store w) = [app]
    /\ Sqlite.get user "uuid" = Sqlite.Text uuid
    /\ lower_hex_of_length 36 uuid
    /\ Sqlite.get user "password_salt" = Sqlite.Text salt
    /\ lower_hex_of_length 32 salt
    /\ Sqlite.get app "uuid" = Sqlite.Text app_uuid
    /\ lower_hex_of_length 36 app_uuid
    /\ Sqlite.get app "secret_key" = Sqlite.Text secret
    /\ lower_hex_of_length 64 secret
    /\ Sqlite.get app "name" = Sqlite.Text "Whisker Auth Demo"
    /\ Sqlite.get app "requires_license" = Sqlite.Integer 1
    /\ Sqlite.get app "required_license_type" = Sqlite.Text "standard".
Proof.
  rewrite (setup_effect now g [] [] [] [] [] []) by reflexivity.
  rewrite admin_insert_new, application_insert_new.
  eexists _, _, _, (drawn_hex g 32 18), (drawn_hex g 50 16),
    (drawn_hex g 162 18), (drawn_hex g 180 32).
  split; [reflexivity|]. split; [reflexivity|]. split; [reflexivity|].
  split; [reflexivity|]. split; [apply (drawn_hex_lower g 32 18)|].
  split; [reflexivity|]. split; [apply (drawn_hex_lower g 50 16)|].
  split; [reflexivity|]. split; [apply (drawn_hex_lower g 162 18)|].
  split; [reflexivity|]. split; [apply (drawn_hex_lower g 180 32)|].
  repeat split.
Qed.

(** ** Hashing again with the salt of a verifier *)

Lemma some_eq {A} (a b : A) : Some a = Some b -> a = b.
Proof. intros H. injection H. trivial. Qed.

(** X15. The verifier of a call without salt can be checked with
    [generate_secure_hash] alone: it decodes to bytes whose first 32 are the
    salt, and hashing a candidate secret with that salt supplied returns the
    very same verifier exactly when PBKDF2 derives the same key from the
    candidate as from the original secret; for the original secret it
    always does. *)
Theorem rehashing_with_the_decoded_salt_checks_a_secret
    (data candidate : string) (g g' : Secrets.csprng) :
  exists v raw,
    fst (SetupDatabase.generate_secure_hash data None g) = Some v
    /\ Base64.b64decode (list_byte_of_string v) = Some raw
    /\ firstn 32 raw = next_salt g
    /\ fst (SetupDatabase.generate_secure_hash data (Some (firstn 32 raw)) g')
       = Some v
    /\ (fst (SetupDatabase.generate_secure_hash candidate
               (Some (firstn 32 raw)) g') = Some v
        <-> derived_key candidate (next_salt g) = derived_key data (next_salt g)).
Proof.
  set (salt := next_salt g).
  assert (Hs : List.length salt = 32%nat) by apply next_salt_length.
  exists (encode_verifier salt (derived_key data salt)),
    (salt ++ derived_key data salt).
  destruct (split_salt_key salt (derived_key data salt) Hs) as [-> _].
  split; [now rewrite generate_secure_hash_fresh|].
  split; [apply decode_verifier|].
  split; [reflexivity|].
  rewrite !generate_secure_hash_salted. cbn [fst].
  split; [reflexivity|]. split.
  - intros E. apply some_eq in E.
    now apply encode_verifier_inj in E as [_ E].
  - now intros ->.
Qed.

(** X16. Two supplied salts of the same length give the same verifier for
    a secret only if they are the same salt. *)
Theorem equal_verifiers_have_equal_salts
    (data : string) (s1 s2 : list byte) (g1 g2 : Secrets.csprng) :
  List.length s1 = List.length s2 ->
  fst (SetupDatabase.generate_secure_hash data (Some s1) g1)
  = fst (SetupDatabase.generate_secure_hash data (Some s2) g2) ->
  s1 = s2.
Proof.
  intros Hlen. rewrite !generate_secure_hash_salted. cbn [fst].
  intros E. apply some_eq in E.
  now apply encode_verifier_inj in E as [E _].
Qed.

Lemma equal_verifiers_have_equal_salts_witness :
  List.length (next_salt counting_source) = List.length (next_salt counting_source)
  /\ fst (SetupDatabase.generate_secure_hash "TXA2024!@#"
            (Some (next_salt counting_source)) counting_source)
     = fst (SetupDatabase.generate_secure_hash "TXA2024!@#"
              (Some (next_salt counting_source)) (advance counting_source 32))
  /\ next_salt counting_source = next_salt counting_source.
Proof.
  assert (H1 : List.length (next_salt counting_source)
               = List.length (next_salt counting_source)) by reflexivity.
  assert (H2 : fst (SetupDatabase.generate_secure_hash "TXA2024!@#"
                      (Some (next_salt counting_source)) counting_source)
               = fst (SetupDatabase.generate_secure_hash "TXA2024!@#"
                        (Some (next_salt counting_source))
                        (advance counting_source 32)))
    by (rewrite !generate_secure_hash_salted; reflexivity).
  split; [exact H1|]. split; [exact H2|].
  apply (equal_verifiers_have_equal_salts "TXA2024!@#"
           (next_salt counting_source) (next_salt counting_source)
           counting_source (advance counting_source 32) H1 H2).
Defined.

(** ** The application insert on any stored rows *)

(** X17. The sample-application insert is skipped exactly when a stored
    application already has its uuid or its secret key. Otherwise it adds
    one row, whose id is an integer that no stored row has, with the bound
    versions ['3.1.2'] and
    ['3.0.0'], no forced update, status ['active'], a required license of
    type ['standard'] and counters at 0. *)
Theorem application_insert_is_skipped_iff_identity_is_stored
    (now x y : string) (rows : list Sqlite.row) :
  if stored "uuid" (Sqlite.Text x) rows || stored "secret_key" (Sqlite.Text y) rows
  then Sqlite.insert_row SetupDatabase.txa_applications now
         (SetupDatabase.sample_application x y) rows = rows
  else exists r id,
      Sqlite.insert_row SetupDatabase.txa_applications now
        (SetupDatabase.sample_application x y) rows = rows ++ [r]
      /\ Sqlite.get r "id" = Sqlite.Integer id
      /\ stored "id" (Sqlite.Integer id) rows = false
      /\ Sqlite.get r "uuid" = Sqlite.Text x
      /\ Sqlite.get r "secret_key" = Sqlite.Text y
      /\ Sqlite.get r "current_version" = Sqlite.Text "3.1.2"
      /\ Sqlite.get r "minimum_version" = Sqlite.Text "3.0.0"
      /\ Sqlite.get r "force_update" = Sqlite.Integer 0
      /\ Sqlite.get r "status" = Sqlite.Text "active"
      /\ Sqlite.get r "requires_license" = Sqlite.Integer 1
      /\ Sqlite.get r "required_license_type" = Sqlite.Text "standard"
      /\ Sqlite.get r "total_users" = Sqlite.Integer 0
      /\ Sqlite.get r "active_sessions" = Sqlite.Integer 0.
Proof.
  unfold Sqlite.insert_row. rewrite application_violation.
  destruct (stored "uuid" (Sqlite.Text x) rows
            || stored "secret_key" (Sqlite.Text y) rows); [reflexivity|].
  eexists _, (Sqlite.next_rowid "id" rows). split; [reflexivity|].
  split; [reflexivity|]. split; [apply next_rowid_fresh|]. repeat split.
Qed.
